(** * Polar-plant EC dashboard (main.py): model and verified properties

    main.py is one linear Streamlit script: two loaders read the data
    directory, the script stops when either returns [None], and three tabs
    render tables, metric cards, charts and two downloads.

    Modelling conventions.
    - A Python [str] is its sequence of code points ([pystr]); literals of the
      script are written as UTF-8 Rocq strings and decoded once by [py].
    - [unicodedata.normalize] is a library function: the script is modelled in
      a Section over two functions [nfc] and [nfd]; what Unicode guarantees
      about them is a Section hypothesis used only where it is needed.  Module
      [Hangul] gives the instance for Hangul syllables (the script's file
      names), by the arithmetic of the Unicode standard.
    - A dict is an association list in insertion order (Python dicts iterate
      in insertion order and the script depends on it).
    - A numeric cell is a rational, the value of its binary64 number;
      [None] is a missing cell (NaN).  The sample data write a cell as the
      decimal of the file, which stands for the binary64 value nearest to
      it.  Comparisons of cells are exact, as they are in binary64.  The
      means are not: [Series.mean] and [SeriesGroupBy.mean] round, each in
      its own order of summation, so the script is modelled over these two
      functions and nothing is assumed about them.  Module [Float64] gives
      an instance in binary64 arithmetic, at which the script is evaluated
      on the sample data.  Infinite cells (a sum that overflows) are not
      represented.
    - The data directory exists, and files that are present are well formed:
      pandas parses them and they have the columns the script reads.  In
      particular the entry the growth loader takes for the workbook (the
      first one with the suffix, which the script does not test for being a
      file) is a workbook that pandas opens; a folder or a damaged file of
      that name makes [pd.ExcelFile] raise while loading, a run that is not
      represented.  The exceptions that remain are the ones the script
      itself can provoke: a key missing from a dict ([KeyError]) and pandas
      refusing an empty [concat] or an [idxmax] with no value ([ValueError]).
    - Streamlit calls are recorded as a trace of events; the static page
      set-up, style sheet and prose are left out. *)

From Stdlib Require Import String Ascii List Sorted NArith ZArith QArith Qreduction Bool Lia Arith.
From Stdlib Require Floats.
Import ListNotations.

Local Open Scope N_scope.

(* ================================================================== *)
(** ** Python strings *)

Module PyStr.

Definition pystr := list N.

(** Decoding of the UTF-8 bytes of a literal into code points. *)
Definition cont (b : N) : N := N.land b 0x3F.

Fixpoint utf8_decode (bs : list N) : pystr :=
  match bs with
  | [] => []
  | b0 :: t =>
    if b0 <? 0x80 then b0 :: utf8_decode t
    else if b0 <? 0xE0 then
      match t with
      | b1 :: t1 =>
        N.lor (N.shiftl (N.land b0 0x1F) 6) (cont b1) :: utf8_decode t1
      | [] => []
      end
    else if b0 <? 0xF0 then
      match t with
      | b1 :: b2 :: t2 =>
        N.lor (N.shiftl (N.land b0 0x0F) 12)
              (N.lor (N.shiftl (cont b1) 6) (cont b2)) :: utf8_decode t2
      | _ => []
      end
    else
      match t with
      | b1 :: b2 :: b3 :: t3 =>
        N.lor (N.shiftl (N.land b0 0x07) 18)
              (N.lor (N.shiftl (cont b1) 12)
                     (N.lor (N.shiftl (cont b2) 6) (cont b3))) :: utf8_decode t3
      | _ => []
      end
  end.

Definition py (s : string) : pystr :=
  utf8_decode (map N_of_ascii (list_ascii_of_string s)).

Fixpoint eqb (a b : pystr) : bool :=
  match a, b with
  | [], [] => true
  | x :: a', y :: b' => (x =? y) && eqb a' b'
  | _, _ => false
  end.

(** [str.lower], on the ASCII letters (no other code point lowers to one of
    the letters of ".xlsx", the only string the script compares with). *)
Definition lower_char (c : N) : N :=
  if (0x41 <=? c) && (c <=? 0x5A) then c + 0x20 else c.

Definition lower (s : pystr) : pystr := map lower_char s.

(** [str.rfind(".")]: the last position of a dot. *)
Fixpoint rfind_dot (s : pystr) : option nat :=
  match s with
  | [] => None
  | c :: t =>
    match rfind_dot t with
    | Some i => Some (S i)
    | None => if c =? 0x2E then Some O else None
    end
  end.

(** [PurePath.suffix]: from the last dot on, unless the dot is the first or
    the last character of the name. *)
Definition suffix (name : pystr) : pystr :=
  match rfind_dot name with
  | Some i =>
    if (Nat.ltb 0 i) && (Nat.ltb i (length name - 1)) then skipn i name else []
  | None => []
  end.

End PyStr.
Import PyStr.

(* ================================================================== *)
(** ** Dicts in insertion order *)

Section Dict.
Context {V : Type}.

Definition dict := list (pystr * V).

(** [d.get(k)]: the value of the first (and only) entry with key [k]. *)
Fixpoint dict_get (d : dict) (k : pystr) : option V :=
  match d with
  | [] => None
  | (k', v) :: rest => if PyStr.eqb k' k then Some v else dict_get rest k
  end.

(** [d[k] = v]: an existing key keeps its place, a new key goes last. *)
Fixpoint dict_set (d : dict) (k : pystr) (v : V) : dict :=
  match d with
  | [] => [(k, v)]
  | (k', v') :: rest =>
    if PyStr.eqb k' k then (k', v) :: rest else (k', v') :: dict_set rest k v
  end.

Definition keys (d : dict) : list pystr := map fst d.
Definition values (d : dict) : list V := map snd d.

End Dict.
Arguments dict : clear implicits.

(* ================================================================== *)
(** ** Hangul normalization (Unicode 3.12, conjoining jamo behaviour) *)

Module Hangul.

Definition SBase := 0xAC00.
Definition LBase := 0x1100.
Definition VBase := 0x1161.
Definition TBase := 0x11A7.
Definition LCount := 19.
Definition VCount := 21.
Definition TCount := 28.
Definition NCount := 588.
Definition SCount := 11172.

Definition is_syllable (c : N) : bool := (SBase <=? c) && (c <? SBase + SCount).
Definition is_L (c : N) : bool := (LBase <=? c) && (c <? LBase + LCount).
Definition is_V (c : N) : bool := (VBase <=? c) && (c <? VBase + VCount).
Definition is_T (c : N) : bool := (TBase <? c) && (c <? TBase + TCount).

Definition decompose_char (c : N) : list N :=
  if is_syllable c then
    let i := c - SBase in
    let l := LBase + i / NCount in
    let v := VBase + (i mod NCount) / TCount in
    let t := TBase + i mod TCount in
    if t =? TBase then [l; v] else [l; v; t]
  else [c].

Definition nfd (s : pystr) : pystr := flat_map decompose_char s.

Definition syllable (l v t : N) : N :=
  SBase + ((l - LBase) * VCount + (v - VBase)) * TCount + (t - TBase).

Fixpoint compose (s : pystr) : pystr :=
  match s with
  | [] => []
  | a :: rest =>
    if is_L a then
      match rest with
      | b :: rest1 =>
        if is_V b then
          match rest1 with
          | c :: rest2 =>
            if is_T c then syllable a b c :: compose rest2
            else syllable a b TBase :: compose rest1
          | [] => [syllable a b TBase]
          end
        else a :: compose rest
      | [] => [a]
      end
    else a :: compose rest
  end.

Definition nfc (s : pystr) : pystr := compose (nfd s).

(** Proof helpers: the constants spelled out, boolean tests as (in)equalities. *)
Ltac unfold_consts :=
  unfold is_syllable, is_L, is_V, is_T, syllable,
    SBase, LBase, VBase, TBase, LCount, VCount, TCount, NCount, SCount in *.

Ltac bools :=
  repeat match goal with
  | H : (_ && _)%bool = true |- _ => apply andb_true_iff in H; destruct H
  | H : (_ && _)%bool = false |- _ => apply andb_false_iff in H
  | H : (_ <=? _) = true |- _ => apply N.leb_le in H
  | H : (_ <=? _) = false |- _ => apply N.leb_gt in H
  | H : (_ <? _) = true |- _ => apply N.ltb_lt in H
  | H : (_ <? _) = false |- _ => apply N.ltb_ge in H
  | H : (_ =? _) = true |- _ => apply N.eqb_eq in H
  | H : (_ =? _) = false |- _ => apply N.eqb_neq in H
  end.

End Hangul.

(* ================================================================== *)
(** ** Tables *)

(** A numeric cell of a DataFrame; [None] is a missing value. *)
Definition cell := option Q.

(** A row of a per-site environment CSV, as [pd.read_csv] returns it. *)
Record EnvRow := {
  time : pystr;
  temperature : cell;
  humidity : cell;
  ph : cell;
  ec : cell
}.

(** The same row once the loader has set its ["school"] column. *)
Record EnvRecord := {
  env_row : EnvRow;
  env_school : pystr
}.

(** A row of a growth sheet, as [excel.parse] returns it:
    columns "생중량(g)", "잎 수(장)" and "지상부 길이(mm)". *)
Record GrowthRow := {
  fresh_weight : cell;
  leaf_count : cell;
  shoot_length : cell
}.

(** The same row with the ["school"] and ["ec"] columns of the loader. *)
Record GrowthRecord := {
  growth_row : GrowthRow;
  growth_school : pystr;
  growth_ec : option Q
}.

(** An entry of the data directory: its name, whether it is a regular file,
    and what pandas reads from it as a CSV and as a workbook (its sheets in
    order, each with its name and rows; sheet names are unique). *)
Record Path := {
  name : pystr;
  is_file : bool;
  read_csv : list EnvRow;
  sheets : list (pystr * list GrowthRow)
}.

(** The values of a column that are present, in row order. *)
Definition dropna (col : list cell) : list Q :=
  flat_map (fun c => match c with Some x => [x] | None => [] end) col.

(** A mean of pandas: missing cells are skipped and no value gives a
    missing mean; [f] is what pandas computes from the values present. *)
Definition mean_with (f : list Q -> Q) (col : list cell) : cell :=
  match dropna col with
  | [] => None
  | xs => Some (f xs)
  end.

(** [Series.idxmax()]: the position of the first largest value, missing
    cells skipped.  [best] is the position and value held so far and [i]
    the position of the head of [col]. *)
Fixpoint idxmax_from (col : list cell) (i : nat) (best : option (nat * Q))
  : option (nat * Q) :=
  match col with
  | [] => best
  | None :: rest => idxmax_from rest (S i) best
  | Some x :: rest =>
    match best with
    | None => idxmax_from rest (S i) (Some (i, x))
    | Some (j, y) =>
      if Qlt_le_dec y x then idxmax_from rest (S i) (Some (i, x))
      else idxmax_from rest (S i) best
    end
  end.

Definition idxmax (col : list cell) : option nat :=
  option_map fst (idxmax_from col 0 None).

(** [groupby("ec")]: the distinct non-null keys in ascending order (null
    keys are dropped), each with the rows that carry it. *)
Fixpoint insert_key (k : Q) (ks : list Q) : list Q :=
  match ks with
  | [] => [k]
  | h :: t =>
    match (k ?= h)%Q with
    | Lt => k :: ks
    | Eq => ks
    | Gt => h :: insert_key k t
    end
  end.

Definition group_keys (rows : list GrowthRecord) : list Q :=
  fold_left
    (fun ks r => match growth_ec r with Some k => insert_key k ks | None => ks end)
    rows [].

Definition has_ec (k : Q) (r : GrowthRecord) : bool :=
  match growth_ec r with
  | Some e => Qeq_bool e k
  | None => false
  end.

Definition groupby_ec (rows : list GrowthRecord) : list (Q * list GrowthRecord) :=
  map (fun k => (k, filter (has_ec k) rows)) (group_keys rows).

(** [groupby("ec").size()]. *)
Definition group_size (rows : list GrowthRecord) : list (Q * nat) :=
  map (fun g => (fst g, length (snd g))) (groupby_ec rows).

(** [df.loc[df[col].idxmax(), "ec"]] on a table of EC levels with one
    numeric column: the level of the row [idxmax] points at. *)
Definition loc_idxmax (df : list (Q * cell)) : option Q :=
  match idxmax (map snd df) with
  | Some i => option_map fst (nth_error df i)
  | None => None
  end.

(* ================================================================== *)
(** ** Means in binary64 arithmetic *)

(** One pair of functions for the two means of pandas, computed with the
    kernel's binary64 numbers: the values are added one after the other and
    the sum is divided by the count, every operation rounded to nearest.
    On the sample data below the order of summation does not matter: every
    sum has two terms or is a sum of small integers. *)
Module Float64.

(** The rational a finite binary64 value denotes, in lowest terms (0 for
    an infinity or a NaN, which no mean of the sample data is). *)
Definition to_Q (f : PrimFloat.float) : Q :=
  match FloatOps.Prim2SF f with
  | SpecFloat.S754_finite s m e =>
    let z := if s then Z.neg m else Z.pos m in
    Qred (if (0 <=? e)%Z then inject_Z (z * 2 ^ e) else z # (2 ^ Z.to_pos (- e)))
  | _ => 0%Q
  end.

(** An integer below 2^53 in absolute value, as a binary64 value. *)
Definition of_Z (z : Z) : PrimFloat.float :=
  match z with
  | Z0 => PrimFloat.zero
  | Zpos p => PrimFloat.of_uint63 (Uint63.of_Z (Zpos p))
  | Zneg p => PrimFloat.opp (PrimFloat.of_uint63 (Uint63.of_Z (Zpos p)))
  end.

(** The binary64 value nearest to a rational whose numerator and
    denominator are below 2^53: one correctly rounded division.  This is
    how a decimal of a data file such as 0.1 is read. *)
Definition of_Q (q : Q) : PrimFloat.float :=
  PrimFloat.div (of_Z (Qnum q)) (of_Z (Zpos (Qden q))).

Definition sum (xs : list Q) : PrimFloat.float :=
  fold_left (fun acc x => PrimFloat.add acc (of_Q x)) xs PrimFloat.zero.

Definition mean (xs : list Q) : Q :=
  to_Q (PrimFloat.div (sum xs) (of_Z (Z.of_nat (length xs)))).

End Float64.

(* ================================================================== *)
(** ** What Streamlit is asked to show *)

(** An f-string: literal text and formatted values ([digits] is the
    precision of a [:.nf] format). *)
Inductive piece :=
| Lit (s : pystr)
| Int (n : nat)
| Float (x : cell) (digits : option nat).

Definition fstring := list piece.

Inductive series :=
| Names (l : list pystr)
| Nums (l : list cell).

Inductive trace :=
| Bar (x : series) (y : list cell) (trace_name : option pystr) (row col : nat)
| Scatter (x : list pystr) (y : list cell) (trace_name : pystr)
| HLine (y : Q) (annotation_text : pystr).

Inductive figure :=
| Subplots (subplot_titles : list pystr) (traces : list trace)
| Figure (title : pystr) (traces : list trace)
| PxBox (data : list GrowthRecord) (x y color : pystr)
| PxScatter (data : list GrowthRecord) (x y color : pystr).

Record overview_row := {
  ov_school : pystr;
  ov_ec_target : Q;
  ov_count : nat;
  ov_color : pystr
}.

Inductive table :=
| OverviewTable (rows : list overview_row)
| EnvTable (rows : list EnvRecord)
| GrowthTable (rows : list GrowthRecord).

(** The buffer handed to a download button: what was serialized into it. *)
Inductive export :=
| ToCsv (rows : list EnvRecord)
| ToExcel (rows : list GrowthRecord).

Inductive event :=
| st_error (msg : pystr)
| st_title (text : pystr)
| st_subheader (text : pystr)
| st_dataframe (t : table)
| st_metric (column : nat) (label value : fstring) (delta : option pystr)
| st_plotly_chart (chart : figure)
| st_download_button (label : pystr) (data : export) (file_name mime : pystr).

(** Rendering of data: a table, a metric card, a chart or a download. *)
Definition is_render (e : event) : bool :=
  match e with
  | st_error _ => false
  | _ => true
  end.

(* ================================================================== *)
(** ** The script monad: a trace of events and how the run ended *)

Inductive exn :=
| KeyError (key : pystr)
| ValueError.

Inductive outcome (A : Type) :=
| Ret (a : A)
| Raise (e : exn)
| Stop.
Arguments Ret {A} a.
Arguments Raise {A} e.
Arguments Stop {A}.

Definition M (A : Type) : Type := list event * outcome A.

Definition ret {A} (a : A) : M A := ([], Ret a).

Definition bind {A B} (m : M A) (f : A -> M B) : M B :=
  match m with
  | (tr, Ret a) => let (tr', o) := f a in (tr ++ tr', o)
  | (tr, Raise e) => (tr, Raise e)
  | (tr, Stop) => (tr, Stop)
  end.

Notation "x <- m ;; k" := (bind m (fun x => k))
  (at level 61, m at next level, right associativity).
Notation "m ;; k" := (bind m (fun _ => k))
  (at level 61, right associativity).

Definition emit (e : event) : M unit := ([e], Ret tt).
Definition raise {A} (e : exn) : M A := ([], Raise e).
Definition st_stop {A} : M A := ([], Stop).

Definition events {A} (m : M A) : list event := fst m.
Definition result {A} (m : M A) : outcome A := snd m.

(** [d[k]] *)
Definition getitem {V} (d : dict V) (k : pystr) : M V :=
  match dict_get d k with
  | Some v => ret v
  | None => raise (KeyError k)
  end.

(** [pd.concat(frames)]: pandas refuses an empty sequence of frames. *)
Definition pd_concat {A} (frames : list (list A)) : M (list A) :=
  match frames with
  | [] => raise ValueError
  | _ => ret (concat frames)
  end.

(** Membership in a list given in full. *)
Ltac in_list := vm_compute; repeat (first [left; reflexivity | right]).

(* ================================================================== *)
(** ** Sample data directories *)

Module Sample.

Definition env (t h : Q) : EnvRow :=
  {| time := []; temperature := Some t; humidity := Some h;
     ph := Some 6.0%Q; ec := Some 2.0%Q |}.

Definition plant (w : Q) : GrowthRow :=
  {| fresh_weight := Some w; leaf_count := Some 5%Q; shoot_length := Some 30%Q |}.

Definition csv_file (n : pystr) (rows : list EnvRow) : Path :=
  {| name := n; is_file := true; read_csv := rows; sheets := [] |}.

Definition xlsx_file (n : pystr) (wb : list (pystr * list GrowthRow)) : Path :=
  {| name := n; is_file := true; read_csv := []; sheets := wb |}.

Definition folder (n : pystr) : Path :=
  {| name := n; is_file := false; read_csv := []; sheets := [] |}.

Definition songdo_csv : Path :=
  csv_file (py "송도고_환경데이터.csv") [env 10 40; env 20 60].
(** A file written by a system that stores names decomposed. *)
Definition haneul_csv : Path :=
  csv_file (Hangul.nfd (py "하늘고_환경데이터.csv")) [env 30 50].
Definition ara_csv : Path :=
  csv_file (py "아라고_환경데이터.csv") [env 10 50].
Definition dongsan_csv : Path :=
  csv_file (py "동산고_환경데이터.csv") [env 10 50].

Definition workbook : list (pystr * list GrowthRow) :=
  [ (py "송도고", [plant 4.0; plant 6.0]);
    (py "하늘고", [plant 9.2]);
    (py "아라고", [plant 3.1]);
    (py "동산고", [plant 2.0]) ].

(** A complete data directory. *)
Definition data_dir : list Path :=
  [ folder (py "archive"); songdo_csv; haneul_csv; ara_csv; dongsan_csv;
    xlsx_file (py "4개교_생육결과데이터.XLSX") workbook ].

(** The same directory without the CSV of the third school. *)
Definition dir_missing_env : list Path :=
  [ folder (py "archive"); songdo_csv; haneul_csv; dongsan_csv;
    xlsx_file (py "4개교_생육결과데이터.XLSX") workbook ].

(** A directory whose workbook has one sheet of a known school and one
    sheet that is no school of the reference table. *)
Definition odd_workbook : list (pystr * list GrowthRow) :=
  [ (py "송도고", [plant 4.0; plant 6.0]);
    (py "Sheet1", [plant 7.0]) ].

Definition dir_odd_sheet : list Path :=
  [ songdo_csv; haneul_csv; ara_csv; dongsan_csv;
    xlsx_file (py "growth.xlsx") odd_workbook ].

(** Environment tables with unequal row counts and one temperature. *)
Definition flat_env_data : dict (list EnvRecord) :=
  let rec (s : pystr) (r : EnvRow) := {| env_row := r; env_school := s |} in
  [ (py "송도고", [rec (py "송도고") (env 20 50); rec (py "송도고") (env 20 50)]);
    (py "하늘고", [rec (py "하늘고") (env 20 50)]);
    (py "아라고", [rec (py "아라고") (env 20 50)]);
    (py "동산고", [rec (py "동산고") (env 20 50)]) ].

Definition record (s : pystr) (e : option Q) (w : Q) : GrowthRecord :=
  {| growth_row := plant w; growth_school := s; growth_ec := e |}.

(** The growth table of [workbook] as the loader builds it: the group means
    of fresh weight are 5.0, 9.2, 3.1 and 2.0 for EC 1, 2, 4 and 8. *)
Definition growth_all : list GrowthRecord :=
  [ record (py "송도고") (Some 1.0%Q) 4.0; record (py "송도고") (Some 1.0%Q) 6.0;
    record (py "하늘고") (Some 2.0%Q) 9.2;
    record (py "아라고") (Some 4.0%Q) 3.1;
    record (py "동산고") (Some 8.0%Q) 2.0 ].

(** A growth table in which EC 2 and EC 4 tie for the largest mean. *)
Definition tied_growth : list GrowthRecord :=
  [ record (py "동산고") (Some 8.0%Q) 2.0;
    record (py "아라고") (Some 4.0%Q) 7.0;
    record (py "하늘고") (Some 2.0%Q) 6.0; record (py "하늘고") (Some 2.0%Q) 8.0;
    record (py "송도고") (Some 1.0%Q) 3.0 ].

(** Environment tables with unequal row counts whose pooled mean
    temperature (16) is not the mean of the site means (16.25). *)
Definition uneven_env_data : dict (list EnvRecord) :=
  let rec (s : pystr) (r : EnvRow) := {| env_row := r; env_school := s |} in
  [ (py "송도고", [rec (py "송도고") (env 10 40); rec (py "송도고") (env 20 60)]);
    (py "하늘고", [rec (py "하늘고") (env 30 50)]);
    (py "아라고", [rec (py "아라고") (env 10 50)]);
    (py "동산고", [rec (py "동산고") (env 10 50)]) ].



(** A directory with neither the workbook nor the CSV of "하늘고". *)
Definition dir_no_workbook : list Path :=
  [ folder (py "archive"); songdo_csv; ara_csv; dongsan_csv ].

End Sample.

(* ================================================================== *)
(** ** main.py *)

Definition SCHOOL_EC_INFO : dict Q :=
  Eval cbv in
  [ (py "송도고", 1.0%Q);
    (py "하늘고", 2.0%Q);
    (py "아라고", 4.0%Q);
    (py "동산고", 8.0%Q) ].

Definition SCHOOL_COLOR : dict pystr :=
  Eval cbv in
  [ (py "송도고", py "#1f77b4");
    (py "하늘고", py "#2ca02c");
    (py "아라고", py "#ff7f0e");
    (py "동산고", py "#d62728") ].

Definition ENV_SUFFIX : pystr := Eval cbv in py "_환경데이터.csv".
Definition ENV_MISSING : pystr := Eval cbv in py "환경 데이터 파일을 찾을 수 없습니다: ".
Definition XLSX_MISSING : pystr := Eval cbv in py "생육 결과 XLSX 파일을 찾을 수 없습니다.".
Definition DOT_XLSX : pystr := Eval cbv in py ".xlsx".
Definition ALL_SCHOOLS : pystr := Eval cbv in py "전체".
Definition OPTIMAL_LABEL : pystr := Eval cbv in py "⭐ 최적".
Definition OPTIMAL_EC_CARD : pystr := Eval cbv in py "최적 EC".

Section Script.

(** [unicodedata.normalize("NFC", _)] and [unicodedata.normalize("NFD", _)]. *)
Variables nfc nfd : pystr -> pystr.

(** [DATA_DIR.iterdir()]: the entries of the data directory, in scan order. *)
Variable DATA_DIR : list Path.

(** What [Series.mean()] and [SeriesGroupBy.mean()] compute from the values
    that are present, in row order. *)
Variables series_mean groupby_mean : list Q -> Q.

(** [s.mean()] of a column. *)
Definition mean (col : list cell) : cell := mean_with series_mean col.

(** The mean of a column within one group of [groupby]. *)
Definition mean_of_group (col : list cell) : cell := mean_with groupby_mean col.

(** [groupby("ec")[col].mean()] *)
Definition group_mean (col : GrowthRow -> cell) (rows : list GrowthRecord)
  : list (Q * cell) :=
  map (fun g => (fst g, mean_of_group (map (fun r => col (growth_row r)) (snd g))))
      (groupby_ec rows).

Fixpoint find_file_by_name (directory : list Path) (target_name : pystr)
  : option Path :=
  let target_nfc := nfc target_name in
  let target_nfd := nfd target_name in
  match directory with
  | [] => None
  | f :: rest =>
    if negb (is_file f) then find_file_by_name rest target_name
    else
      let name_nfc := nfc (name f) in
      let name_nfd := nfd (name f) in
      if PyStr.eqb name_nfc target_nfc || PyStr.eqb name_nfd target_nfd
      then Some f
      else find_file_by_name rest target_name
  end.

Definition env_frame := list EnvRecord.
Definition growth_frame := list GrowthRecord.

(** The body of the loop of [load_environment_data], over the schools still
    to load and the dict built so far. *)
Fixpoint load_environment_loop (schools : list pystr) (env_data : dict env_frame)
  : M (option (dict env_frame)) :=
  match schools with
  | [] => ret (Some env_data)
  | school :: rest =>
    let filename := school ++ ENV_SUFFIX in
    match find_file_by_name DATA_DIR filename with
    | None =>
      emit (st_error (ENV_MISSING ++ filename)) ;;
      ret None
    | Some file_path =>
      let df := map (fun r => {| env_row := r; env_school := school |})
                    (read_csv file_path) in
      load_environment_loop rest (dict_set env_data school df)
    end
  end.

Definition load_environment_data : M (option (dict env_frame)) :=
  load_environment_loop (keys SCHOOL_EC_INFO) [].

Definition is_xlsx (f : Path) : bool :=
  PyStr.eqb (lower (suffix (name f))) DOT_XLSX.

Fixpoint load_growth_loop (excel : list (pystr * list GrowthRow))
  (growth_data : dict growth_frame) : dict growth_frame :=
  match excel with
  | [] => growth_data
  | (sheet, rows) :: rest =>
    let df := map (fun r => {| growth_row := r;
                               growth_school := sheet;
                               growth_ec := dict_get SCHOOL_EC_INFO sheet |})
                  rows in
    load_growth_loop rest (dict_set growth_data sheet df)
  end.

Definition load_growth_data : M (option (dict growth_frame)) :=
  match find is_xlsx DATA_DIR with
  | None =>
    emit (st_error XLSX_MISSING) ;;
    ret None
  | Some xlsx_path => ret (Some (load_growth_loop (sheets xlsx_path) []))
  end.

(** *** Tab 1: overview *)

Fixpoint overview_loop (items : list (pystr * growth_frame))
  (overview_rows : list overview_row) (total_plants : nat)
  : M (list overview_row * nat) :=
  match items with
  | [] => ret (overview_rows, total_plants)
  | (school, df) :: rest =>
    let count := length df in
    let total_plants := (total_plants + count)%nat in
    ec_target <- getitem SCHOOL_EC_INFO school ;;
    color <- getitem SCHOOL_COLOR school ;;
    overview_loop rest
      (overview_rows ++ [ {| ov_school := school; ov_ec_target := ec_target;
                             ov_count := count; ov_color := color |} ])
      total_plants
  end.

Definition optimal_ec : Q := 2.0%Q.

(** [pd.concat(env_data.values())["temperature"].mean()] and the same for
    ["humidity"]. *)
Definition avg_temp (env_data : dict env_frame) : M cell :=
  all_env <- pd_concat (values env_data) ;;
  ret (mean (map (fun r => temperature (env_row r)) all_env)).

Definition avg_hum (env_data : dict env_frame) : M cell :=
  all_env <- pd_concat (values env_data) ;;
  ret (mean (map (fun r => humidity (env_row r)) all_env)).

Definition optimal_ec_metric : event :=
  st_metric 3 [Lit OPTIMAL_EC_CARD] [Float (Some optimal_ec) None] None.

Definition tab1 (env_data : dict env_frame) (growth_data : dict growth_frame)
  : M unit :=
  emit (st_subheader (py "연구 배경 및 목적")) ;;
  ov <- overview_loop growth_data [] 0%nat ;;
  let overview_rows := fst ov in
  let total_plants := snd ov in
  emit (st_dataframe (OverviewTable overview_rows)) ;;
  avg_temp <- avg_temp env_data ;;
  avg_hum <- avg_hum env_data ;;
  emit (st_metric 0 [Lit (py "총 개체수")] [Int total_plants; Lit (py " 개")] None) ;;
  emit (st_metric 1 [Lit (py "평균 온도")] [Float avg_temp (Some 1%nat); Lit (py " ℃")] None) ;;
  emit (st_metric 2 [Lit (py "평균 습도")] [Float avg_hum (Some 1%nat); Lit (py " %")] None) ;;
  emit optimal_ec_metric.

(** *** Tab 2: environment *)

Record avg_row := {
  avg_school : pystr;
  avg_temperature : cell;
  avg_humidity : cell;
  avg_ph : cell;
  avg_ec_measured : cell;
  avg_ec_target : Q
}.

Definition col_mean (col : EnvRow -> cell) (df : env_frame) : cell :=
  mean (map (fun r => col (env_row r)) df).

Fixpoint avg_loop (items : list (pystr * env_frame)) (avg_rows : list avg_row)
  : M (list avg_row) :=
  match items with
  | [] => ret avg_rows
  | (school, df) :: rest =>
    ec_target <- getitem SCHOOL_EC_INFO school ;;
    avg_loop rest
      (avg_rows ++ [ {| avg_school := school;
                        avg_temperature := col_mean temperature df;
                        avg_humidity := col_mean humidity df;
                        avg_ph := col_mean ph df;
                        avg_ec_measured := col_mean ec df;
                        avg_ec_target := ec_target |} ])
  end.

Definition fig (avg_df : list avg_row) : figure :=
  let schools := Names (map avg_school avg_df) in
  Subplots
    [py "평균 온도"; py "평균 습도"; py "평균 pH"; py "목표 EC vs 실측 EC"]
    [ Bar schools (map avg_temperature avg_df) None 1 1;
      Bar schools (map avg_humidity avg_df) None 1 2;
      Bar schools (map avg_ph avg_df) None 2 1;
      Bar schools (map (fun r => Some (avg_ec_target r)) avg_df)
          (Some (py "목표 EC")) 2 2;
      Bar schools (map avg_ec_measured avg_df) (Some (py "실측 EC")) 2 2 ].

Fixpoint timeseries_loop (env_data : dict env_frame) (schools_to_plot : list pystr)
  : M unit :=
  match schools_to_plot with
  | [] => ret tt
  | school :: rest =>
    df <- getitem env_data school ;;
    let t := map (fun r => time (env_row r)) df in
    ec_target <- getitem SCHOOL_EC_INFO school ;;
    emit (st_plotly_chart
            (Figure (school ++ py " 환경 변화")
               [ Scatter t (map (fun r => temperature (env_row r)) df) (py "온도");
                 Scatter t (map (fun r => humidity (env_row r)) df) (py "습도");
                 Scatter t (map (fun r => ec (env_row r)) df) (py "EC");
                 HLine ec_target (py "목표 EC") ])) ;;
    timeseries_loop env_data rest
  end.

Definition env_export (env_data : dict env_frame) : M unit :=
  all_env_df <- pd_concat (values env_data) ;;
  emit (st_dataframe (EnvTable all_env_df)) ;;
  emit (st_download_button (py "CSV 다운로드") (ToCsv all_env_df)
          (py "환경데이터_전체.csv") (py "text/csv")).

Definition tab2 (school_option : pystr) (env_data : dict env_frame) : M unit :=
  emit (st_subheader (py "학교별 환경 평균 비교")) ;;
  avg_df <- avg_loop env_data [] ;;
  emit (st_plotly_chart (fig avg_df)) ;;
  emit (st_subheader (py "환경 변화 시계열")) ;;
  let schools_to_plot :=
    if PyStr.eqb school_option ALL_SCHOOLS then keys env_data
    else [school_option] in
  timeseries_loop env_data schools_to_plot ;;
  env_export env_data.

(** *** Tab 3: growth *)

(** [growth_all.groupby("ec")["생중량(g)"].mean().reset_index()] *)
Definition ec_group (growth_all : growth_frame) : list (Q * cell) :=
  group_mean fresh_weight growth_all.

(** [ec_group.loc[ec_group["생중량(g)"].idxmax(), "ec"]]; pandas raises when
    there is no group mean to compare. *)
Definition max_ec (growth_all : growth_frame) : option Q :=
  loc_idxmax (ec_group growth_all).

Definition ec_card (max_ec : Q) (i : nat) (row : Q * cell) : event :=
  let label := if Qeq_bool (fst row) max_ec then OPTIMAL_LABEL else [] in
  st_metric i [Lit (py "EC "); Float (Some (fst row)) None]
    [Float (snd row) (Some 2%nat); Lit (py " g")] (Some label).

Fixpoint ec_cards (max_ec : Q) (i : nat) (rows : list (Q * cell)) : M unit :=
  match rows with
  | [] => ret tt
  | row :: rest => emit (ec_card max_ec i row) ;; ec_cards max_ec (S i) rest
  end.

Definition fig2 (growth_all : growth_frame) : figure :=
  let ecs (g : list (Q * cell)) := Nums (map (fun r => Some (fst r)) g) in
  let sizes := group_size growth_all in
  Subplots
    [py "평균 생중량"; py "평균 잎 수"; py "평균 지상부 길이"; py "개체수"]
    [ Bar (ecs (ec_group growth_all)) (map snd (ec_group growth_all)) None 1 1;
      Bar (ecs (group_mean leaf_count growth_all))
          (map snd (group_mean leaf_count growth_all)) None 1 2;
      Bar (ecs (group_mean shoot_length growth_all))
          (map snd (group_mean shoot_length growth_all)) None 2 1;
      Bar (Nums (map (fun r => Some (fst r)) sizes))
          (map (fun r => Some (inject_Z (Z.of_nat (snd r)))) sizes) None 2 2 ].

Definition growth_export (growth_all : growth_frame) : M unit :=
  emit (st_dataframe (GrowthTable growth_all)) ;;
  emit (st_download_button (py "XLSX 다운로드") (ToExcel growth_all)
          (py "생육결과_전체.xlsx")
          (py "application/vnd.openxmlformats-officedocument.spreadsheetml.sheet")).

Definition tab3 (growth_data : dict growth_frame) : M unit :=
  emit (st_subheader (py "🥇 EC별 평균 생중량")) ;;
  growth_all <- pd_concat (values growth_data) ;;
  best <- match max_ec growth_all with
          | Some e => ret e
          | None => raise ValueError
          end ;;
  ec_cards best 0 (ec_group growth_all) ;;
  emit (st_plotly_chart (fig2 growth_all)) ;;
  emit (st_subheader (py "학교별 생중량 분포")) ;;
  emit (st_plotly_chart (PxBox growth_all (py "school") (py "생중량(g)") (py "school"))) ;;
  emit (st_subheader (py "상관관계 분석")) ;;
  emit (st_plotly_chart
          (PxScatter growth_all (py "잎 수(장)") (py "생중량(g)") (py "school"))) ;;
  emit (st_plotly_chart
          (PxScatter growth_all (py "지상부 길이(mm)") (py "생중량(g)") (py "school"))) ;;
  growth_export growth_all.

(** *** The script from the loading step on *)

(** The options of the sidebar select box. *)
Definition school_options : list pystr := ALL_SCHOOLS :: keys SCHOOL_EC_INFO.

Definition main (school_option : pystr) : M unit :=
  env_data <- load_environment_data ;;
  growth_data <- load_growth_data ;;
  match env_data, growth_data with
  | Some env_data, Some growth_data =>
    emit (st_title (py "🌱 극지식물 최적 EC 농도 연구")) ;;
    tab1 env_data growth_data ;;
    tab2 school_option env_data ;;
    tab3 growth_data
  | _, _ => st_stop
  end.

(** What the download buttons of a run hand out. *)
Definition exports (tr : list event) : list export :=
  flat_map (fun e => match e with
                     | st_download_button _ data _ _ => [data]
                     | _ => []
                     end) tr.


(** *** Notions the statements below are phrased with *)

(** Canonical equivalence of two names: the same normal form. *)
Definition canon_equiv (a b : pystr) : Prop := nfc a = nfc b.

(** The test a directory entry passes to be returned: a regular file with
    a canonically equivalent name. *)
Definition matches (target_name : pystr) (f : Path) : bool :=
  is_file f && PyStr.eqb (nfc (name f)) (nfc target_name).

(** A directory entry under another spelling of its name. *)
Definition rename (g : pystr -> pystr) (f : Path) : Path :=
  {| name := g (name f); is_file := is_file f;
     read_csv := read_csv f; sheets := sheets f |}.

(** The rows of a growth table that carry a target EC. *)
Definition with_ec (growth_all : growth_frame) : growth_frame :=
  filter (fun r => match growth_ec r with Some _ => true | None => false end)
         growth_all.

(** The mean of the per-site means of a column: the weighting the overview
    does not use. *)
Definition mean_of_site_means (col : EnvRow -> cell) (env_data : dict env_frame)
  : cell :=
  mean (map (col_mean col) (values env_data)).

Definition unequal_row_counts (env_data : dict env_frame) : Prop :=
  exists df1 df2, In df1 (values env_data) /\ In df2 (values env_data) /\
                  length df1 <> length df2.

(** The keys after [d[k] = v]. *)
Definition add_key (ks : list pystr) (k : pystr) : list pystr :=
  if existsb (PyStr.eqb k) ks then ks else ks ++ [k].

(** The metric card of an event and its label. *)
Definition metric_label (e : event) : option fstring :=
  match e with
  | st_metric _ label _ _ => Some label
  | _ => None
  end.

(** An event that is a card labelled "최적 EC" is the card of the constant. *)
Definition optimal_card_is_constant (e : event) : Prop :=
  metric_label e = Some [Lit OPTIMAL_EC_CARD] -> e = optimal_ec_metric.

(** The file name the environment loader looks for. *)
Definition env_filename (school : pystr) : pystr := school ++ ENV_SUFFIX.

(** Every frame of the growth dict carries its sheet name and the target EC
    the reference table has for it. *)
Definition well_tagged (growth_data : dict growth_frame) : Prop :=
  forall sheet df, dict_get growth_data sheet = Some df ->
    forall r, In r df ->
      growth_school r = sheet /\ growth_ec r = dict_get SCHOOL_EC_INFO sheet.

(** What [idxmax_from] maintains: [best] is the first largest value among
    the cells seen so far. *)
Inductive first_largest (seen : list cell) : option (nat * Q) -> Prop :=
| fl_none :
    (forall k z, nth_error seen k <> Some (Some z)) ->
    first_largest seen None
| fl_some j y :
    nth_error seen j = Some (Some y) ->
    (forall k z, nth_error seen k = Some (Some z) ->
                 (z <= y)%Q /\ ((k < j)%nat -> (z < y)%Q)) ->
    first_largest seen (Some (j, y)).

(** Decides [optimal_card_is_constant] for an event given in full. *)
Ltac card_case :=
  let H := fresh "H" in
  intros H; cbn [metric_label] in H;
  first [ discriminate H
        | reflexivity
        | injection H as H; vm_compute in H; discriminate H ].

(** *** Notions of the further properties *)

(** A CSV row with the ["school"] column the environment loader sets. *)
Definition tag_env (school : pystr) (r : EnvRow) : EnvRecord :=
  {| env_row := r; env_school := school |}.

(** The frame the environment loader builds for a school: the rows of the
    file resolved for it. *)
Definition env_frame_of (school : pystr) : env_frame :=
  match find_file_by_name DATA_DIR (env_filename school) with
  | Some file_path => map (tag_env school) (read_csv file_path)
  | None => []
  end.

(** A sheet row with the ["school"] and ["ec"] columns the growth loader
    sets. *)
Definition tag_growth (sheet : pystr) (r : GrowthRow) : GrowthRecord :=
  {| growth_row := r; growth_school := sheet;
     growth_ec := dict_get SCHOOL_EC_INFO sheet |}.

(** The directory entry passes the test of [find_file_by_name] as the
    script writes it. *)
Definition name_matches (target_name : pystr) (f : Path) : Prop :=
  is_file f = true /\
  (nfc (name f) = nfc target_name \/ nfd (name f) = nfd target_name).

(** [fig_ts] of the time-series loop. *)
Definition fig_ts (school : pystr) (df : env_frame) (ec_target : Q) : figure :=
  let t := map (fun r => time (env_row r)) df in
  Figure (school ++ py " 환경 변화")
    [ Scatter t (map (fun r => temperature (env_row r)) df) (py "온도");
      Scatter t (map (fun r => humidity (env_row r)) df) (py "습도");
      Scatter t (map (fun r => ec (env_row r)) df) (py "EC");
      HLine ec_target (py "목표 EC") ].

(** The row of [avg_rows] of a site. *)
Definition avg_row_of (school : pystr) (df : env_frame) (ec_target : Q) : avg_row :=
  {| avg_school := school;
     avg_temperature := col_mean temperature df;
     avg_humidity := col_mean humidity df;
     avg_ph := col_mean ph df;
     avg_ec_measured := col_mean ec df;
     avg_ec_target := ec_target |}.

(** A growth row that counts for the largest mean: it has a target EC and
    a fresh weight. *)
Definition measured (r : GrowthRecord) : bool :=
  match growth_ec r, fresh_weight (growth_row r) with
  | Some _, Some _ => true
  | _, _ => false
  end.

(** The time-series charts among the events of a run: the figures with a
    title (the comparison charts are subplot grids). *)
Definition time_series_charts (tr : list event) : list figure :=
  flat_map (fun e => match e with
                     | st_plotly_chart (Figure title traces) => [Figure title traces]
                     | _ => []
                     end) tr.

(** A step that ends by returning or raising, never by [st.stop()]. *)
Definition never_stops {A} (m : M A) : Prop := result m <> Stop.

(** An event that shows data or a heading, not an error message. *)
Definition shows_data (e : event) : Prop := is_render e = true.



(** The growth tables among the events of a run: those shown and those
    handed out as a workbook. *)
Definition growth_tables (tr : list event) : list growth_frame :=
  flat_map (fun e => match e with
                     | st_dataframe (GrowthTable rows) => [rows]
                     | st_download_button _ (ToExcel rows) _ _ => [rows]
                     | _ => []
                     end) tr.

(** A missing-file message. *)
Definition is_message (e : event) : Prop := exists msg, e = st_error msg.

(* ================================================================== *)
(** ** Basic facts: strings, dicts, the script monad *)

Lemma pystr_eqb_spec (a b : pystr) : reflect (a = b) (PyStr.eqb a b).
Proof.
  revert b; induction a as [|x a IH]; intros [|y b]; cbn [PyStr.eqb];
    try (constructor; congruence).
  destruct (N.eqb_spec x y) as [->|Hxy]; cbn [andb].
  - destruct (IH b) as [->|Hab]; constructor; congruence.
  - constructor; congruence.
Qed.

Lemma pystr_eqb_refl (a : pystr) : PyStr.eqb a a = true.
Proof. destruct (pystr_eqb_spec a a); congruence. Qed.

Lemma pystr_eqb_eq (a b : pystr) : PyStr.eqb a b = true <-> a = b.
Proof. destruct (pystr_eqb_spec a b); split; congruence. Qed.

Lemma pystr_eqb_neq (a b : pystr) : PyStr.eqb a b = false <-> a <> b.
Proof. destruct (pystr_eqb_spec a b); split; congruence. Qed.

Lemma dict_get_In {V} (d : dict V) k v :
  dict_get d k = Some v -> In (k, v) d.
Proof.
  induction d as [|[k' v'] d IH]; cbn [dict_get]; [discriminate|].
  destruct (pystr_eqb_spec k' k) as [->|Hk].
  - intros [= ->]. left; reflexivity.
  - intros H. right. apply IH, H.
Qed.

Lemma dict_get_None {V} (d : dict V) k :
  dict_get d k = None <-> ~ In k (keys d).
Proof.
  induction d as [|[k' v'] d IH]; cbn [dict_get keys map fst In].
  - split; [intros _ [] | reflexivity].
  - destruct (pystr_eqb_spec k' k) as [->|Hk].
    + split; [discriminate | intros H; exfalso; apply H; left; reflexivity].
    + rewrite IH. unfold keys. split; [intros H [E|I]; [congruence | exact (H I)] |].
      intros H I. apply H. right. exact I.
Qed.

Lemma dict_get_Some {V} (d : dict V) k :
  In k (keys d) -> exists v, dict_get d k = Some v.
Proof.
  intros H. destruct (dict_get d k) as [v|] eqn:E; [exists v; reflexivity|].
  apply dict_get_None in E. contradiction.
Qed.

Lemma keys_dict_set {V} (d : dict V) k v :
  keys (dict_set d k v) = add_key (keys d) k.
Proof.
  unfold add_key.
  induction d as [|[k' v'] d IH]; cbn [dict_set keys map fst existsb app].
  - reflexivity.
  - destruct (pystr_eqb_spec k' k) as [->|Hk].
    + rewrite pystr_eqb_refl. reflexivity.
    + assert (E : PyStr.eqb k k' = false) by (apply pystr_eqb_neq; congruence).
      rewrite E. cbn [orb map fst]. fold (keys (dict_set d k v)). rewrite IH.
      fold (keys d). destruct (existsb (PyStr.eqb k) (keys d)); reflexivity.
Qed.

Lemma In_add_key ks k x : In x (add_key ks k) <-> In x ks \/ x = k.
Proof.
  clear nfc nfd DATA_DIR series_mean groupby_mean.
  unfold add_key. destruct (existsb (PyStr.eqb k) ks) eqn:E.
  - apply existsb_exists in E. destruct E as [y [Hy Ey]].
    apply pystr_eqb_eq in Ey. subst y. split; [tauto | intros [H| ->]; assumption].
  - rewrite in_app_iff. cbn [In]. intuition congruence.
Qed.

Lemma dict_get_set_same {V} (d : dict V) k v :
  dict_get (dict_set d k v) k = Some v.
Proof.
  induction d as [|[k' v'] d IH]; cbn [dict_set dict_get].
  - rewrite pystr_eqb_refl. reflexivity.
  - destruct (PyStr.eqb k' k) eqn:E; cbn [dict_get]; rewrite E; [reflexivity | exact IH].
Qed.

Lemma dict_get_set_other {V} (d : dict V) k k' v :
  k' <> k -> dict_get (dict_set d k v) k' = dict_get d k'.
Proof.
  intros Hk.
  induction d as [|[k0 v0] d IH]; cbn [dict_set dict_get].
  - replace (PyStr.eqb k k') with false by (symmetry; apply pystr_eqb_neq; congruence).
    reflexivity.
  - destruct (pystr_eqb_spec k0 k) as [->|E]; cbn [dict_get].
    + replace (PyStr.eqb k k') with false by (symmetry; apply pystr_eqb_neq; congruence).
      reflexivity.
    + destruct (PyStr.eqb k0 k'); [reflexivity | exact IH].
Qed.

(** How a sequence of two steps ends and what it shows. *)
Lemma result_bind {A B} (m : M A) (f : A -> M B) :
  result (bind m f) =
  match result m with
  | Ret a => result (f a)
  | Raise e => Raise e
  | Stop => Stop
  end.
Proof.
  destruct m as [tr [a|e|]]; cbn [bind result snd]; try reflexivity.
  destruct (f a); reflexivity.
Qed.

Lemma events_bind {A B} (m : M A) (f : A -> M B) :
  events (bind m f) =
  events m ++ match result m with
              | Ret a => events (f a)
              | _ => []
              end.
Proof.
  destruct m as [tr [a|e|]]; cbn [bind events result fst snd];
    try (rewrite app_nil_r; reflexivity).
  destruct (f a); reflexivity.
Qed.

Lemma bind_ret_l {A B} (a : A) (f : A -> M B) : bind (ret a) f = f a.
Proof. unfold bind, ret. destruct (f a); reflexivity. Qed.

Lemma bind_nil_ret {A B} (a : A) (f : A -> M B) : bind ([], Ret a) f = f a.
Proof. exact (bind_ret_l a f). Qed.

Lemma bind_emit {B} (e : event) (f : unit -> M B) :
  bind (emit e) f = (e :: events (f tt), result (f tt)).
Proof. unfold bind, emit. destruct (f tt); reflexivity. Qed.

Lemma M_eta {A} (m : M A) : m = (events m, result m).
Proof. destruct m; reflexivity. Qed.

Lemma exports_app tr1 tr2 : exports (tr1 ++ tr2) = exports tr1 ++ exports tr2.
Proof. unfold exports. apply flat_map_app. Qed.

Lemma exports_cons e tr : exports (e :: tr) = exports [e] ++ exports tr.
Proof. exact (exports_app [e] tr). Qed.

(** An invariant of every event of a sequence of two steps. *)
Lemma Forall_events_bind {A B} (P : event -> Prop) (m : M A) (f : A -> M B) :
  Forall P (events m) ->
  (forall a, result m = Ret a -> Forall P (events (f a))) ->
  Forall P (events (bind m f)).
Proof.
  intros Hm Hf. rewrite events_bind. apply Forall_app. split; [exact Hm|].
  destruct (result m); [apply Hf; reflexivity | constructor..].
Qed.

(* ================================================================== *)
(** ** File resolution *)

Section Resolution.

(** What Unicode guarantees of its normalization forms (UAX 15): composing
    ignores a previous decomposition and decomposing ignores a previous
    composition. *)
Hypothesis nfc_of_nfd : forall s, nfc (nfd s) = nfc s.
Hypothesis nfd_of_nfc : forall s, nfd (nfc s) = nfd s.

Lemma nfc_idempotent s : nfc (nfc s) = nfc s.
Proof. rewrite <- (nfc_of_nfd (nfc s)), nfd_of_nfc. apply nfc_of_nfd. Qed.

Lemma nfd_idempotent s : nfd (nfd s) = nfd s.
Proof. rewrite <- (nfd_of_nfc (nfd s)), nfc_of_nfd. apply nfd_of_nfc. Qed.

Lemma nfd_eq_iff a b : nfd a = nfd b <-> nfc a = nfc b.
Proof.
  split; intros H.
  - rewrite <- (nfc_of_nfd a), H. apply nfc_of_nfd.
  - rewrite <- (nfd_of_nfc a), H. apply nfd_of_nfc.
Qed.

Lemma find_pointwise {A} (p q : A -> bool) (l : list A) :
  (forall x, p x = q x) -> find p l = find q l.
Proof.
  intros H. induction l as [|x l IH]; cbn [find]; [reflexivity|].
  rewrite H, IH. reflexivity.
Qed.

Lemma name_test n t :
  PyStr.eqb (nfc n) (nfc t) || PyStr.eqb (nfd n) (nfd t)
  = PyStr.eqb (nfc n) (nfc t).
Proof.
  destruct (pystr_eqb_spec (nfc n) (nfc t)) as [E|E]; [reflexivity|].
  cbn [orb]. apply pystr_eqb_neq. intros H. apply E, nfd_eq_iff, H.
Qed.

Lemma find_file_by_name_find directory target_name :
  find_file_by_name directory target_name = find (matches target_name) directory.
Proof.
  induction directory as [|f rest IH]; cbn [find_file_by_name find]; [reflexivity|].
  unfold matches at 1. rewrite name_test.
  destruct (is_file f); cbn [negb andb]; [|exact IH].
  destruct (PyStr.eqb _ _); [reflexivity | exact IH].
Qed.

Lemma matches_equiv t1 t2 f :
  canon_equiv t1 t2 -> matches t1 f = matches t2 f.
Proof. unfold canon_equiv, matches. intros ->. reflexivity. Qed.

Lemma matches_true t f :
  matches t f = true <-> is_file f = true /\ canon_equiv (name f) t.
Proof.
  unfold matches, canon_equiv. rewrite andb_true_iff, pystr_eqb_eq. reflexivity.
Qed.

Lemma find_rename (g : pystr -> pystr) directory t :
  (forall s, nfc (g s) = nfc s) ->
  find_file_by_name (map (rename g) directory) t
  = option_map (rename g) (find_file_by_name directory t).
Proof.
  intros Hg. rewrite !find_file_by_name_find.
  induction directory as [|f rest IH]; cbn [map find option_map]; [reflexivity|].
  assert (E : matches t (rename g f) = matches t f).
  { unfold matches, rename; cbn [name is_file]. rewrite Hg. reflexivity. }
  rewrite E. destruct (matches t f); [reflexivity | exact IH].
Qed.

(** C3. Resolving a name gives the same file whether the name is given
    composed or decomposed, and whether the names on disk are composed or
    decomposed (the file found is the same entry under its other spelling);
    a file is found exactly when a regular file of the directory has a name
    canonically equivalent to the target, and [None] is returned otherwise. *)
Theorem C3_resolution_invariant_under_normalization
  (directory : list Path) (target_name : pystr) :
  find_file_by_name directory target_name
    = find (matches target_name) directory /\
  find_file_by_name directory (nfc target_name)
    = find_file_by_name directory target_name /\
  find_file_by_name directory (nfd target_name)
    = find_file_by_name directory target_name /\
  find_file_by_name (map (rename nfc) directory) target_name
    = option_map (rename nfc) (find_file_by_name directory target_name) /\
  find_file_by_name (map (rename nfd) directory) target_name
    = option_map (rename nfd) (find_file_by_name directory target_name) /\
  (forall f, find_file_by_name directory target_name = Some f ->
     In f directory /\ is_file f = true /\ canon_equiv (name f) target_name) /\
  ((exists f, In f directory /\ is_file f = true /\
              canon_equiv (name f) target_name) ->
   exists f, find_file_by_name directory target_name = Some f) /\
  (find_file_by_name directory target_name = None <->
   forall f, In f directory -> is_file f = true ->
             ~ canon_equiv (name f) target_name).
Proof.
  repeat split.
  - apply find_file_by_name_find.
  - rewrite !find_file_by_name_find. apply find_pointwise. intros f.
    apply matches_equiv. apply nfc_idempotent.
  - rewrite !find_file_by_name_find. apply find_pointwise. intros f.
    apply matches_equiv. apply nfc_of_nfd.
  - apply find_rename, nfc_idempotent.
  - apply find_rename, nfc_of_nfd.
  - rewrite find_file_by_name_find in H. apply find_some in H. tauto.
  - rewrite find_file_by_name_find in H. apply find_some in H.
    destruct H as [_ H]. apply matches_true in H. tauto.
  - rewrite find_file_by_name_find in H. apply find_some in H.
    destruct H as [_ H]. apply matches_true in H. tauto.
  - intros [f [Hin [Hfile Heq]]]. rewrite find_file_by_name_find.
    destruct (find (matches target_name) directory) as [g|] eqn:E;
      [exists g; reflexivity|].
    pose proof (find_none _ _ E f Hin) as Hn.
    assert (matches target_name f = true) by (apply matches_true; tauto).
    congruence.
  - intros Hnone f Hin Hfile Heq. rewrite find_file_by_name_find in Hnone.
    pose proof (find_none _ _ Hnone f Hin) as Hn.
    assert (matches target_name f = true) by (apply matches_true; tauto).
    congruence.
  - intros Hall. rewrite find_file_by_name_find.
    destruct (find (matches target_name) directory) as [g|] eqn:E; [|reflexivity].
    apply find_some in E. destruct E as [Hin Hm]. apply matches_true in Hm.
    exfalso. apply (Hall g); tauto.
Qed.

End Resolution.

(* ================================================================== *)
(** ** The loaders *)

Lemma load_environment_loop_found schools env_data :
  (forall s, In s schools -> find_file_by_name DATA_DIR (env_filename s) <> None) ->
  exists env,
    load_environment_loop schools env_data = ([], Ret (Some env)) /\
    keys env = fold_left add_key schools (keys env_data).
Proof.
  revert env_data. induction schools as [|school rest IH]; intros env_data Hall.
  - exists env_data. split; reflexivity.
  - cbn [load_environment_loop].
    destruct (find_file_by_name DATA_DIR (school ++ ENV_SUFFIX)) as [file_path|] eqn:E.
    + destruct (IH (dict_set env_data school
                      (map (fun r => {| env_row := r; env_school := school |})
                           (read_csv file_path)))) as [env [Hrun Hkeys]].
      { intros s Hs. apply Hall. right. exact Hs. }
      exists env. split; [exact Hrun|].
      rewrite Hkeys, keys_dict_set. reflexivity.
    + exfalso. apply (Hall school); [left; reflexivity | exact E].
Qed.

Lemma load_environment_loop_missing schools env_data missing :
  In missing schools ->
  find_file_by_name DATA_DIR (env_filename missing) = None ->
  exists before first after,
    schools = before ++ first :: after /\
    (forall s, In s before -> find_file_by_name DATA_DIR (env_filename s) <> None) /\
    find_file_by_name DATA_DIR (env_filename first) = None /\
    load_environment_loop schools env_data
      = ([st_error (ENV_MISSING ++ env_filename first)], Ret None).
Proof.
  revert env_data. induction schools as [|school rest IH]; intros env_data Hin Hnone.
  - destruct Hin.
  - cbn [load_environment_loop].
    destruct (find_file_by_name DATA_DIR (school ++ ENV_SUFFIX)) as [file_path|] eqn:E.
    + destruct Hin as [->|Hin]; [unfold env_filename in Hnone; congruence|].
      destruct (IH (dict_set env_data school
                      (map (fun r => {| env_row := r; env_school := school |})
                           (read_csv file_path))) Hin Hnone)
        as [before [first [after [Hsplit [Hbefore [Hfirst Hrun]]]]]].
      exists (school :: before), first, after. repeat split.
      * rewrite Hsplit. reflexivity.
      * intros s [<-|Hs]; [unfold env_filename; congruence | apply Hbefore, Hs].
      * exact Hfirst.
      * exact Hrun.
    + exists [], school, rest. repeat split.
      * intros s [].
      * exact E.
Qed.

Lemma load_environment_data_some env :
  result load_environment_data = Ret (Some env) ->
  load_environment_data = ([], Ret (Some env)) /\
  keys env = keys SCHOOL_EC_INFO /\
  forall s, In s (keys SCHOOL_EC_INFO) ->
            find_file_by_name DATA_DIR (env_filename s) <> None.
Proof.
  unfold load_environment_data. intros Hres.
  assert (Hall : forall s, In s (keys SCHOOL_EC_INFO) ->
                           find_file_by_name DATA_DIR (env_filename s) <> None).
  { intros s Hs Hnone.
    destruct (load_environment_loop_missing _ [] s Hs Hnone)
      as [b [f [a [_ [_ [_ Hrun]]]]]].
    rewrite Hrun in Hres. discriminate Hres. }
  destruct (load_environment_loop_found _ [] Hall) as [env' [Hrun Hkeys]].
  rewrite Hrun in Hres. cbn [result snd] in Hres. injection Hres as <-.
  repeat split; assumption.
Qed.

Lemma keys_load_growth_loop excel growth_data :
  keys (load_growth_loop excel growth_data)
  = fold_left add_key (map fst excel) (keys growth_data).
Proof.
  revert growth_data. induction excel as [|[sheet rows] rest IH]; intros growth_data.
  - reflexivity.
  - cbn [load_growth_loop map fst fold_left]. rewrite IH, keys_dict_set. reflexivity.
Qed.

Lemma In_fold_add_key ks acc x :
  In x (fold_left add_key ks acc) <-> In x acc \/ In x ks.
Proof.
  clear nfc nfd DATA_DIR series_mean groupby_mean.
  revert acc. induction ks as [|k ks IH]; intros acc; cbn [fold_left In].
  - tauto.
  - rewrite IH, In_add_key. intuition congruence.
Qed.

Lemma load_growth_data_some growth :
  result load_growth_data = Ret (Some growth) ->
  exists xlsx_path,
    find is_xlsx DATA_DIR = Some xlsx_path /\
    growth = load_growth_loop (sheets xlsx_path) [] /\
    load_growth_data = ([], Ret (Some growth)).
Proof.
  unfold load_growth_data.
  destruct (find is_xlsx DATA_DIR) as [xlsx_path|]; cbn [result snd bind emit ret].
  - intros [= <-]. exists xlsx_path. repeat split.
  - discriminate.
Qed.

Lemma load_growth_loop_well_tagged excel growth_data :
  well_tagged growth_data -> well_tagged (load_growth_loop excel growth_data).
Proof.
  revert growth_data. induction excel as [|[sheet rows] rest IH]; intros growth_data Hw.
  - exact Hw.
  - cbn [load_growth_loop]. apply IH. intros k df Hget r Hr.
    destruct (pystr_eqb_spec k sheet) as [->|Hk].
    + rewrite dict_get_set_same in Hget. injection Hget as <-.
      apply in_map_iff in Hr. destruct Hr as [r0 [<- _]]. split; reflexivity.
    + rewrite dict_get_set_other in Hget by exact Hk. exact (Hw k df Hget r Hr).
Qed.

Lemma load_growth_loop_get_other excel growth_data sheet :
  ~ In sheet (map fst excel) ->
  dict_get (load_growth_loop excel growth_data) sheet = dict_get growth_data sheet.
Proof.
  revert growth_data. induction excel as [|[s rows] rest IH]; intros growth_data Hnot.
  - reflexivity.
  - cbn [load_growth_loop]. rewrite IH by (intros H; apply Hnot; right; exact H).
    apply dict_get_set_other. intros ->. apply Hnot. left. reflexivity.
Qed.

Lemma load_growth_loop_get excel growth_data sheet rows :
  NoDup (map fst excel) -> In (sheet, rows) excel ->
  dict_get (load_growth_loop excel growth_data) sheet
  = Some (map (fun r => {| growth_row := r; growth_school := sheet;
                           growth_ec := dict_get SCHOOL_EC_INFO sheet |}) rows).
Proof.
  revert growth_data. induction excel as [|[s rs] rest IH]; intros growth_data Hnd Hin.
  - destruct Hin.
  - cbn [map fst] in Hnd. inversion Hnd as [|? ? Hnotin Hnd']; subst.
    cbn [load_growth_loop]. destruct Hin as [[= -> ->]|Hin].
    + rewrite load_growth_loop_get_other by exact Hnotin.
      apply dict_get_set_same.
    + apply IH; assumption.
Qed.

(** C2 (amended). After a load in which both loaders return a mapping, the
    environment mapping has exactly the four fixed site keys, in the order
    of the reference table; the growth mapping has exactly the sheet names
    of the workbook as its keys, whatever they are. *)
Theorem C2_keys_after_successful_load
  (env : dict env_frame) (growth : dict growth_frame) :
  result load_environment_data = Ret (Some env) ->
  result load_growth_data = Ret (Some growth) ->
  keys env = keys SCHOOL_EC_INFO /\
  exists xlsx_path,
    find is_xlsx DATA_DIR = Some xlsx_path /\
    keys growth = fold_left add_key (map fst (sheets xlsx_path)) [] /\
    forall k, In k (keys growth) <-> In k (map fst (sheets xlsx_path)).
Proof.
  intros Henv Hgrowth.
  apply load_environment_data_some in Henv. destruct Henv as [_ [Hkeys _]].
  apply load_growth_data_some in Hgrowth.
  destruct Hgrowth as [xlsx_path [Hfind [-> _]]].
  split; [exact Hkeys|]. exists xlsx_path. split; [exact Hfind|].
  rewrite keys_load_growth_loop. split; [reflexivity|].
  intros k. rewrite In_fold_add_key. cbn [keys map In]. tauto.
Qed.

(** C4. When one of the four expected environment files cannot be
    resolved, the environment loader reports the first file name that is
    missing and returns [None] without any mapping; the script then stops:
    whatever the selection, the run ends in [st.stop()] and nothing but
    error messages was shown. *)
Theorem C4_missing_environment_file_stops
  (school school_option : pystr) :
  In school (keys SCHOOL_EC_INFO) ->
  find_file_by_name DATA_DIR (env_filename school) = None ->
  exists before first after,
    keys SCHOOL_EC_INFO = before ++ first :: after /\
    (forall s, In s before -> find_file_by_name DATA_DIR (env_filename s) <> None) /\
    find_file_by_name DATA_DIR (env_filename first) = None /\
    load_environment_data
      = ([st_error (ENV_MISSING ++ env_filename first)], Ret None) /\
    result (main school_option) = Stop /\
    Forall (fun e => is_render e = false) (events (main school_option)).
Proof.
  intros Hin Hnone.
  destruct (load_environment_loop_missing _ [] school Hin Hnone)
    as [before [first [after [Hsplit [Hbefore [Hfirst Hrun]]]]]].
  exists before, first, after.
  repeat (split; [assumption|]).
  unfold main. fold load_environment_data in Hrun. rewrite Hrun.
  unfold load_growth_data.
  destruct (find is_xlsx DATA_DIR); split; try reflexivity;
    repeat constructor.
Qed.

(** C5. A sheet whose name is not in the reference table is loaded like any
    other: the loader returns a mapping without showing an error for every
    workbook it finds, the mapping has a frame for that sheet, all rows of
    that frame have a null target EC, and (sheet names being unique) they
    are the rows of the sheet. *)
Theorem C5_unknown_sheet_is_loaded
  (xlsx_path : Path) (sheet : pystr) (rows : list GrowthRow) :
  find is_xlsx DATA_DIR = Some xlsx_path ->
  In (sheet, rows) (sheets xlsx_path) ->
  dict_get SCHOOL_EC_INFO sheet = None ->
  exists growth df,
    load_growth_data = ([], Ret (Some growth)) /\
    dict_get growth sheet = Some df /\
    (forall r, In r df -> growth_school r = sheet /\ growth_ec r = None) /\
    (NoDup (map fst (sheets xlsx_path)) ->
     df = map (fun r => {| growth_row := r; growth_school := sheet;
                           growth_ec := None |}) rows).
Proof.
  intros Hfind Hin Hunknown.
  set (growth := load_growth_loop (sheets xlsx_path) []).
  assert (Hkey : In sheet (keys growth)).
  { unfold growth. rewrite keys_load_growth_loop, In_fold_add_key. right.
    apply in_map_iff. exists (sheet, rows). split; [reflexivity | exact Hin]. }
  destruct (dict_get_Some _ _ Hkey) as [df Hdf].
  exists growth, df. repeat split.
  - unfold load_growth_data. rewrite Hfind. reflexivity.
  - exact Hdf.
  - eapply (load_growth_loop_well_tagged (sheets xlsx_path) []); try eassumption.
    intros k d Hk. discriminate Hk.
  - rewrite <- Hunknown.
    eapply (load_growth_loop_well_tagged (sheets xlsx_path) []); try eassumption.
    intros k d Hk. discriminate Hk.
  - intros Hnd. unfold growth in Hdf.
    rewrite (load_growth_loop_get _ [] sheet rows Hnd Hin) in Hdf.
    rewrite Hunknown in Hdf. congruence.
Qed.

(* ================================================================== *)
(** ** Tab 1: the overview *)

Lemma getitem_Some {V} (d : dict V) k v :
  dict_get d k = Some v -> getitem d k = ret v.
Proof. unfold getitem. intros ->. reflexivity. Qed.

Lemma getitem_None {V} (d : dict V) k :
  dict_get d k = None -> getitem d k = raise (KeyError k).
Proof. unfold getitem. intros ->. reflexivity. Qed.

Lemma bind_raise {A B} (e : exn) (f : A -> M B) : bind (raise e) f = raise e.
Proof. reflexivity. Qed.

Lemma events_getitem {V} (d : dict V) k : events (getitem d k) = [].
Proof. unfold getitem. destruct (dict_get d k); reflexivity. Qed.

(** The two reference tables have the same keys. *)
Lemma color_keys : keys SCHOOL_COLOR = keys SCHOOL_EC_INFO.
Proof. reflexivity. Qed.

Lemma color_unknown k :
  dict_get SCHOOL_EC_INFO k = None -> dict_get SCHOOL_COLOR k = None.
Proof.
  clear nfc nfd DATA_DIR series_mean groupby_mean. rewrite !dict_get_None, color_keys. tauto. Qed.

Lemma color_known k v :
  dict_get SCHOOL_EC_INFO k = Some v -> exists c, dict_get SCHOOL_COLOR k = Some c.
Proof.
  intros H. apply dict_get_Some. rewrite color_keys.
  apply dict_get_In in H. apply in_map_iff. exists (k, v). split; [reflexivity | exact H].
Qed.

Lemma events_overview_loop items overview_rows total_plants :
  events (overview_loop items overview_rows total_plants) = [].
Proof.
  revert overview_rows total_plants.
  induction items as [|[school df] rest IH]; intros overview_rows total_plants.
  - reflexivity.
  - cbn [overview_loop].
    destruct (dict_get SCHOOL_EC_INFO school) as [v|] eqn:E.
    + rewrite (getitem_Some _ _ _ E), bind_ret_l.
      destruct (color_known _ _ E) as [c Hc].
      rewrite (getitem_Some _ _ _ Hc), bind_ret_l. apply IH.
    + rewrite (getitem_None _ _ E). reflexivity.
Qed.

Lemma overview_loop_unknown items overview_rows total_plants sheet :
  In sheet (keys items) ->
  dict_get SCHOOL_EC_INFO sheet = None ->
  exists before k after,
    keys items = before ++ k :: after /\
    (forall s, In s before -> dict_get SCHOOL_EC_INFO s <> None) /\
    dict_get SCHOOL_EC_INFO k = None /\
    overview_loop items overview_rows total_plants = ([], Raise (KeyError k)).
Proof.
  revert overview_rows total_plants.
  induction items as [|[school df] rest IH]; intros overview_rows total_plants Hin Hun.
  - destruct Hin.
  - cbn [overview_loop].
    destruct (dict_get SCHOOL_EC_INFO school) as [v|] eqn:E.
    + rewrite (getitem_Some _ _ _ E), bind_ret_l.
      destruct (color_known _ _ E) as [c Hc].
      rewrite (getitem_Some _ _ _ Hc), bind_ret_l.
      destruct Hin as [Heq|Hin]; [cbn [fst] in Heq; congruence|].
      destruct (IH (overview_rows ++
                      [{| ov_school := school; ov_ec_target := v;
                          ov_count := length df; ov_color := c |}])
                   (total_plants + length df)%nat Hin Hun)
        as [before [k [after [Hsplit [Hbefore [Hk Hrun]]]]]].
      exists (school :: before), k, after. repeat split.
      * cbn [keys map fst]. fold (keys rest). rewrite Hsplit. reflexivity.
      * intros s [<-|Hs]; [congruence | apply Hbefore, Hs].
      * exact Hk.
      * exact Hrun.
    + exists [], school, (keys rest). rewrite (getitem_None _ _ E).
      repeat split; [intros s [] | exact E].
Qed.

Lemma overview_loop_known items overview_rows total_plants :
  (forall s, In s (keys items) -> dict_get SCHOOL_EC_INFO s <> None) ->
  exists ov, overview_loop items overview_rows total_plants = ([], Ret ov).
Proof.
  revert overview_rows total_plants.
  induction items as [|[school df] rest IH]; intros overview_rows total_plants Hall.
  - eexists. reflexivity.
  - cbn [overview_loop].
    destruct (dict_get SCHOOL_EC_INFO school) as [v|] eqn:E.
    + rewrite (getitem_Some _ _ _ E), bind_ret_l.
      destruct (color_known _ _ E) as [c Hc].
      rewrite (getitem_Some _ _ _ Hc), bind_ret_l.
      apply IH. intros s Hs. apply Hall. right. exact Hs.
    + exfalso. apply (Hall school); [left; reflexivity | exact E].
Qed.

(** C6. When the growth mapping has a sheet that is not in the reference
    table, rendering the overview raises a [KeyError] for the first such
    sheet (neither reference table has it) before the overview table is
    shown; in a run whose loaders returned these mappings, the script ends
    with that error after the title and the tab's heading. *)
Theorem C6_unknown_sheet_breaks_overview
  (env_data : dict env_frame) (growth_data : dict growth_frame)
  (sheet school_option : pystr) :
  In sheet (keys growth_data) ->
  dict_get SCHOOL_EC_INFO sheet = None ->
  exists before k after,
    keys growth_data = before ++ k :: after /\
    (forall s, In s before -> dict_get SCHOOL_EC_INFO s <> None) /\
    dict_get SCHOOL_EC_INFO k = None /\
    dict_get SCHOOL_COLOR k = None /\
    tab1 env_data growth_data
      = ([st_subheader (py "연구 배경 및 목적")], Raise (KeyError k)) /\
    (result load_environment_data = Ret (Some env_data) ->
     result load_growth_data = Ret (Some growth_data) ->
     main school_option
       = ([st_title (py "🌱 극지식물 최적 EC 농도 연구");
           st_subheader (py "연구 배경 및 목적")], Raise (KeyError k))).
Proof.
  intros Hin Hun.
  destruct (overview_loop_unknown growth_data [] 0%nat sheet Hin Hun)
    as [before [k [after [Hsplit [Hbefore [Hk Hrun]]]]]].
  exists before, k, after.
  assert (Htab : tab1 env_data growth_data
                 = ([st_subheader (py "연구 배경 및 목적")], Raise (KeyError k))).
  { unfold tab1. rewrite bind_emit, Hrun. reflexivity. }
  repeat (split; [first [assumption | apply color_unknown; assumption]|]).
  intros Henv Hgrowth.
  apply load_environment_data_some in Henv. destruct Henv as [Henv _].
  apply load_growth_data_some in Hgrowth. destruct Hgrowth as [x [_ [_ Hgrowth]]].
  unfold main. rewrite Henv, Hgrowth, !bind_nil_ret, bind_emit, Htab. reflexivity.
Qed.

Lemma events_pd_concat {A} (frames : list (list A)) : events (pd_concat frames) = [].
Proof. destruct frames; reflexivity. Qed.

Lemma pd_concat_cons {A} (df : list A) frames :
  pd_concat (df :: frames) = ret (concat (df :: frames)).
Proof. reflexivity. Qed.

(** The overview, step by step. *)
Lemma tab1_run env_data growth_data :
  tab1 env_data growth_data =
  let heading := st_subheader (py "연구 배경 및 목적") in
  match result (overview_loop growth_data [] 0%nat) with
  | Ret ov =>
    let shown := [heading; st_dataframe (OverviewTable (fst ov))] in
    match values env_data with
    | [] => (shown, Raise ValueError)
    | df :: frames =>
      let all_env := concat (df :: frames) in
      (shown ++
       [ st_metric 0 [Lit (py "총 개체수")] [Int (snd ov); Lit (py " 개")] None;
         st_metric 1 [Lit (py "평균 온도")]
           [Float (mean (map (fun r => temperature (env_row r)) all_env)) (Some 1%nat);
            Lit (py " ℃")] None;
         st_metric 2 [Lit (py "평균 습도")]
           [Float (mean (map (fun r => humidity (env_row r)) all_env)) (Some 1%nat);
            Lit (py " %")] None;
         optimal_ec_metric ], Ret tt)
    end
  | Raise e => ([heading], Raise e)
  | Stop => ([heading], Stop)
  end.
Proof.
  unfold tab1.
  pose proof (events_overview_loop growth_data [] 0%nat) as Hev.
  destruct (overview_loop growth_data [] 0%nat) as [tr [ov|e|]];
    cbn [events fst] in Hev; subst tr; [|reflexivity..].
  unfold avg_temp, avg_hum.
  destruct (values env_data) as [|df frames]; reflexivity.
Qed.

Lemma tab1_cards env_data growth_data :
  Forall optimal_card_is_constant (events (tab1 env_data growth_data)).
Proof.
  rewrite tab1_run. cbv zeta.
  destruct (result (overview_loop growth_data [] 0%nat)) as [ov|e|];
    [destruct (values env_data)|..]; cbn [events fst app];
    repeat (constructor; [card_case|]); constructor.
Qed.

(* ================================================================== *)
(** ** Tab 2 and tab 3, step by step *)

Lemma events_avg_loop items avg_rows : events (avg_loop items avg_rows) = [].
Proof.
  revert avg_rows. induction items as [|[school df] rest IH]; intros avg_rows.
  - reflexivity.
  - cbn [avg_loop]. destruct (dict_get SCHOOL_EC_INFO school) as [v|] eqn:E.
    + rewrite (getitem_Some _ _ _ E), bind_ret_l. apply IH.
    + rewrite (getitem_None _ _ E). reflexivity.
Qed.

Lemma avg_loop_known items avg_rows :
  (forall s, In s (keys items) -> dict_get SCHOOL_EC_INFO s <> None) ->
  exists avg_df, avg_loop items avg_rows = ([], Ret avg_df).
Proof.
  revert avg_rows. induction items as [|[school df] rest IH]; intros avg_rows Hall.
  - eexists. reflexivity.
  - cbn [avg_loop]. destruct (dict_get SCHOOL_EC_INFO school) as [v|] eqn:E.
    + rewrite (getitem_Some _ _ _ E), bind_ret_l. apply IH.
      intros s Hs. apply Hall. right. exact Hs.
    + exfalso. apply (Hall school); [left; reflexivity | exact E].
Qed.

(** The time-series loop shows charts only. *)
Lemma timeseries_loop_charts (P : event -> Prop) env_data schools_to_plot :
  (forall chart, P (st_plotly_chart chart)) ->
  Forall P (events (timeseries_loop env_data schools_to_plot)).
Proof.
  intros HP. induction schools_to_plot as [|school rest IH]; cbn [timeseries_loop].
  - constructor.
  - apply Forall_events_bind; [rewrite events_getitem; constructor|].
    intros df _. apply Forall_events_bind; [rewrite events_getitem; constructor|].
    intros target _. rewrite bind_emit. cbn [events fst].
    constructor; [apply HP | exact IH].
Qed.

Lemma timeseries_loop_returns env_data schools_to_plot :
  (forall s, In s schools_to_plot ->
             In s (keys env_data) /\ In s (keys SCHOOL_EC_INFO)) ->
  result (timeseries_loop env_data schools_to_plot) = Ret tt.
Proof.
  induction schools_to_plot as [|school rest IH]; intros Hall; cbn [timeseries_loop].
  - reflexivity.
  - destruct (Hall school (or_introl eq_refl)) as [H1 H2].
    destruct (dict_get_Some _ _ H1) as [df Hdf].
    destruct (dict_get_Some _ _ H2) as [target Ht].
    rewrite (getitem_Some _ _ _ Hdf), bind_ret_l.
    rewrite (getitem_Some _ _ _ Ht), bind_ret_l.
    rewrite bind_emit. cbn [result snd]. apply IH.
    intros s Hs. apply Hall. right. exact Hs.
Qed.

Lemma exports_timeseries_loop env_data schools_to_plot :
  exports (events (timeseries_loop env_data schools_to_plot)) = [].
Proof.
  assert (H : Forall (fun e => exports [e] = [])
                     (events (timeseries_loop env_data schools_to_plot))).
  { apply timeseries_loop_charts. reflexivity. }
  induction H as [|e tr He _ IH]; [reflexivity|].
  change (e :: tr) with ([e] ++ tr). rewrite exports_app, He, IH. reflexivity.
Qed.

(** The environment tab once the environment mapping has the four sites. *)
Lemma tab2_loaded school_option env_data :
  keys env_data = keys SCHOOL_EC_INFO ->
  In school_option school_options ->
  result (tab2 school_option env_data) = Ret tt /\
  exports (events (tab2 school_option env_data))
    = [ToCsv (concat (values env_data))].
Proof.
  intros Hkeys Hopt.
  assert (Hknown : forall s, In s (keys env_data) ->
                             dict_get SCHOOL_EC_INFO s <> None).
  { intros s Hs Hn. apply dict_get_None in Hn. rewrite Hkeys in Hs. contradiction. }
  destruct (avg_loop_known env_data [] Hknown) as [avg_df Havg].
  set (schools_to_plot :=
         if PyStr.eqb school_option ALL_SCHOOLS then keys env_data
         else [school_option]).
  assert (Hplot : forall s, In s schools_to_plot ->
                            In s (keys env_data) /\ In s (keys SCHOOL_EC_INFO)).
  { unfold schools_to_plot. intros s.
    destruct (pystr_eqb_spec school_option ALL_SCHOOLS) as [E|E].
    - intros Hs. split; [exact Hs | rewrite <- Hkeys; exact Hs].
    - intros [<-|[]]. destruct Hopt as [Hopt|Hopt]; [congruence|].
      split; [rewrite Hkeys|]; exact Hopt. }
  pose proof (timeseries_loop_returns env_data schools_to_plot Hplot) as Hret.
  pose proof (exports_timeseries_loop env_data schools_to_plot) as Hexp.
  assert (Hvalues : pd_concat (values env_data) = ret (concat (values env_data))).
  { destruct env_data; [discriminate Hkeys | reflexivity]. }
  unfold tab2. fold schools_to_plot.
  rewrite bind_emit, Havg, bind_nil_ret, !bind_emit.
  unfold env_export. rewrite Hvalues, bind_ret_l, !bind_emit.
  cbn [events result fst snd].
  rewrite result_bind, events_bind, Hret. cbn [events result fst snd].
  split; [reflexivity|].
  change (exports ([st_subheader (py "학교별 환경 평균 비교");
                    st_plotly_chart (fig avg_df);
                    st_subheader (py "환경 변화 시계열")]
                   ++ events (timeseries_loop env_data schools_to_plot)
                   ++ [st_dataframe (EnvTable (concat (values env_data)));
                       st_download_button (py "CSV 다운로드")
                         (ToCsv (concat (values env_data)))
                         (py "환경데이터_전체.csv") (py "text/csv")])
          = [ToCsv (concat (values env_data))]).
  rewrite !exports_app, Hexp. reflexivity.
Qed.

(* ================================================================== *)
(** ** Grouping by EC and the largest mean *)

Lemma nth_error_snoc {A} (l : list A) (c : A) k x :
  nth_error (l ++ [c]) k = Some x ->
  ((k < length l)%nat /\ nth_error l k = Some x) \/ (k = length l /\ x = c).
Proof.
  intros H. destruct (Nat.lt_ge_cases k (length l)) as [Hlt|Hge].
  - left. split; [exact Hlt|]. rewrite nth_error_app1 in H by exact Hlt. exact H.
  - right. rewrite nth_error_app2 in H by exact Hge.
    destruct (k - length l)%nat as [|n] eqn:E; cbn [nth_error] in H.
    + split; [lia | congruence].
    + destruct n; discriminate H.
Qed.

Lemma first_largest_step seen c best :
  first_largest seen best ->
  first_largest (seen ++ [c])
    match c with
    | None => best
    | Some x =>
      match best with
      | None => Some (length seen, x)
      | Some (j, y) => if Qlt_le_dec y x then Some (length seen, x) else best
      end
    end.
Proof.
  intros Hinv. destruct c as [x|].
  - assert (Hnew : nth_error (seen ++ [Some x]) (length seen) = Some (Some x)).
    { rewrite nth_error_app2, Nat.sub_diag by lia. reflexivity. }
    destruct Hinv as [Hnone | j y Hj Hmax].
    + apply fl_some; [exact Hnew|]. intros k z Hk.
      apply nth_error_snoc in Hk. destruct Hk as [[_ Hk]|[-> [= ->]]].
      * exfalso. exact (Hnone k z Hk).
      * split; [apply Qle_refl | lia].
    + assert (Hjlt : (j < length seen)%nat).
      { apply nth_error_Some. rewrite Hj. discriminate. }
      destruct (Qlt_le_dec y x) as [Hlt|Hle].
      * apply fl_some; [exact Hnew|]. intros k z Hk.
        apply nth_error_snoc in Hk. destruct Hk as [[_ Hk]|[-> [= ->]]].
        -- destruct (Hmax k z Hk) as [Hzy _].
           split; [apply Qlt_le_weak|intros _]; apply Qle_lt_trans with y; assumption.
        -- split; [apply Qle_refl | lia].
      * apply fl_some; [rewrite nth_error_app1 by exact Hjlt; exact Hj|].
        intros k z Hk.
        apply nth_error_snoc in Hk. destruct Hk as [[_ Hk]|[-> [= ->]]].
        -- exact (Hmax k z Hk).
        -- split; [exact Hle | lia].
  - destruct Hinv as [Hnone | j y Hj Hmax].
    + apply fl_none. intros k z Hk.
      apply nth_error_snoc in Hk. destruct Hk as [[_ Hk]|[_ Hk]];
        [exact (Hnone k z Hk) | discriminate Hk].
    + assert (Hjlt : (j < length seen)%nat).
      { apply nth_error_Some. rewrite Hj. discriminate. }
      apply fl_some; [rewrite nth_error_app1 by exact Hjlt; exact Hj|].
      intros k z Hk.
      apply nth_error_snoc in Hk. destruct Hk as [[_ Hk]|[_ Hk]];
        [exact (Hmax k z Hk) | discriminate Hk].
Qed.

Lemma idxmax_from_first_largest col : forall seen best,
  first_largest seen best ->
  first_largest (seen ++ col) (idxmax_from col (length seen) best).
Proof.
  induction col as [|c rest IH]; intros seen best Hinv.
  - rewrite app_nil_r. exact Hinv.
  - pose proof (first_largest_step seen c best Hinv) as Hstep.
    replace (seen ++ c :: rest) with ((seen ++ [c]) ++ rest)
      by (rewrite <- app_assoc; reflexivity).
    replace (S (length seen)) with (length (seen ++ [c])) in *
      by (rewrite length_app; cbn [length]; lia).
    cbn [idxmax_from].
    replace (S (length seen)) with (length (seen ++ [c]))
      by (rewrite length_app; cbn [length]; lia).
    destruct c as [x|]; [destruct best as [[j y]|]; [destruct (Qlt_le_dec y x)|]|];
      apply IH; exact Hstep.
Qed.

(** [idxmax] returns the first position of the largest value. *)
Lemma idxmax_Some col i :
  idxmax col = Some i ->
  exists m,
    nth_error col i = Some (Some m) /\
    forall k z, nth_error col k = Some (Some z) ->
                (z <= m)%Q /\ ((k < i)%nat -> (z < m)%Q).
Proof.
  unfold idxmax. intros H.
  pose proof (idxmax_from_first_largest col [] None) as Hspec.
  cbn [app length] in Hspec.
  destruct Hspec as [Hnone | j y Hj Hmax].
  - apply fl_none. intros [|k] z; discriminate.
  - discriminate H.
  - cbn [option_map fst] in H. injection H as <-. exists y. split; assumption.
Qed.

Lemma idxmax_None col :
  idxmax col = None -> forall k z, nth_error col k <> Some (Some z).
Proof.
  unfold idxmax. intros H.
  pose proof (idxmax_from_first_largest col [] None) as Hspec.
  cbn [app length] in Hspec.
  destruct Hspec as [Hnone | j y Hj Hmax].
  - apply fl_none. intros [|k] z; discriminate.
  - exact Hnone.
  - discriminate H.
Qed.

Lemma insert_key_In k ks x : In x (insert_key k ks) -> x = k \/ In x ks.
Proof.
  induction ks as [|h t IH]; cbn [insert_key].
  - intros [<-|[]]. left; reflexivity.
  - destruct (k ?= h)%Q.
    + intros H. right. exact H.
    + intros [<-|H]; [left; reflexivity | right; exact H].
    + intros [<-|H]; [right; left; reflexivity|].
      destruct (IH H) as [->|H']; [left; reflexivity | right; right; exact H'].
Qed.

Lemma insert_key_sorted k ks :
  StronglySorted Qlt ks -> StronglySorted Qlt (insert_key k ks).
Proof.
  induction ks as [|h t IH]; intros Hs; cbn [insert_key].
  - repeat constructor.
  - inversion Hs as [|? ? Ht Hh]; subst.
    destruct (k ?= h)%Q eqn:E.
    + exact Hs.
    + apply Qlt_alt in E. constructor; [exact Hs|].
      constructor; [exact E|].
      eapply Forall_impl; [|exact Hh]. intros a Ha. apply Qlt_trans with h; assumption.
    + apply Qgt_alt in E. constructor; [apply IH, Ht|].
      apply Forall_forall. intros x Hx. apply insert_key_In in Hx.
      destruct Hx as [->|Hx]; [exact E|].
      rewrite Forall_forall in Hh. apply Hh, Hx.
Qed.

Lemma fold_keys_sorted rows : forall ks,
  StronglySorted Qlt ks ->
  StronglySorted Qlt
    (fold_left (fun ks r => match growth_ec r with
                            | Some k => insert_key k ks
                            | None => ks
                            end) rows ks).
Proof.
  induction rows as [|r rows IH]; intros ks Hs; cbn [fold_left]; [exact Hs|].
  apply IH. destruct (growth_ec r); [apply insert_key_sorted|]; exact Hs.
Qed.

(** The groups come in ascending order of EC. *)
Lemma group_keys_sorted rows : StronglySorted Qlt (group_keys rows).
Proof. apply fold_keys_sorted. constructor. Qed.

Lemma fold_keys_In rows : forall ks k,
  In k (fold_left (fun ks r => match growth_ec r with
                               | Some k => insert_key k ks
                               | None => ks
                               end) rows ks) ->
  In k ks \/ exists r, In r rows /\ growth_ec r = Some k.
Proof.
  clear nfc nfd DATA_DIR series_mean groupby_mean.
  induction rows as [|r rows IH]; intros ks k; cbn [fold_left]; [tauto|].
  intros H. apply IH in H. destruct H as [H|[r' [Hr' Hk]]].
  - destruct (growth_ec r) as [e|] eqn:E; [|left; exact H].
    apply insert_key_In in H. destruct H as [->|H]; [|left; exact H].
    right. exists r. split; [left; reflexivity | exact E].
  - right. exists r'. split; [right; exact Hr' | exact Hk].
Qed.

(** Every group key is the target EC of a row. *)
Lemma group_keys_In rows k :
  In k (group_keys rows) -> exists r, In r rows /\ growth_ec r = Some k.
Proof. intros H. apply fold_keys_In in H. destruct H as [[]|H]. exact H. Qed.

Lemma with_ec_cons r rows :
  with_ec (r :: rows)
  = match growth_ec r with
    | Some _ => r :: with_ec rows
    | None => with_ec rows
    end.
Proof. unfold with_ec. cbn [filter]. destruct (growth_ec r); reflexivity. Qed.

Lemma fold_keys_with_ec rows : forall ks,
  fold_left (fun ks r => match growth_ec r with
                         | Some k => insert_key k ks
                         | None => ks
                         end) (with_ec rows) ks
  = fold_left (fun ks r => match growth_ec r with
                           | Some k => insert_key k ks
                           | None => ks
                           end) rows ks.
Proof.
  induction rows as [|r rows IH]; intros ks; [reflexivity|].
  rewrite with_ec_cons. cbn [fold_left].
  destruct (growth_ec r) eqn:E; cbn [fold_left]; [rewrite E|]; apply IH.
Qed.

Lemma filter_has_ec_with_ec k rows :
  filter (has_ec k) (with_ec rows) = filter (has_ec k) rows.
Proof.
  induction rows as [|r rows IH]; [reflexivity|].
  rewrite with_ec_cons. cbn [filter].
  destruct (growth_ec r) eqn:E.
  - cbn [filter]. rewrite IH. reflexivity.
  - replace (has_ec k r) with false by (unfold has_ec; rewrite E; reflexivity).
    exact IH.
Qed.

(** Rows without a target EC are in no group. *)
Lemma groupby_ec_with_ec rows : groupby_ec (with_ec rows) = groupby_ec rows.
Proof.
  unfold groupby_ec, group_keys. rewrite fold_keys_with_ec.
  apply map_ext. intros k. rewrite filter_has_ec_with_ec. reflexivity.
Qed.

Lemma group_mean_with_ec col rows :
  group_mean col (with_ec rows) = group_mean col rows.
Proof. unfold group_mean. rewrite groupby_ec_with_ec. reflexivity. Qed.

Lemma group_size_with_ec rows : group_size (with_ec rows) = group_size rows.
Proof. unfold group_size. rewrite groupby_ec_with_ec. reflexivity. Qed.

Lemma max_ec_with_ec rows : max_ec (with_ec rows) = max_ec rows.
Proof. unfold max_ec, ec_group. rewrite group_mean_with_ec. reflexivity. Qed.

Lemma keys_ec_group rows : map fst (ec_group rows) = group_keys rows.
Proof.
  unfold ec_group, group_mean, groupby_ec. rewrite !map_map. cbn [fst].
  apply map_id.
Qed.

Lemma nth_error_map_snd {A B} (l : list (A * B)) i c :
  nth_error (map snd l) i = Some c -> exists k, nth_error l i = Some (k, c).
Proof.
  rewrite nth_error_map. destruct (nth_error l i) as [[k c']|]; cbn [option_map snd].
  - intros [= ->]. exists k. reflexivity.
  - discriminate.
Qed.

(** The level [loc_idxmax] returns is that of the first row with the largest
    value. *)
Lemma loc_idxmax_Some (df : list (Q * cell)) e :
  loc_idxmax df = Some e ->
  exists i m,
    nth_error df i = Some (e, Some m) /\
    forall j k m', nth_error df j = Some (k, Some m') ->
                   (m' <= m)%Q /\ ((j < i)%nat -> (m' < m)%Q).
Proof.
  clear nfc nfd DATA_DIR series_mean groupby_mean. unfold loc_idxmax. destruct (idxmax (map snd df)) as [i|] eqn:E;
    [|discriminate].
  apply idxmax_Some in E. destruct E as [m [Hi Hmax]].
  destruct (nth_error_map_snd _ _ _ Hi) as [k Hk]. rewrite Hk. cbn [option_map fst].
  intros [= <-]. exists i, m. split; [exact Hk|].
  intros j k' m' Hj. apply Hmax. rewrite nth_error_map, Hj. reflexivity.
Qed.

Lemma loc_idxmax_exists (df : list (Q * cell)) k m :
  In (k, Some m) df -> exists e, loc_idxmax df = Some e.
Proof.
  clear nfc nfd DATA_DIR series_mean groupby_mean. intros Hin. unfold loc_idxmax.
  destruct (idxmax (map snd df)) as [i|] eqn:E.
  - apply idxmax_Some in E. destruct E as [m' [Hi _]].
    destruct (nth_error_map_snd _ _ _ Hi) as [k' Hk]. rewrite Hk.
    exists k'. reflexivity.
  - exfalso. apply In_nth_error in Hin. destruct Hin as [j Hj].
    apply (idxmax_None _ E j m). rewrite nth_error_map.
    exact (f_equal (option_map snd) Hj).
Qed.

(** The level selected has the largest group mean and is the first with it. *)
Lemma max_ec_Some rows e :
  max_ec rows = Some e ->
  exists i m,
    nth_error (ec_group rows) i = Some (e, Some m) /\
    forall j k m', nth_error (ec_group rows) j = Some (k, Some m') ->
                   (m' <= m)%Q /\ ((j < i)%nat -> (m' < m)%Q).
Proof. apply loc_idxmax_Some. Qed.

Lemma max_ec_exists rows k m :
  In (k, Some m) (ec_group rows) -> exists e, max_ec rows = Some e.
Proof. apply loc_idxmax_exists. Qed.

(* ================================================================== *)
(** ** Tab 3: the growth results *)

Lemma ec_cards_returns best i rows : result (ec_cards best i rows) = Ret tt.
Proof.
  revert i. induction rows as [|row rest IH]; intros i; cbn [ec_cards].
  - reflexivity.
  - rewrite bind_emit. cbn [result snd]. apply IH.
Qed.


Lemma ec_cards_Forall (P : event -> Prop) best rows : forall i,
  (forall j row, P (ec_card best j row)) ->
  Forall P (events (ec_cards best i rows)).
Proof.
  induction rows as [|row rest IH]; intros i HP; cbn [ec_cards].
  - constructor.
  - rewrite bind_emit. cbn [events fst]. constructor; [apply HP | apply IH, HP].
Qed.

Lemma exports_Forall_nil tr :
  Forall (fun e => exports [e] = []) tr -> exports tr = [].
Proof.
  induction 1 as [|e tr He _ IH]; [reflexivity|].
  change (e :: tr) with ([e] ++ tr). rewrite exports_app, He, IH. reflexivity.
Qed.

(** The growth tab, step by step. *)
Lemma tab3_run growth_data :
  tab3 growth_data =
  let heading := st_subheader (py "🥇 EC별 평균 생중량") in
  match values growth_data with
  | [] => ([heading], Raise ValueError)
  | df :: frames =>
    let growth_all := concat (df :: frames) in
    match max_ec growth_all with
    | None => ([heading], Raise ValueError)
    | Some best =>
      (heading :: events (ec_cards best 0 (ec_group growth_all)) ++
       [ st_plotly_chart (fig2 growth_all);
         st_subheader (py "학교별 생중량 분포");
         st_plotly_chart (PxBox growth_all (py "school") (py "생중량(g)") (py "school"));
         st_subheader (py "상관관계 분석");
         st_plotly_chart
           (PxScatter growth_all (py "잎 수(장)") (py "생중량(g)") (py "school"));
         st_plotly_chart
           (PxScatter growth_all (py "지상부 길이(mm)") (py "생중량(g)") (py "school"));
         st_dataframe (GrowthTable growth_all);
         st_download_button (py "XLSX 다운로드") (ToExcel growth_all)
           (py "생육결과_전체.xlsx")
           (py "application/vnd.openxmlformats-officedocument.spreadsheetml.sheet") ],
       Ret tt)
    end
  end.
Proof.
  unfold tab3. rewrite bind_emit. cbv beta.
  destruct (values growth_data) as [|df frames]; [reflexivity|].
  change (pd_concat (df :: frames)) with (ret (concat (df :: frames))).
  rewrite bind_ret_l. cbv zeta.
  destruct (max_ec (concat (df :: frames))) as [best|]; [|reflexivity].
  rewrite bind_ret_l.
  rewrite (M_eta (ec_cards best 0 (ec_group (concat (df :: frames))))).
  rewrite ec_cards_returns. reflexivity.
Qed.


Lemma exports_ec_cards best i rows : exports (events (ec_cards best i rows)) = [].
Proof. apply exports_Forall_nil, ec_cards_Forall. reflexivity. Qed.

(** What the growth tab shows and hands out when it completes. *)
Lemma tab3_returns growth_data :
  result (tab3 growth_data) = Ret tt ->
  In (st_dataframe (GrowthTable (concat (values growth_data))))
     (events (tab3 growth_data)) /\
  exports (events (tab3 growth_data)) = [ToExcel (concat (values growth_data))].
Proof.
  rewrite tab3_run. cbv zeta.
  destruct (values growth_data) as [|df frames]; [discriminate|].
  destruct (max_ec (concat (df :: frames))) as [best|]; [|discriminate].
  intros _. cbn [events fst]. split.
  - right. apply in_or_app. right. cbn [In]. tauto.
  - rewrite exports_cons, exports_app, exports_ec_cards. reflexivity.
Qed.


(* ================================================================== *)
(** ** The whole run *)

Lemma load_environment_loop_errors (P : event -> Prop) schools env_data :
  (forall msg, P (st_error msg)) ->
  Forall P (events (load_environment_loop schools env_data)).
Proof.
  intros HP. revert env_data.
  induction schools as [|school rest IH]; intros env_data; cbn [load_environment_loop].
  - constructor.
  - destruct (find_file_by_name DATA_DIR (school ++ ENV_SUFFIX)); [apply IH|].
    repeat constructor. apply HP.
Qed.

Lemma load_growth_data_errors (P : event -> Prop) :
  (forall msg, P (st_error msg)) -> Forall P (events load_growth_data).
Proof.
  intros HP. unfold load_growth_data.
  destruct (find is_xlsx DATA_DIR); repeat constructor. apply HP.
Qed.

Lemma tab2_Forall (P : event -> Prop) school_option env_data :
  (forall e, metric_label e = None -> P e) ->
  Forall P (events (tab2 school_option env_data)).
Proof.
  intros HP. unfold tab2. rewrite bind_emit. cbn [events fst].
  constructor; [apply HP; reflexivity|].
  apply Forall_events_bind; [rewrite events_avg_loop; constructor|].
  intros avg_df _. rewrite !bind_emit. cbn [events fst].
  do 2 (constructor; [apply HP; reflexivity|]).
  apply Forall_events_bind.
  - apply timeseries_loop_charts. intros chart. apply HP. reflexivity.
  - intros _ _. unfold env_export.
    apply Forall_events_bind; [rewrite events_pd_concat; constructor|].
    intros all_env_df _. rewrite !bind_emit. cbn [events fst emit].
    repeat (constructor; [apply HP; reflexivity|]). constructor.
Qed.

Lemma tab3_cards growth_data :
  Forall optimal_card_is_constant (events (tab3 growth_data)).
Proof.
  rewrite tab3_run. cbv zeta.
  destruct (values growth_data) as [|df frames];
    [repeat constructor; card_case|].
  destruct (max_ec (concat (df :: frames))) as [best|];
    [|repeat constructor; card_case].
  cbn [events fst]. constructor; [card_case|].
  apply Forall_app. split.
  - apply ec_cards_Forall. intros j row. unfold ec_card. card_case.
  - repeat (constructor; [card_case|]). constructor.
Qed.

(** The run once both loaders have returned a mapping. *)
Lemma main_loaded school_option env_data growth_data :
  result load_environment_data = Ret (Some env_data) ->
  result load_growth_data = Ret (Some growth_data) ->
  main school_option
  = (emit (st_title (py "🌱 극지식물 최적 EC 농도 연구")) ;;
     tab1 env_data growth_data ;;
     tab2 school_option env_data ;;
     tab3 growth_data).
Proof.
  intros Henv Hgrowth.
  apply load_environment_data_some in Henv. destruct Henv as [Henv _].
  apply load_growth_data_some in Hgrowth. destruct Hgrowth as [x [_ [_ Hgrowth]]].
  unfold main. rewrite Henv, Hgrowth, !bind_nil_ret. reflexivity.
Qed.

Lemma result_Ret_bind {A B} (m : M A) (f : A -> M B) b :
  result (bind m f) = Ret b ->
  exists a, result m = Ret a /\ result (f a) = Ret b /\
            events (bind m f) = events m ++ events (f a).
Proof.
  rewrite result_bind, events_bind.
  destruct (result m) as [a|e|]; [|discriminate..].
  intros H. exists a. repeat split. exact H.
Qed.

(** C8. Every card labelled "최적 EC" that a run shows is the same card: it
    carries the constant 2.0, whatever the data directory holds and
    whatever is selected; a run that completes shows it, and so does the
    overview whenever it completes. *)
Theorem C8_overview_optimal_ec_is_constant (school_option : pystr) :
  optimal_ec_metric
    = st_metric 3 [Lit (py "최적 EC")] [Float (Some 2.0%Q) None] None /\
  Forall optimal_card_is_constant (events (main school_option)) /\
  (result (main school_option) = Ret tt ->
   In optimal_ec_metric (events (main school_option))) /\
  (forall env_data growth_data,
     Forall optimal_card_is_constant (events (tab1 env_data growth_data)) /\
     (result (tab1 env_data growth_data) = Ret tt ->
      In optimal_ec_metric (events (tab1 env_data growth_data)))).
Proof.
  assert (Htab1 : forall env_data growth_data,
             result (tab1 env_data growth_data) = Ret tt ->
             In optimal_ec_metric (events (tab1 env_data growth_data))).
  { intros env_data growth_data. rewrite tab1_run. cbv zeta.
    destruct (result (overview_loop growth_data [] 0%nat)) as [ov|e|];
      [|discriminate..].
    destruct (values env_data); [discriminate|].
    intros _. cbn [events fst]. apply in_or_app. right. cbn [In]. tauto. }
  split; [reflexivity|]. split; [|split].
  - unfold main. apply Forall_events_bind.
    { apply load_environment_loop_errors. intros msg. card_case. }
    intros env _. apply Forall_events_bind.
    { apply load_growth_data_errors. intros msg. card_case. }
    intros growth _. destruct env as [env|], growth as [growth|];
      try (cbn [st_stop events fst]; constructor).
    rewrite bind_emit. cbn [events fst]. constructor; [card_case|].
    apply Forall_events_bind; [apply tab1_cards|]. intros _ _.
    apply Forall_events_bind; [|intros _ _; apply tab3_cards].
    apply tab2_Forall. intros e He Hl. congruence.
  - unfold main. intros H.
    apply result_Ret_bind in H. destruct H as [env [_ [H ->]]].
    apply in_or_app. right.
    apply result_Ret_bind in H. destruct H as [growth [_ [H ->]]].
    apply in_or_app. right.
    destruct env as [env|], growth as [growth|]; try discriminate H.
    apply result_Ret_bind in H. destruct H as [[] [_ [H ->]]].
    apply in_or_app. right.
    apply result_Ret_bind in H. destruct H as [[] [H1 [_ ->]]].
    apply in_or_app. left. apply Htab1, H1.
  - intros env_data growth_data. split; [apply tab1_cards | apply Htab1].
Qed.

Lemma exports_tab1 env_data growth_data :
  exports (events (tab1 env_data growth_data)) = [].
Proof.
  rewrite tab1_run. cbv zeta.
  destruct (result (overview_loop growth_data [] 0%nat)) as [ov|e|];
    [destruct (values env_data)|..]; reflexivity.
Qed.

(** The three tabs once the environment mapping has the four sites: the
    selection changes neither how the run ends nor what is handed out. *)
Lemma tabs_loaded school_option env_data growth_data :
  keys env_data = keys SCHOOL_EC_INFO ->
  In school_option school_options ->
  let run := emit (st_title (py "🌱 극지식물 최적 EC 농도 연구")) ;;
             tab1 env_data growth_data ;;
             tab2 school_option env_data ;;
             tab3 growth_data in
  result run = match result (tab1 env_data growth_data) with
               | Ret _ => result (tab3 growth_data)
               | Raise e => Raise e
               | Stop => Stop
               end /\
  exports (events run) = match result (tab1 env_data growth_data) with
                         | Ret _ => ToCsv (concat (values env_data))
                                    :: exports (events (tab3 growth_data))
                         | _ => []
                         end.
Proof.
  intros Hkeys Hopt. cbv zeta.
  destruct (tab2_loaded school_option env_data Hkeys Hopt) as [Hret Hexp].
  rewrite bind_emit. cbn [events result fst snd].
  rewrite exports_cons, result_bind, events_bind, exports_app, exports_tab1.
  destruct (result (tab1 env_data growth_data)) as [[]|e|];
    [|split; reflexivity..].
  rewrite result_bind, events_bind, exports_app, Hret, Hexp.
  split; reflexivity.
Qed.

Lemma main_without_mappings opt1 opt2 :
  (forall env_data growth_data,
     ~ (result load_environment_data = Ret (Some env_data) /\
        result load_growth_data = Ret (Some growth_data))) ->
  main opt1 = main opt2.
Proof.
  unfold main. intros H.
  destruct load_environment_data as [tr1 [[env|]|e1|]];
    destruct load_growth_data as [tr2 [[growth|]|e2|]];
    try reflexivity.
  exfalso. apply (H env growth). split; reflexivity.
Qed.

Lemma main_returns school_option :
  result (main school_option) = Ret tt ->
  exists env_data growth_data,
    result load_environment_data = Ret (Some env_data) /\
    result load_growth_data = Ret (Some growth_data).
Proof.
  unfold main. intros H.
  apply result_Ret_bind in H. destruct H as [env [E1 [H _]]].
  apply result_Ret_bind in H. destruct H as [growth [E2 [H _]]].
  destruct env as [env|], growth as [growth|]; try discriminate H.
  exists env, growth. split; assumption.
Qed.

(** C10. For any two values of the site filter the run hands out the same
    exports and ends the same way; a run that completes hands out exactly
    two: the concatenation of all environment tables as CSV and the
    concatenation of all growth tables as a workbook. *)
Theorem C10_exports_ignore_site_filter (opt1 opt2 : pystr) :
  In opt1 school_options ->
  In opt2 school_options ->
  exports (events (main opt1)) = exports (events (main opt2)) /\
  result (main opt1) = result (main opt2) /\
  (result (main opt1) = Ret tt ->
   exists env_data growth_data,
     result load_environment_data = Ret (Some env_data) /\
     result load_growth_data = Ret (Some growth_data) /\
     exports (events (main opt1))
     = [ToCsv (concat (values env_data)); ToExcel (concat (values growth_data))]).
Proof.
  intros H1 H2.
  destruct (result load_environment_data) as [[env|]|e1|] eqn:E1;
    [destruct (result load_growth_data) as [[growth|]|e2|] eqn:E2|..].
  1: { pose proof (load_environment_data_some env E1) as [_ [Hkeys _]].
       rewrite (main_loaded opt1 env growth E1 E2), (main_loaded opt2 env growth E1 E2).
       destruct (tabs_loaded opt1 env growth Hkeys H1) as [R1 X1].
       destruct (tabs_loaded opt2 env growth Hkeys H2) as [R2 X2].
       rewrite R1, R2, X1, X2. repeat split.
       intros Hret. exists env, growth. repeat split.
       destruct (result (tab1 env growth)) as [[]|e|]; [|discriminate..].
       destruct (tab3_returns growth Hret) as [_ ->]. reflexivity. }
  all: assert (Hsame : main opt1 = main opt2)
    by (apply main_without_mappings; intros env' growth' [He Hg]; congruence).
  all: rewrite Hsame; repeat split.
  all: intros Hret; apply main_returns in Hret;
    destruct Hret as [env' [growth' [He Hg]]]; congruence.
Qed.

(* ================================================================== *)
(** ** The growth tab within the run *)

(** A run that completes went through the three tabs with the mappings of
    the loaders. *)
Lemma main_returns_events school_option :
  result (main school_option) = Ret tt ->
  exists env_data growth_data,
    result load_environment_data = Ret (Some env_data) /\
    result load_growth_data = Ret (Some growth_data) /\
    result (tab1 env_data growth_data) = Ret tt /\
    result (tab3 growth_data) = Ret tt /\
    events (main school_option)
    = st_title (py "🌱 극지식물 최적 EC 농도 연구")
      :: events (tab1 env_data growth_data)
      ++ events (tab2 school_option env_data)
      ++ events (tab3 growth_data).
Proof.
  intros Hret. destruct (main_returns _ Hret) as [env [gd [He Hg]]].
  exists env, gd. rewrite (main_loaded school_option env gd He Hg) in *.
  rewrite bind_emit in *. cbn [result events fst snd] in *.
  apply result_Ret_bind in Hret. destruct Hret as [[] [H1 [Hret ->]]].
  apply result_Ret_bind in Hret. destruct Hret as [[] [H2 [H3 ->]]].
  repeat split; assumption.
Qed.












(* ================================================================== *)
(** ** Rows without a target EC *)

Lemma In_dict_set {V} (d : dict V) k v x :
  In x (dict_set d k v) -> x = (k, v) \/ In x d.
Proof.
  induction d as [|[k' v'] d IH]; cbn [dict_set].
  - intros [<-|[]]. left. reflexivity.
  - destruct (pystr_eqb_spec k' k) as [->|Hk].
    + intros [<-|H]; [left; reflexivity | right; right; exact H].
    + intros [<-|H]; [right; left; reflexivity|].
      destruct (IH H) as [->|H']; [left; reflexivity | right; right; exact H'].
Qed.

(** Every row of every frame the growth loader builds has the target EC
    the reference table has for the name of its sheet. *)
Lemma load_growth_loop_ec excel : forall growth_data,
  (forall sheet df r, In (sheet, df) growth_data -> In r df ->
     growth_ec r = dict_get SCHOOL_EC_INFO sheet) ->
  forall sheet df r, In (sheet, df) (load_growth_loop excel growth_data) -> In r df ->
    growth_ec r = dict_get SCHOOL_EC_INFO sheet.
Proof.
  induction excel as [|[s rows] rest IH]; intros growth_data Hinv; [exact Hinv|].
  cbn [load_growth_loop]. apply IH. intros sheet df r Hin Hr.
  apply In_dict_set in Hin. destruct Hin as [[= -> ->]|Hin].
  - apply in_map_iff in Hr. destruct Hr as [r0 [<- _]]. reflexivity.
  - exact (Hinv sheet df r Hin Hr).
Qed.

(** A row without a target EC comes from a sheet that is no site of the
    reference table. *)
Lemma null_ec_row_sheet growth_data r :
  result load_growth_data = Ret (Some growth_data) ->
  In r (concat (values growth_data)) -> growth_ec r = None ->
  exists sheet, In sheet (keys growth_data) /\ dict_get SCHOOL_EC_INFO sheet = None.
Proof.
  intros Hload Hr Hnull.
  apply load_growth_data_some in Hload. destruct Hload as [xlsx [_ [-> _]]].
  apply in_concat in Hr. destruct Hr as [df [Hdf Hr]].
  apply in_map_iff in Hdf. destruct Hdf as [[sheet df'] [Heq Hin]].
  cbn [snd] in Heq. subst df'. exists sheet. split.
  - apply in_map_iff. exists (sheet, df). split; [reflexivity | exact Hin].
  - rewrite <- Hnull. symmetry.
    apply (load_growth_loop_ec (sheets xlsx) [] (fun _ _ _ H => match H with end)
             sheet df r Hin Hr).
Qed.

(** The run when the overview meets a sheet that is no site. *)
Lemma main_overview_raises env_data growth_data school_option k :
  result load_environment_data = Ret (Some env_data) ->
  result load_growth_data = Ret (Some growth_data) ->
  overview_loop growth_data [] 0%nat = ([], Raise (KeyError k)) ->
  main school_option
  = ([st_title (py "🌱 극지식물 최적 EC 농도 연구");
      st_subheader (py "연구 배경 및 목적")], Raise (KeyError k)).
Proof.
  intros Henv Hgrowth Hrun.
  rewrite (main_loaded school_option env_data growth_data Henv Hgrowth).
  rewrite bind_emit. unfold tab1. rewrite bind_emit, Hrun. reflexivity.
Qed.

(** C7 (amended). Rows without a target EC are in no group: the groups,
    every per-EC mean, the per-EC counts, the comparison chart and the level
    selected are those of the table without these rows; every row of a group
    has the group's EC and the level selected is the target EC of a row.
    Such rows are in the concatenated growth table, but no run shows or
    hands out that table with them: a row without a target EC comes from a
    sheet that is no site of the reference table, and in a run whose loaders
    returned the mappings that sheet makes the overview raise a [KeyError]
    after the title and its heading, before the growth tab; so a run that
    shows or hands out a growth table has a target EC in every row. *)
Theorem C7_null_ec_rows_are_grouped_nowhere_and_never_shown
  (growth_data : dict growth_frame) :
  let growth_all := concat (values growth_data) in
  groupby_ec growth_all = groupby_ec (with_ec growth_all) /\
  (forall col, group_mean col growth_all = group_mean col (with_ec growth_all)) /\
  group_size growth_all = group_size (with_ec growth_all) /\
  fig2 growth_all = fig2 (with_ec growth_all) /\
  max_ec growth_all = max_ec (with_ec growth_all) /\
  (forall k g r, In (k, g) (groupby_ec growth_all) -> In r g ->
     exists e, growth_ec r = Some e /\ (e == k)%Q) /\
  (forall e, max_ec growth_all = Some e ->
     exists r, In r growth_all /\ growth_ec r = Some e) /\
  (forall env_data school_option,
     result load_environment_data = Ret (Some env_data) ->
     result load_growth_data = Ret (Some growth_data) ->
     ((exists r, In r growth_all /\ growth_ec r = None) ->
      exists sheet,
        In sheet (keys growth_data) /\
        dict_get SCHOOL_EC_INFO sheet = None /\
        main school_option
        = ([st_title (py "🌱 극지식물 최적 EC 농도 연구");
            st_subheader (py "연구 배경 및 목적")], Raise (KeyError sheet)) /\
        growth_tables (events (main school_option)) = [] /\
        exports (events (main school_option)) = []) /\
     (growth_tables (events (main school_option)) <> [] ->
      forall r, In r growth_all -> growth_ec r <> None) /\
     (result (main school_option) = Ret tt ->
      In (st_dataframe (GrowthTable growth_all)) (events (main school_option)) /\
      In (ToExcel growth_all) (exports (events (main school_option))) /\
      with_ec growth_all = growth_all)).
Proof.
  cbv zeta.
  assert (Hrun : forall env_data school_option,
             result load_environment_data = Ret (Some env_data) ->
             result load_growth_data = Ret (Some growth_data) ->
             (exists r, In r (concat (values growth_data)) /\ growth_ec r = None) ->
             exists sheet,
               In sheet (keys growth_data) /\
               dict_get SCHOOL_EC_INFO sheet = None /\
               main school_option
               = ([st_title (py "🌱 극지식물 최적 EC 농도 연구");
                   st_subheader (py "연구 배경 및 목적")], Raise (KeyError sheet))).
  { intros env_data school_option Henv Hgrowth [r [Hr Hnull]].
    destruct (null_ec_row_sheet growth_data r Hgrowth Hr Hnull) as [sheet [Hin Hun]].
    destruct (overview_loop_unknown growth_data [] 0%nat sheet Hin Hun)
      as [before [k [after [Hsplit [_ [Hk Hloop]]]]]].
    exists k. split; [|split; [exact Hk|]].
    - unfold keys in Hsplit |- *. rewrite Hsplit. apply in_or_app. right. left. reflexivity.
    - exact (main_overview_raises env_data growth_data school_option k Henv Hgrowth Hloop). }
  split; [symmetry; apply groupby_ec_with_ec|].
  split; [intros col; symmetry; apply group_mean_with_ec|].
  split; [symmetry; apply group_size_with_ec|].
  split; [unfold fig2, ec_group; rewrite !group_mean_with_ec, group_size_with_ec;
          reflexivity|].
  split; [symmetry; apply max_ec_with_ec|].
  split.
  { intros k g r Hg Hr. unfold groupby_ec in Hg. apply in_map_iff in Hg.
    destruct Hg as [k' [[= <- <-] _]]. apply filter_In in Hr.
    destruct Hr as [_ Hr]. unfold has_ec in Hr.
    destruct (growth_ec r) as [e|]; [|discriminate].
    exists e. split; [reflexivity | apply Qeq_bool_eq, Hr]. }
  split.
  { intros e He. apply group_keys_In. rewrite <- keys_ec_group.
    destruct (max_ec_Some _ _ He) as [i [m [Hi _]]].
    apply nth_error_In in Hi. apply in_map_iff. exists (e, Some m).
    split; [reflexivity | exact Hi]. }
  intros env_data school_option Henv Hgrowth.
  assert (Hall : growth_tables (events (main school_option)) <> [] \/
                 result (main school_option) = Ret tt ->
                 forall r, In r (concat (values growth_data)) -> growth_ec r <> None).
  { intros Hshown r Hr Hnull.
    destruct (Hrun env_data school_option Henv Hgrowth (ex_intro _ r (conj Hr Hnull)))
      as [sheet [_ [_ Hmain]]].
    rewrite Hmain in Hshown.
    destruct Hshown as [H|H]; [apply H; reflexivity | discriminate H]. }
  split; [|split].
  - intros Hex. destruct (Hrun env_data school_option Henv Hgrowth Hex)
      as [sheet [Hin [Hun Hmain]]].
    exists sheet. rewrite Hmain. repeat split; assumption.
  - intros Hshown. apply Hall. left. exact Hshown.
  - intros Hret.
    destruct (main_returns_events school_option Hret)
      as [env' [growth' [_ [Hg' [_ [H3 Hev]]]]]].
    assert (growth' = growth_data) by congruence. subst growth'.
    destruct (tab3_returns growth_data H3) as [Hshown Hexp].
    split; [|split].
    + rewrite Hev. right. apply in_or_app. right. apply in_or_app. right. exact Hshown.
    + rewrite Hev, exports_cons, !exports_app, Hexp.
      apply in_or_app. right. apply in_or_app. right. apply in_or_app. right.
      left. reflexivity.
    + unfold with_ec. apply forallb_filter_id. apply forallb_forall. intros r Hr.
      pose proof (Hall (or_intror Hret) r Hr) as Hne.
      destruct (growth_ec r); [reflexivity | congruence].
Qed.

(* ================================================================== *)
(** ** Further properties of the loaders *)

Lemma find_file_by_name_split directory target_name f :
  find_file_by_name directory target_name = Some f ->
  exists before after,
    directory = before ++ f :: after /\
    name_matches target_name f /\
    forall g, In g before -> ~ name_matches target_name g.
Proof.
  induction directory as [|h rest IH]; cbn [find_file_by_name]; [discriminate|].
  destruct (is_file h) eqn:Hfile; cbn [negb].
  - destruct (PyStr.eqb (nfc (name h)) (nfc target_name)
              || PyStr.eqb (nfd (name h)) (nfd target_name)) eqn:Htest.
    + intros [= <-]. exists [], rest. split; [reflexivity|]. split; [|intros g []].
      split; [exact Hfile|]. apply orb_true_iff in Htest.
      rewrite !pystr_eqb_eq in Htest. exact Htest.
    + intros Hrest. destruct (IH Hrest) as [before [after [-> [Hm Hfirst]]]].
      exists (h :: before), after. split; [reflexivity|]. split; [exact Hm|].
      intros g [<-|Hg]; [|apply Hfirst, Hg].
      intros [_ Hname]. apply orb_false_iff in Htest.
      rewrite !pystr_eqb_neq in Htest. tauto.
  - intros Hrest. destruct (IH Hrest) as [before [after [-> [Hm Hfirst]]]].
    exists (h :: before), after. split; [reflexivity|]. split; [exact Hm|].
    intros g [<-|Hg]; [|apply Hfirst, Hg].
    intros [Hf _]. congruence.
Qed.

Lemma find_file_by_name_none directory target_name :
  find_file_by_name directory target_name = None <->
  forall g, In g directory -> ~ name_matches target_name g.
Proof.
  induction directory as [|h rest IH]; cbn [find_file_by_name].
  - split; [intros _ g [] | reflexivity].
  - destruct (is_file h) eqn:Hfile; cbn [negb].
    + destruct (PyStr.eqb (nfc (name h)) (nfc target_name)
                || PyStr.eqb (nfd (name h)) (nfd target_name)) eqn:Htest.
      * split; [discriminate|]. intros Hall. exfalso. apply (Hall h); [left; reflexivity|].
        split; [exact Hfile|]. apply orb_true_iff in Htest.
        rewrite !pystr_eqb_eq in Htest. exact Htest.
      * rewrite IH. split.
        -- intros Hall g [<-|Hg]; [|apply Hall, Hg].
           intros [_ Hname]. apply orb_false_iff in Htest.
           rewrite !pystr_eqb_neq in Htest. tauto.
        -- intros Hall g Hg. apply Hall. right. exact Hg.
    + rewrite IH. split.
      * intros Hall g [<-|Hg]; [|apply Hall, Hg]. intros [Hf _]. congruence.
      * intros Hall g Hg. apply Hall. right. exact Hg.
Qed.

(** X1. Whatever [unicodedata.normalize] computes, [find_file_by_name]
    returns the first entry of the directory that is a regular file and
    whose name equals the target in one of the two forms: never a directory,
    never an entry after another match; it returns [None] exactly when no
    entry passes the test, so a regular file with exactly the target name
    is always resolved. *)
Theorem X1_find_file_by_name_first_match
  (directory : list Path) (target_name : pystr) :
  (forall f, find_file_by_name directory target_name = Some f ->
     exists before after,
       directory = before ++ f :: after /\
       name_matches target_name f /\
       forall g, In g before -> ~ name_matches target_name g) /\
  (find_file_by_name directory target_name = None <->
   forall g, In g directory -> ~ name_matches target_name g) /\
  (forall f, In f directory -> is_file f = true -> name f = target_name ->
     find_file_by_name directory target_name <> None).
Proof.
  split; [intros f; apply find_file_by_name_split|].
  split; [apply find_file_by_name_none|].
  intros f Hin Hfile Hname Hnone.
  rewrite find_file_by_name_none in Hnone. apply (Hnone f Hin).
  split; [exact Hfile | left; rewrite Hname; reflexivity].
Qed.

Lemma dict_set_fresh {V} (d : dict V) k v :
  ~ In k (keys d) -> dict_set d k v = d ++ [(k, v)].
Proof.
  induction d as [|[k' v'] d IH]; intros Hk; cbn [dict_set app]; [reflexivity|].
  destruct (pystr_eqb_spec k' k) as [->|Hne].
  - exfalso. apply Hk. left. reflexivity.
  - rewrite IH; [reflexivity|]. intros H. apply Hk. right. exact H.
Qed.

Lemma load_environment_loop_frames schools : forall env_data env,
  NoDup schools ->
  (forall s, In s schools -> ~ In s (keys env_data)) ->
  result (load_environment_loop schools env_data) = Ret (Some env) ->
  env = env_data ++ map (fun s => (s, env_frame_of s)) schools.
Proof.
  induction schools as [|school rest IH]; intros env_data env Hnd Hfresh;
    cbn [load_environment_loop].
  - intros [= <-]. cbn [map]. rewrite app_nil_r. reflexivity.
  - inversion Hnd as [|? ? Hnotin Hnd']; subst.
    cbn [map]. unfold env_frame_of at 1. unfold env_filename.
    destruct (find_file_by_name DATA_DIR (school ++ ENV_SUFFIX)) as [file_path|];
      [|discriminate].
    intros Hres. apply IH in Hres; [|exact Hnd'|].
    + rewrite Hres, dict_set_fresh by (apply Hfresh; left; reflexivity).
      rewrite <- app_assoc. reflexivity.
    + intros s Hs. rewrite keys_dict_set, In_add_key. intros [H| ->].
      * apply (Hfresh s); [right; exact Hs | exact H].
      * contradiction.
Qed.

(** X2. When the environment loader returns a mapping, the mapping lists
    the four sites in the order of the reference table, and the frame of
    each site is the rows of the file resolved for that site, in file order,
    each with the site in its ["school"] column; nothing is shown. *)
Theorem X2_environment_mapping_content (env : dict env_frame) :
  result load_environment_data = Ret (Some env) ->
  load_environment_data = ([], Ret (Some env)) /\
  env = map (fun s => (s, env_frame_of s)) (keys SCHOOL_EC_INFO) /\
  forall school, In school (keys SCHOOL_EC_INFO) ->
    exists file_path,
      find_file_by_name DATA_DIR (env_filename school) = Some file_path /\
      dict_get env school = Some (map (tag_env school) (read_csv file_path)) /\
      map env_row (map (tag_env school) (read_csv file_path)) = read_csv file_path.
Proof.
  intros Hres.
  destruct (load_environment_data_some env Hres) as [Hrun [Hkeys Hfound]].
  assert (Henv : env = map (fun s => (s, env_frame_of s)) (keys SCHOOL_EC_INFO)).
  { apply (load_environment_loop_frames (keys SCHOOL_EC_INFO) [] env).
    - repeat (constructor; [vm_compute; intuition discriminate|]). constructor.
    - intros s _ [].
    - exact Hres. }
  split; [exact Hrun|]. split; [exact Henv|].
  intros school Hin.
  destruct (find_file_by_name DATA_DIR (env_filename school)) as [file_path|] eqn:E;
    [|exfalso; exact (Hfound school Hin E)].
  exists file_path. split; [reflexivity|]. split.
  - rewrite Henv. clear - Hin E.
    assert (Hnd : NoDup (keys SCHOOL_EC_INFO))
      by (repeat (constructor; [vm_compute; intuition discriminate|]); constructor).
    induction (keys SCHOOL_EC_INFO) as [|s rest IH]; [destruct Hin|].
    inversion Hnd as [|? ? Hnotin Hnd']; subst. cbn [map dict_get].
    destruct (pystr_eqb_spec s school) as [->|Hne].
    + unfold env_frame_of. rewrite E. reflexivity.
    + destruct Hin as [Heq|Hin]; [congruence|]. apply IH; assumption.
  - rewrite map_map. cbn [tag_env env_row]. apply map_id.
Qed.

Lemma load_growth_loop_unique excel : forall growth_data,
  NoDup (map fst excel) ->
  (forall s, In s (map fst excel) -> ~ In s (keys growth_data)) ->
  load_growth_loop excel growth_data
  = growth_data ++ map (fun sh => (fst sh, map (tag_growth (fst sh)) (snd sh))) excel.
Proof.
  induction excel as [|[sheet rows] rest IH]; intros growth_data Hnd Hfresh;
    cbn [load_growth_loop map fst snd].
  - rewrite app_nil_r. reflexivity.
  - cbn [map fst] in Hnd. inversion Hnd as [|? ? Hnotin Hnd']; subst.
    rewrite IH; [|exact Hnd'|].
    + rewrite dict_set_fresh by (apply Hfresh; left; reflexivity).
      rewrite <- app_assoc. reflexivity.
    + intros s Hs. rewrite keys_dict_set, In_add_key. intros [H| ->].
      * apply (Hfresh s); [right; exact Hs | exact H].
      * contradiction.
Qed.

(** X3. For a workbook with unique sheet names the growth loader returns
    one frame per sheet, in sheet order, each row with the sheet name in
    ["school"] and the table's target EC of that name (null when absent) in
    ["ec"]; the rows of a sheet and their order are kept. *)
Theorem X3_growth_mapping_content (xlsx_path : Path) :
  find is_xlsx DATA_DIR = Some xlsx_path ->
  NoDup (map fst (sheets xlsx_path)) ->
  load_growth_data
  = ([], Ret (Some (map (fun sh => (fst sh, map (tag_growth (fst sh)) (snd sh)))
                        (sheets xlsx_path)))) /\
  forall sheet rows, In (sheet, rows) (sheets xlsx_path) ->
    map growth_row (map (tag_growth sheet) rows) = rows /\
    forall r, In r (map (tag_growth sheet) rows) ->
      growth_school r = sheet /\ growth_ec r = dict_get SCHOOL_EC_INFO sheet.
Proof.
  intros Hfind Hnd. split.
  - unfold load_growth_data. rewrite Hfind.
    rewrite (load_growth_loop_unique _ [] Hnd); [reflexivity|].
    intros s _ [].
  - intros sheet rows _. split.
    + rewrite map_map. cbn [tag_growth growth_row]. apply map_id.
    + intros r Hr. apply in_map_iff in Hr. destruct Hr as [r0 [<- _]].
      split; reflexivity.
Qed.

Lemma load_environment_loop_cases schools : forall env_data,
  (exists env, load_environment_loop schools env_data = ([], Ret (Some env))) \/
  (exists school, In school schools /\
     find_file_by_name DATA_DIR (env_filename school) = None /\
     load_environment_loop schools env_data
     = ([st_error (ENV_MISSING ++ env_filename school)], Ret None)).
Proof.
  induction schools as [|s rest IH]; intros env_data; cbn [load_environment_loop].
  - left. eexists. reflexivity.
  - destruct (find_file_by_name DATA_DIR (s ++ ENV_SUFFIX)) as [file_path|] eqn:E.
    + destruct (IH (dict_set env_data s
                      (map (fun r => {| env_row := r; env_school := s |})
                           (read_csv file_path))))
        as [[env Hrun]|[school [Hin [Hnone Hrun]]]].
      * left. exists env. exact Hrun.
      * right. exists school. split; [right; exact Hin|]. split; assumption.
    + right. exists s. split; [left; reflexivity|]. split; [exact E | reflexivity].
Qed.

(** X4. When no entry of the data directory has the suffix ".xlsx", the
    growth loader shows its message and returns [None]; the environment
    loader has run before it, so the run shows the message of the first
    missing environment file (if one is missing) followed by the workbook
    message, and stops. *)
Theorem X4_missing_workbook_stops (school_option : pystr) :
  find is_xlsx DATA_DIR = None ->
  load_growth_data = ([st_error XLSX_MISSING], Ret None) /\
  main school_option
    = (events load_environment_data ++ [st_error XLSX_MISSING], Stop) /\
  (events load_environment_data = [] \/
   exists school,
     In school (keys SCHOOL_EC_INFO) /\
     find_file_by_name DATA_DIR (env_filename school) = None /\
     events load_environment_data
     = [st_error (ENV_MISSING ++ env_filename school)]).
Proof.
  intros Hfind.
  assert (Hgrowth : load_growth_data = ([st_error XLSX_MISSING], Ret None))
    by (unfold load_growth_data; rewrite Hfind; reflexivity).
  split; [exact Hgrowth|].
  unfold main. rewrite Hgrowth.
  destruct (load_environment_loop_cases (keys SCHOOL_EC_INFO) [])
    as [[env Hrun]|[school [Hin [Hnone Hrun]]]];
    fold load_environment_data in Hrun; rewrite Hrun.
  - split; [reflexivity | left; reflexivity].
  - split; [reflexivity|]. right. exists school. repeat split; assumption.
Qed.

Lemma overview_loop_rows items : forall overview_rows total_plants,
  (forall s, In s (keys items) -> dict_get SCHOOL_EC_INFO s <> None) ->
  exists rows,
    overview_loop items overview_rows total_plants
    = ([], Ret (overview_rows ++ rows,
                (total_plants + length (concat (values items)))%nat)) /\
    map ov_school rows = keys items /\
    map ov_count rows = map (@length _) (values items) /\
    Forall (fun row =>
              dict_get SCHOOL_EC_INFO (ov_school row) = Some (ov_ec_target row) /\
              dict_get SCHOOL_COLOR (ov_school row) = Some (ov_color row)) rows.
Proof.
  induction items as [|[school df] rest IH]; intros overview_rows total_plants Hall.
  - exists []. cbn [overview_loop values keys map concat length].
    rewrite app_nil_r, Nat.add_0_r. repeat split. constructor.
  - cbn [overview_loop].
    destruct (dict_get SCHOOL_EC_INFO school) as [v|] eqn:E;
      [|exfalso; apply (Hall school); [left; reflexivity | exact E]].
    rewrite (getitem_Some _ _ _ E), bind_ret_l.
    destruct (color_known _ _ E) as [c Hc].
    rewrite (getitem_Some _ _ _ Hc), bind_ret_l.
    destruct (IH (overview_rows ++
                    [{| ov_school := school; ov_ec_target := v;
                        ov_count := length df; ov_color := c |}])
                 (total_plants + length df)%nat)
      as [rows [Hrun [Hs [Hc' Hall']]]].
    { intros s Hs. apply Hall. right. exact Hs. }
    exists ({| ov_school := school; ov_ec_target := v;
               ov_count := length df; ov_color := c |} :: rows).
    split; [|split; [|split]].
    + rewrite Hrun. cbn [values map snd concat]. fold (values rest).
      rewrite length_app, <- app_assoc, Nat.add_assoc. reflexivity.
    + cbn [map ov_school keys fst]. fold (keys rest). rewrite Hs. reflexivity.
    + cbn [map ov_count values snd]. fold (values rest). rewrite Hc'. reflexivity.
    + constructor; [cbn [ov_school ov_ec_target ov_color]; split; assumption | exact Hall'].
Qed.

(** X5. When every sheet of the growth mapping is a site of the reference
    table (and there is an environment frame), the overview completes: its
    table has one row per sheet, in sheet order, with the sheet's row count
    and the target EC and colour the reference tables give it, and the
    total shown in the first card is the number of rows of all sheets. *)
Theorem X5_overview_table_and_total
  (env_data : dict env_frame) (growth_data : dict growth_frame) :
  (forall s, In s (keys growth_data) -> dict_get SCHOOL_EC_INFO s <> None) ->
  values env_data <> [] ->
  exists overview_rows,
    result (tab1 env_data growth_data) = Ret tt /\
    firstn 3 (events (tab1 env_data growth_data))
    = [ st_subheader (py "연구 배경 및 목적");
        st_dataframe (OverviewTable overview_rows);
        st_metric 0 [Lit (py "총 개체수")]
          [Int (length (concat (values growth_data))); Lit (py " 개")] None ] /\
    map ov_school overview_rows = keys growth_data /\
    map ov_count overview_rows = map (@length _) (values growth_data) /\
    Forall (fun row =>
              dict_get SCHOOL_EC_INFO (ov_school row) = Some (ov_ec_target row) /\
              dict_get SCHOOL_COLOR (ov_school row) = Some (ov_color row))
           overview_rows.
Proof.
  intros Hknown Henv.
  destruct (overview_loop_rows growth_data [] 0%nat Hknown)
    as [rows [Hrun [Hs [Hc Hall]]]].
  exists rows. rewrite tab1_run, Hrun. cbv zeta. cbn [result snd fst app].
  destruct (values env_data) as [|df frames]; [congruence|].
  repeat split; assumption.
Qed.

(* ================================================================== *)
(** ** Which entry is the workbook *)

Lemma rfind_dot_no_dot s : (forall c, In c s -> c <> 0x2E) -> rfind_dot s = None.
Proof.
  induction s as [|c s IH]; intros H; cbn [rfind_dot]; [reflexivity|].
  rewrite IH by (intros x Hx; apply H; right; exact Hx).
  destruct (N.eqb_spec c 0x2E) as [E|E]; [|reflexivity].
  exfalso. apply (H c); [left; reflexivity | exact E].
Qed.

Lemma rfind_dot_app a b :
  rfind_dot (a ++ b)
  = match rfind_dot b with
    | Some i => Some (length a + i)%nat
    | None => rfind_dot a
    end.
Proof.
  induction a as [|c a IH]; cbn [app rfind_dot length].
  - destruct (rfind_dot b); reflexivity.
  - rewrite IH. destruct (rfind_dot b); reflexivity.
Qed.

Lemma rfind_dot_lt s i : rfind_dot s = Some i -> (i < length s)%nat.
Proof.
  revert i. induction s as [|c s IH]; intros i; cbn [rfind_dot length]; [discriminate|].
  destruct (rfind_dot s) as [j|].
  - intros [= <-]. specialize (IH j eq_refl). lia.
  - destruct (c =? 0x2E); [intros [= <-]; lia | discriminate].
Qed.

Lemma lower_char_dot c : lower_char c = 0x2E -> c = 0x2E.
Proof.
  unfold lower_char.
  destruct (N.leb_spec 0x41 c); destruct (N.leb_spec c 0x5A); cbn [andb]; lia.
Qed.

Lemma lower_char_letter c x :
  lower_char c = x -> x <> 0x2E -> c <> 0x2E.
Proof. intros H Hx ->. apply Hx. rewrite <- H. reflexivity. Qed.

(** X6. An entry is taken for the workbook exactly when its name is a
    non-empty stem followed by ".xlsx" in any letter case: "DATA.XLSX" and
    "a.b.xlsx" are, ".xlsx" alone and "xlsx" are not. *)
Theorem X6_workbook_suffix (f : Path) :
  is_xlsx f = true <->
  exists stem ext,
    name f = stem ++ ext /\ stem <> [] /\ lower ext = DOT_XLSX.
Proof.
  unfold is_xlsx. rewrite pystr_eqb_eq. split.
  - unfold suffix. destruct (rfind_dot (name f)) as [i|] eqn:E; [|discriminate].
    destruct (Nat.ltb_spec 0 i) as [Hpos|]; [|discriminate].
    destruct (Nat.ltb_spec i (length (name f) - 1)) as [Hlt|]; [|discriminate].
    cbn [andb]. intros Hext.
    exists (firstn i (name f)), (skipn i (name f)).
    split; [symmetry; apply firstn_skipn|]. split; [|exact Hext].
    intros Hnil. apply (f_equal (@length _)) in Hnil.
    rewrite length_firstn in Hnil. cbn [length] in Hnil. lia.
  - intros [stem [ext [Hname [Hstem Hext]]]].
    destruct ext as [|c0 [|c1 [|c2 [|c3 [|c4 [|c5 ext]]]]]]; try discriminate Hext.
    cbn [lower map] in Hext. injection Hext as H0 H1 H2 H3 H4.
    apply lower_char_dot in H0. subst c0.
    assert (Hrest : rfind_dot [c1; c2; c3; c4] = None).
    { apply rfind_dot_no_dot. intros c [<-|[<-|[<-|[<-|[]]]]];
        eapply lower_char_letter; try eassumption; discriminate. }
    unfold suffix. rewrite Hname, rfind_dot_app.
    cbn [rfind_dot] in *. rewrite Hrest. cbn [N.eqb Pos.eqb].
    rewrite Nat.add_0_r, length_app. cbn [length].
    destruct stem as [|s0 stem]; [congruence|]. cbn [length].
    replace (0 <? S (length stem))%nat with true by (symmetry; apply Nat.ltb_lt; lia).
    replace (S (length stem) <? S (length stem) + 5 - 1)%nat with true
      by (symmetry; apply Nat.ltb_lt; lia).
    cbn [andb].
    change (S (length stem)) with (length (s0 :: stem)).
    rewrite skipn_app, skipn_all, Nat.sub_diag. cbn [skipn app lower map].
    rewrite H1, H2, H3, H4. reflexivity.
Qed.

(* ================================================================== *)
(** ** The environment tab *)

Lemma timeseries_loop_events env_data schools_to_plot :
  (forall s, In s schools_to_plot ->
             In s (keys env_data) /\ In s (keys SCHOOL_EC_INFO)) ->
  Forall2 (fun school e =>
             exists df t,
               dict_get env_data school = Some df /\
               dict_get SCHOOL_EC_INFO school = Some t /\
               e = st_plotly_chart (fig_ts school df t))
          schools_to_plot (events (timeseries_loop env_data schools_to_plot)).
Proof.
  induction schools_to_plot as [|school rest IH]; intros Hall; cbn [timeseries_loop].
  - constructor.
  - destruct (Hall school (or_introl eq_refl)) as [H1 H2].
    destruct (dict_get_Some _ _ H1) as [df Hdf].
    destruct (dict_get_Some _ _ H2) as [t Ht].
    rewrite (getitem_Some _ _ _ Hdf), bind_ret_l.
    rewrite (getitem_Some _ _ _ Ht), bind_ret_l.
    rewrite bind_emit. cbn [events fst]. constructor.
    + exists df, t. repeat split; assumption.
    + apply IH. intros s Hs. apply Hall. right. exact Hs.
Qed.

Lemma time_series_charts_app tr1 tr2 :
  time_series_charts (tr1 ++ tr2) = time_series_charts tr1 ++ time_series_charts tr2.
Proof. unfold time_series_charts. apply flat_map_app. Qed.

Lemma time_series_charts_loop env_data schools_to_plot tr :
  Forall2 (fun school e =>
             exists df t,
               dict_get env_data school = Some df /\
               dict_get SCHOOL_EC_INFO school = Some t /\
               e = st_plotly_chart (fig_ts school df t))
          schools_to_plot tr ->
  Forall2 (fun school chart =>
             exists df t,
               dict_get env_data school = Some df /\
               dict_get SCHOOL_EC_INFO school = Some t /\
               chart = fig_ts school df t)
          schools_to_plot (time_series_charts tr).
Proof.
  induction 1 as [|school e schools tr [df [t [Hdf [Ht ->]]]] _ IH].
  - constructor.
  - change (time_series_charts (st_plotly_chart (fig_ts school df t) :: tr))
      with (fig_ts school df t :: time_series_charts tr).
    constructor; [exists df, t; repeat split; assumption | exact IH].
Qed.

(** The environment tab once the environment mapping has the four sites. *)
Lemma tab2_run_loaded school_option env_data :
  keys env_data = keys SCHOOL_EC_INFO ->
  In school_option school_options ->
  exists avg_df,
    avg_loop env_data [] = ([], Ret avg_df) /\
    tab2 school_option env_data
    = ([ st_subheader (py "학교별 환경 평균 비교");
         st_plotly_chart (fig avg_df);
         st_subheader (py "환경 변화 시계열") ]
       ++ events (timeseries_loop env_data
                    (if PyStr.eqb school_option ALL_SCHOOLS then keys env_data
                     else [school_option]))
       ++ [ st_dataframe (EnvTable (concat (values env_data)));
            st_download_button (py "CSV 다운로드")
              (ToCsv (concat (values env_data)))
              (py "환경데이터_전체.csv") (py "text/csv") ],
       Ret tt).
Proof.
  intros Hkeys Hopt.
  assert (Hknown : forall s, In s (keys env_data) ->
                             dict_get SCHOOL_EC_INFO s <> None).
  { intros s Hs Hn. apply dict_get_None in Hn. rewrite Hkeys in Hs. contradiction. }
  destruct (avg_loop_known env_data [] Hknown) as [avg_df Havg].
  exists avg_df. split; [exact Havg|].
  set (schools_to_plot :=
         if PyStr.eqb school_option ALL_SCHOOLS then keys env_data
         else [school_option]).
  assert (Hplot : forall s, In s schools_to_plot ->
                            In s (keys env_data) /\ In s (keys SCHOOL_EC_INFO)).
  { unfold schools_to_plot. intros s.
    destruct (pystr_eqb_spec school_option ALL_SCHOOLS) as [E|E].
    - intros Hs. split; [exact Hs | rewrite <- Hkeys; exact Hs].
    - intros [<-|[]]. destruct Hopt as [Hopt|Hopt]; [congruence|].
      split; [rewrite Hkeys|]; exact Hopt. }
  pose proof (timeseries_loop_returns env_data schools_to_plot Hplot) as Hret.
  assert (Hvalues : pd_concat (values env_data) = ret (concat (values env_data))).
  { destruct env_data; [discriminate Hkeys | reflexivity]. }
  unfold tab2. fold schools_to_plot.
  rewrite bind_emit, Havg, bind_nil_ret, !bind_emit.
  unfold env_export. rewrite Hvalues, bind_ret_l, !bind_emit.
  cbn [events result fst snd].
  rewrite result_bind, events_bind, Hret. reflexivity.
Qed.

(** X7. With the four sites loaded, selecting one site shows exactly one
    time-series chart, the chart of that site with the reference line at
    its target EC; selecting "전체" shows one chart per site, in site order. *)
Theorem X7_site_filter_selects_time_series (env_data : dict env_frame) :
  keys env_data = keys SCHOOL_EC_INFO ->
  (forall school, In school (keys SCHOOL_EC_INFO) ->
     exists df t,
       dict_get env_data school = Some df /\
       dict_get SCHOOL_EC_INFO school = Some t /\
       time_series_charts (events (tab2 school env_data)) = [fig_ts school df t]) /\
  Forall2 (fun school chart =>
             exists df t,
               dict_get env_data school = Some df /\
               dict_get SCHOOL_EC_INFO school = Some t /\
               chart = fig_ts school df t)
          (keys SCHOOL_EC_INFO)
          (time_series_charts (events (tab2 ALL_SCHOOLS env_data))).
Proof.
  intros Hkeys.
  assert (Hcharts : forall opt, In opt school_options ->
            Forall2 (fun school chart =>
                       exists df t,
                         dict_get env_data school = Some df /\
                         dict_get SCHOOL_EC_INFO school = Some t /\
                         chart = fig_ts school df t)
                    (if PyStr.eqb opt ALL_SCHOOLS then keys env_data else [opt])
                    (time_series_charts (events (tab2 opt env_data)))).
  { intros opt Hopt.
    destruct (tab2_run_loaded opt env_data Hkeys Hopt) as [avg_df [_ ->]].
    cbn [events fst]. rewrite !time_series_charts_app.
    change (time_series_charts [_; st_plotly_chart (fig avg_df); _]) with (@nil figure).
    change (time_series_charts [st_dataframe _; _]) with (@nil figure).
    rewrite app_nil_r. cbn [app].
    apply time_series_charts_loop, timeseries_loop_events.
    intros s. destruct (pystr_eqb_spec opt ALL_SCHOOLS) as [E|E].
    - intros Hs. split; [exact Hs | rewrite <- Hkeys; exact Hs].
    - intros [<-|[]]. destruct Hopt as [Hopt|Hopt]; [congruence|].
      split; [rewrite Hkeys|]; exact Hopt. }
  split.
  - intros school Hin.
    assert (Hne : PyStr.eqb school ALL_SCHOOLS = false).
    { apply pystr_eqb_neq. intros ->. revert Hin. vm_compute.
      intros [H|[H|[H|[H|[]]]]]; discriminate H. }
    specialize (Hcharts school (or_intror Hin)). rewrite Hne in Hcharts.
    inversion Hcharts as [|? chart ? rest [df [t [Hdf [Ht ->]]]] Hrest]; subst.
    inversion Hrest; subst. exists df, t. repeat split; assumption.
  - specialize (Hcharts ALL_SCHOOLS (or_introl eq_refl)).
    rewrite pystr_eqb_refl, Hkeys in Hcharts. exact Hcharts.
Qed.

Lemma avg_loop_rows items : forall avg_rows,
  (forall s, In s (keys items) -> dict_get SCHOOL_EC_INFO s <> None) ->
  exists rows,
    avg_loop items avg_rows = ([], Ret (avg_rows ++ rows)) /\
    Forall2 (fun it row =>
               exists t, dict_get SCHOOL_EC_INFO (fst it) = Some t /\
                         row = avg_row_of (fst it) (snd it) t) items rows.
Proof.
  induction items as [|[school df] rest IH]; intros avg_rows Hall.
  - exists []. cbn [avg_loop]. rewrite app_nil_r. split; [reflexivity | constructor].
  - cbn [avg_loop].
    destruct (dict_get SCHOOL_EC_INFO school) as [t|] eqn:E;
      [|exfalso; apply (Hall school); [left; reflexivity | exact E]].
    rewrite (getitem_Some _ _ _ E), bind_ret_l.
    destruct (IH (avg_rows ++ [avg_row_of school df t])) as [rows [Hrun Hrows]].
    { intros s Hs. apply Hall. right. exact Hs. }
    exists (avg_row_of school df t :: rows). split.
    + unfold avg_row_of at 1 in Hrun. rewrite Hrun, <- app_assoc. reflexivity.
    + constructor; [exists t; split; [exact E | reflexivity] | exact Hrows].
Qed.

Lemma avg_loop_unknown items : forall avg_rows sheet,
  In sheet (keys items) ->
  dict_get SCHOOL_EC_INFO sheet = None ->
  exists before k after,
    keys items = before ++ k :: after /\
    (forall s, In s before -> dict_get SCHOOL_EC_INFO s <> None) /\
    dict_get SCHOOL_EC_INFO k = None /\
    avg_loop items avg_rows = ([], Raise (KeyError k)).
Proof.
  induction items as [|[school df] rest IH]; intros avg_rows sheet Hin Hun.
  - destruct Hin.
  - cbn [avg_loop].
    destruct (dict_get SCHOOL_EC_INFO school) as [v|] eqn:E.
    + rewrite (getitem_Some _ _ _ E), bind_ret_l.
      destruct Hin as [Heq|Hin]; [cbn [fst] in Heq; congruence|].
      destruct (IH (avg_rows ++
                      [{| avg_school := school;
                          avg_temperature := col_mean temperature df;
                          avg_humidity := col_mean humidity df;
                          avg_ph := col_mean ph df;
                          avg_ec_measured := col_mean ec df;
                          avg_ec_target := v |}]) sheet Hin Hun)
        as [before [k [after [Hsplit [Hbefore [Hk Hrun]]]]]].
      exists (school :: before), k, after. repeat split.
      * cbn [keys map fst]. fold (keys rest). rewrite Hsplit. reflexivity.
      * intros s [<-|Hs]; [congruence | apply Hbefore, Hs].
      * exact Hk.
      * exact Hrun.
    + exists [], school, (keys rest). rewrite (getitem_None _ _ E).
      repeat split; [intros s [] | exact E].
Qed.

(** X8. The comparison table of the environment tab has one row per key of
    the environment mapping, in order: the means of that frame's
    temperature, humidity, pH and measured EC, and the target EC of the
    reference table.  A key that is no site of the table makes the tab
    raise a [KeyError] for the first such key, with only the heading
    shown. *)
Theorem X8_site_average_table (school_option : pystr) (env_data : dict env_frame) :
  ((forall s, In s (keys env_data) -> dict_get SCHOOL_EC_INFO s <> None) ->
   exists avg_df,
     avg_loop env_data [] = ([], Ret avg_df) /\
     Forall2 (fun it row =>
                exists t, dict_get SCHOOL_EC_INFO (fst it) = Some t /\
                          row = avg_row_of (fst it) (snd it) t) env_data avg_df /\
     firstn 2 (events (tab2 school_option env_data))
     = [ st_subheader (py "학교별 환경 평균 비교"); st_plotly_chart (fig avg_df) ]) /\
  (forall sheet, In sheet (keys env_data) ->
     dict_get SCHOOL_EC_INFO sheet = None ->
     exists before k after,
       keys env_data = before ++ k :: after /\
       (forall s, In s before -> dict_get SCHOOL_EC_INFO s <> None) /\
       dict_get SCHOOL_EC_INFO k = None /\
       tab2 school_option env_data
       = ([st_subheader (py "학교별 환경 평균 비교")], Raise (KeyError k))).
Proof.
  split.
  - intros Hknown. destruct (avg_loop_rows env_data [] Hknown) as [rows [Hrun Hrows]].
    exists rows. split; [exact Hrun|]. split; [exact Hrows|].
    unfold tab2. rewrite bind_emit, Hrun, bind_nil_ret, bind_emit. reflexivity.
  - intros sheet Hin Hun.
    destruct (avg_loop_unknown env_data [] sheet Hin Hun)
      as [before [k [after [Hsplit [Hbefore [Hk Hrun]]]]]].
    exists before, k, after. repeat (split; [assumption|]).
    unfold tab2. rewrite bind_emit, Hrun. reflexivity.
Qed.

(* ================================================================== *)
(** ** The growth tab *)

Lemma insert_key_keeps k ks x : In x ks -> In x (insert_key k ks).
Proof.
  induction ks as [|h t IH]; cbn [insert_key]; [intros []|].
  destruct (k ?= h)%Q; intros [<-|H];
    first [ left; reflexivity | right; left; reflexivity | right; exact H
          | right; right; exact H | right; apply IH; exact H | idtac ].
Qed.

Lemma insert_key_has k ks : exists x, In x (insert_key k ks) /\ (k == x)%Q.
Proof.
  induction ks as [|h t IH]; cbn [insert_key].
  - exists k. split; [left; reflexivity | reflexivity].
  - destruct (k ?= h)%Q eqn:E.
    + exists h. split; [left; reflexivity | apply Qeq_alt, E].
    + exists k. split; [left; reflexivity | reflexivity].
    + destruct IH as [x [Hx Hk]]. exists x. split; [right; exact Hx | exact Hk].
Qed.

Lemma fold_keys_cover rows : forall ks e,
  ((exists k, In k ks /\ (e == k)%Q) \/
   (exists r, In r rows /\ growth_ec r = Some e)) ->
  exists k,
    In k (fold_left (fun ks r => match growth_ec r with
                                 | Some k => insert_key k ks
                                 | None => ks
                                 end) rows ks) /\ (e == k)%Q.
Proof.
  induction rows as [|r rows IH]; intros ks e H; cbn [fold_left].
  - destruct H as [H|[r [[] _]]]. exact H.
  - apply IH. destruct H as [[k [Hk He]]|[r' [[<-|Hr'] He]]].
    + left. exists k. split; [|exact He].
      destruct (growth_ec r); [apply insert_key_keeps|]; exact Hk.
    + left. rewrite He. apply insert_key_has.
    + right. exists r'. split; assumption.
Qed.

(** Every row with a target EC is in the group of an equal key. *)
Lemma group_keys_cover rows r e :
  In r rows -> growth_ec r = Some e ->
  exists k, In k (group_keys rows) /\ (e == k)%Q.
Proof.
  intros Hr He. apply fold_keys_cover. right. exists r. split; assumption.
Qed.

Lemma mean_with_None f col :
  mean_with f col = None <-> forall c, In c col -> c = None.
Proof.
  clear nfc nfd DATA_DIR series_mean groupby_mean. unfold mean_with. split.
  - destruct (dropna col) as [|x xs] eqn:E; [|discriminate]. intros _ c Hc.
    destruct c as [x|]; [|reflexivity].
    assert (Hin : In x (dropna col)).
    { unfold dropna. apply in_flat_map. exists (Some x). split; [exact Hc | left; reflexivity]. }
    rewrite E in Hin. destruct Hin.
  - intros Hall. destruct (dropna col) as [|x xs] eqn:E; [reflexivity|].
    assert (Hin : In x (dropna col)) by (rewrite E; left; reflexivity).
    unfold dropna in Hin. apply in_flat_map in Hin. destruct Hin as [c [Hc Hx]].
    rewrite (Hall c Hc) in Hx. destruct Hx.
Qed.

Lemma max_ec_measured rows :
  (exists e, max_ec rows = Some e) <-> exists r, In r rows /\ measured r = true.
Proof.
  split.
  - intros [e He]. destruct (max_ec_Some _ _ He) as [i [m [Hi _]]].
    apply nth_error_In in Hi. unfold ec_group, group_mean in Hi.
    apply in_map_iff in Hi. destruct Hi as [[k g] [Heq Hg]].
    cbn [fst snd] in Heq. injection Heq as Hk Hmean. subst k.
    unfold groupby_ec in Hg. apply in_map_iff in Hg.
    destruct Hg as [k [Hpair _]]. injection Hpair as Hk Hg. subst k g.
    destruct (mean_of_group (map (fun r => fresh_weight (growth_row r))
                                 (filter (has_ec e) rows)))
      as [m'|] eqn:Hm; [|discriminate].
    assert (Hsome : ~ forall c, In c (map (fun r => fresh_weight (growth_row r))
                                         (filter (has_ec e) rows)) -> c = None).
    { intros Hall. apply (mean_with_None groupby_mean) in Hall.
      unfold mean_of_group in Hm. congruence. }
    assert (Hex : exists r, In r (filter (has_ec e) rows) /\
                            fresh_weight (growth_row r) <> None).
    { clear - Hsome. induction (filter (has_ec e) rows) as [|r l IH].
      - exfalso. apply Hsome. intros c [].
      - destruct (fresh_weight (growth_row r)) as [w|] eqn:Hw.
        + exists r. split; [left; reflexivity | congruence].
        + destruct IH as [r' [Hr' Hw']].
          * intros Hall. apply Hsome. intros c [<-|Hc]; [exact Hw | apply Hall, Hc].
          * exists r'. split; [right; exact Hr' | exact Hw']. }
    destruct Hex as [r [Hr Hw]]. apply filter_In in Hr. destruct Hr as [Hin Hec].
    exists r. split; [exact Hin|]. unfold measured. unfold has_ec in Hec.
    destruct (growth_ec r); [|discriminate].
    destruct (fresh_weight (growth_row r)); [reflexivity | congruence].
  - intros [r [Hin Hm]]. unfold measured in Hm.
    destruct (growth_ec r) as [e|] eqn:He; [|discriminate].
    destruct (fresh_weight (growth_row r)) as [w|] eqn:Hw; [|discriminate].
    destruct (group_keys_cover rows r e Hin He) as [k [Hk Hek]].
    destruct (mean_of_group (map (fun r => fresh_weight (growth_row r))
                                 (filter (has_ec k) rows)))
      as [m|] eqn:Hmean.
    + apply (max_ec_exists rows k m). unfold ec_group, group_mean.
      apply in_map_iff. exists (k, filter (has_ec k) rows). cbn [fst snd].
      split; [rewrite Hmean; reflexivity|].
      unfold groupby_ec. apply in_map_iff. exists k. split; [reflexivity | exact Hk].
    + exfalso. unfold mean_of_group in Hmean. rewrite mean_with_None in Hmean.
      assert (Hc : Some w = None); [|discriminate Hc].
      apply Hmean. apply in_map_iff. exists r. split; [exact Hw|].
      apply filter_In. split; [exact Hin|]. unfold has_ec. rewrite He.
      apply Qeq_eq_bool, Hek.
Qed.

Lemma tab3_returns_iff growth_data :
  result (tab3 growth_data) = Ret tt <->
  exists r, In r (concat (values growth_data)) /\ measured r = true.
Proof.
  pose proof (max_ec_measured (concat (values growth_data))) as Hmax.
  rewrite tab3_run. cbv zeta.
  destruct (values growth_data) as [|df frames] eqn:Hv.
  - split; [discriminate | intros [r [[] _]]].
  - destruct (max_ec (concat (df :: frames))) as [best|].
    + split; [intros _; apply Hmax; exists best; reflexivity | reflexivity].
    + split; [discriminate|].
      intros Hex. apply Hmax in Hex. destruct Hex as [e He]. discriminate.
Qed.

(** X9. The growth tab completes exactly when some growth row has both a
    target EC and a fresh weight; otherwise (no sheet, no row, only sheets
    that are no site, or no weight) it raises a [ValueError] with only its
    heading shown. *)
Theorem X9_growth_tab_needs_a_measured_row (growth_data : dict growth_frame) :
  (result (tab3 growth_data) = Ret tt <->
   exists r, In r (concat (values growth_data)) /\ measured r = true) /\
  ((forall r, In r (concat (values growth_data)) -> measured r = false) ->
   tab3 growth_data
   = ([st_subheader (py "🥇 EC별 평균 생중량")], Raise ValueError)).
Proof.
  pose proof (max_ec_measured (concat (values growth_data))) as Hmax.
  rewrite tab3_run. cbv zeta.
  destruct (values growth_data) as [|df frames] eqn:Hv.
  - split; [|reflexivity]. split; [discriminate | intros [r [[] _]]].
  - destruct (max_ec (concat (df :: frames))) as [best|].
    + assert (Hex : exists r, In r (concat (df :: frames)) /\ measured r = true)
        by (apply Hmax; exists best; reflexivity).
      split; [split; [intros _; exact Hex | reflexivity]|].
      intros Hall. destruct Hex as [r [Hr Hm]]. rewrite (Hall r Hr) in Hm. discriminate.
    + split; [|reflexivity]. split; [discriminate|].
      intros Hex. apply Hmax in Hex. destruct Hex as [e He]. discriminate.
Qed.

Lemma list_sum_const_0 {A} (l : list A) : list_sum (map (fun _ => 0%nat) l) = 0%nat.
Proof. induction l as [|x l IH]; [reflexivity | exact IH]. Qed.

Lemma list_sum_map_add {A} (a b : A -> nat) (l : list A) :
  list_sum (map (fun x => (a x + b x)%nat) l)
  = (list_sum (map a l) + list_sum (map b l))%nat.
Proof.
  induction l as [|x l IH]; [reflexivity|]. cbn [map list_sum fold_right].
  fold (list_sum (map (fun x => (a x + b x)%nat) l)).
  fold (list_sum (map a l)). fold (list_sum (map b l)). rewrite IH. lia.
Qed.

Lemma list_sum_indicator {A} (p : A -> bool) (l : list A) :
  list_sum (map (fun x => if p x then 1%nat else 0%nat) l) = length (filter p l).
Proof.
  induction l as [|x l IH]; [reflexivity|]. cbn [map list_sum fold_right filter].
  fold (list_sum (map (fun x => if p x then 1%nat else 0%nat) l)). rewrite IH.
  destruct (p x); reflexivity.
Qed.

Lemma one_equal_key ks e :
  StronglySorted Qlt ks ->
  (exists k, In k ks /\ (e == k)%Q) ->
  length (filter (fun k => Qeq_bool e k) ks) = 1%nat.
Proof.
  induction 1 as [|h t Ht IH Hh]; intros [k [Hk Hek]]; [destruct Hk|].
  cbn [filter]. rewrite Forall_forall in Hh.
  destruct (Qeq_bool e h) eqn:E.
  - apply Qeq_bool_eq in E.
    replace (filter (fun k => Qeq_bool e k) t) with (@nil Q); [reflexivity|].
    symmetry. clear IH Ht Hk Hek k. induction t as [|x t IHt]; [reflexivity|].
    cbn [filter]. destruct (Qeq_bool e x) eqn:Ex.
    + apply Qeq_bool_eq in Ex. exfalso.
      assert (Hlt : (h < x)%Q) by (apply Hh; left; reflexivity).
      rewrite <- E, Ex in Hlt. exact (Qlt_irrefl _ Hlt).
    + apply IHt. intros y Hy. apply Hh. right. exact Hy.
  - destruct Hk as [<-|Hk].
    + apply Qeq_eq_bool in Hek. congruence.
    + apply IH. exists k. split; assumption.
Qed.

Lemma sizes_sum ks rows :
  StronglySorted Qlt ks ->
  (forall r e, In r rows -> growth_ec r = Some e ->
               exists k, In k ks /\ (e == k)%Q) ->
  list_sum (map (fun k => length (filter (has_ec k) rows)) ks)
  = length (with_ec rows).
Proof.
  intros Hs. induction rows as [|r rows IH]; intros Hcover.
  - cbn [filter length with_ec]. apply list_sum_const_0.
  - rewrite with_ec_cons.
    replace (map (fun k => length (filter (has_ec k) (r :: rows))) ks)
      with (map (fun k => ((if has_ec k r then 1 else 0)
                           + length (filter (has_ec k) rows))%nat) ks)
      by (apply map_ext; intros k; cbn [filter]; destruct (has_ec k r); reflexivity).
    rewrite list_sum_map_add, list_sum_indicator, IH
      by (intros r' e Hr' He; apply (Hcover r' e); [right; exact Hr' | exact He]).
    destruct (growth_ec r) as [e|] eqn:He.
    + replace (filter (fun k => has_ec k r) ks)
        with (filter (fun k => Qeq_bool e k) ks)
        by (apply filter_ext; intros k; unfold has_ec; rewrite He; reflexivity).
      rewrite one_equal_key; [reflexivity | exact Hs |].
      apply (Hcover r e); [left; reflexivity | exact He].
    + replace (filter (fun k => has_ec k r) ks) with (@nil Q); [reflexivity|].
      symmetry. clear - He. induction ks as [|k ks IHk]; [reflexivity|].
      cbn [filter]. unfold has_ec at 1. rewrite He. exact IHk.
Qed.

Lemma with_ec_length rows : (length (with_ec rows) <= length rows)%nat.
Proof. unfold with_ec. apply filter_length_le. Qed.

Lemma with_ec_all rows :
  (forall r, In r rows -> growth_ec r <> None) -> with_ec rows = rows.
Proof.
  induction rows as [|r rows IH]; intros H; [reflexivity|].
  rewrite with_ec_cons. destruct (growth_ec r) eqn:E.
  - rewrite IH; [reflexivity|]. intros x Hx. apply H. right. exact Hx.
  - exfalso. apply (H r); [left; reflexivity | exact E].
Qed.

(** X10. The counts of the "개체수" panel partition the rows that have a
    target EC: no group is empty, the counts add up to the number of these
    rows, at most the number of all rows, and to the number of all rows
    when every row has a target EC. *)
Theorem X10_group_sizes_partition (growth_all : growth_frame) :
  Forall (fun g => (1 <= snd g)%nat) (group_size growth_all) /\
  list_sum (map snd (group_size growth_all)) = length (with_ec growth_all) /\
  (list_sum (map snd (group_size growth_all)) <= length growth_all)%nat /\
  ((forall r, In r growth_all -> growth_ec r <> None) ->
   list_sum (map snd (group_size growth_all)) = length growth_all).
Proof.
  assert (Hsum : list_sum (map snd (group_size growth_all))
                 = length (with_ec growth_all)).
  { unfold group_size, groupby_ec. rewrite !map_map. cbn [fst snd].
    apply sizes_sum; [apply group_keys_sorted|].
    intros r e Hr He. exact (group_keys_cover growth_all r e Hr He). }
  split; [|split; [exact Hsum|split]].
  - unfold group_size, groupby_ec. rewrite map_map. cbn [fst snd].
    apply Forall_forall. intros g Hg. apply in_map_iff in Hg.
    destruct Hg as [k [<- Hk]]. cbn [snd].
    destruct (group_keys_In _ _ Hk) as [r [Hr He]].
    assert (Hin : In r (filter (has_ec k) growth_all)).
    { apply filter_In. split; [exact Hr|]. unfold has_ec. rewrite He.
      apply Qeq_bool_refl. }
    destruct (filter (has_ec k) growth_all); [destruct Hin | cbn [length]; lia].
  - rewrite Hsum. apply with_ec_length.
  - intros Hall. rewrite Hsum, with_ec_all; [reflexivity | exact Hall].
Qed.

(* ================================================================== *)
(** ** When a run completes, and what a run that stops shows *)

Lemma tab1_returns_iff env_data growth_data :
  values env_data <> [] ->
  (result (tab1 env_data growth_data) = Ret tt <->
   forall s, In s (keys growth_data) -> dict_get SCHOOL_EC_INFO s <> None).
Proof.
  intros Henv. split.
  - intros Hret s Hs Hn.
    destruct (overview_loop_unknown growth_data [] 0%nat s Hs Hn)
      as [before [k [after [_ [_ [_ Hrun]]]]]].
    rewrite tab1_run, Hrun in Hret. discriminate Hret.
  - intros Hknown. destruct (overview_loop_known growth_data [] 0%nat Hknown) as [ov Hrun].
    rewrite tab1_run, Hrun. cbv zeta. cbn [result snd].
    destruct (values env_data); [congruence | reflexivity].
Qed.

(** X11. For a valid selection the run completes exactly when each of the
    four environment files is resolved, a workbook is found, every sheet of
    the workbook is a site of the reference table, and some loaded growth
    row has a fresh weight and a target EC. *)
Theorem X11_run_completes_iff (school_option : pystr) :
  In school_option school_options ->
  (result (main school_option) = Ret tt <->
   (forall s, In s (keys SCHOOL_EC_INFO) ->
              find_file_by_name DATA_DIR (env_filename s) <> None) /\
   exists xlsx_path,
     find is_xlsx DATA_DIR = Some xlsx_path /\
     (forall sheet, In sheet (map fst (sheets xlsx_path)) ->
                    dict_get SCHOOL_EC_INFO sheet <> None) /\
     exists r,
       In r (concat (values (load_growth_loop (sheets xlsx_path) []))) /\
       measured r = true).
Proof.
  intros Hopt. split.
  - intros Hret. destruct (main_returns _ Hret) as [env [growth [Henv Hgrowth]]].
    destruct (load_environment_data_some env Henv) as [_ [Hkeys Hfound]].
    destruct (load_growth_data_some growth Hgrowth) as [xlsx [Hfind [Hg _]]].
    rewrite (main_loaded school_option env growth Henv Hgrowth) in Hret.
    destruct (tabs_loaded school_option env growth Hkeys Hopt) as [Hres _].
    rewrite Hres in Hret.
    assert (Hvalues : values env <> [])
      by (destruct env; [discriminate Hkeys | discriminate]).
    destruct (result (tab1 env growth)) as [[]|e|] eqn:Htab1; try discriminate Hret.
    split; [exact Hfound|]. exists xlsx. split; [exact Hfind|]. split.
    + intros sheet Hsheet. apply (proj1 (tab1_returns_iff env growth Hvalues) Htab1).
      rewrite Hg, keys_load_growth_loop, In_fold_add_key. right. exact Hsheet.
    + rewrite <- Hg. apply tab3_returns_iff, Hret.
  - intros [Hfound [xlsx [Hfind [Hknown Hmeasured]]]].
    destruct (load_environment_loop_found (keys SCHOOL_EC_INFO) [] Hfound)
      as [env [Hrun Hkeys]].
    fold load_environment_data in Hrun.
    assert (Henv : result load_environment_data = Ret (Some env))
      by (rewrite Hrun; reflexivity).
    assert (Hgrowth : result load_growth_data
                      = Ret (Some (load_growth_loop (sheets xlsx) [])))
      by (unfold load_growth_data; rewrite Hfind; reflexivity).
    destruct (load_environment_data_some env Henv) as [_ [Hkeys' _]].
    rewrite (main_loaded school_option env _ Henv Hgrowth).
    destruct (tabs_loaded school_option env (load_growth_loop (sheets xlsx) [])
                Hkeys' Hopt) as [-> _].
    assert (Hvalues : values env <> [])
      by (destruct env; [discriminate Hkeys' | discriminate]).
    assert (Htab1 : result (tab1 env (load_growth_loop (sheets xlsx) [])) = Ret tt).
    { apply tab1_returns_iff; [exact Hvalues|]. intros s Hs. apply Hknown.
      rewrite keys_load_growth_loop, In_fold_add_key in Hs.
      destruct Hs as [[]|Hs]. exact Hs. }
    rewrite Htab1. apply tab3_returns_iff, Hmeasured.
Qed.

Lemma never_stops_bind {A B} (m : M A) (f : A -> M B) :
  never_stops m -> (forall a, never_stops (f a)) -> never_stops (bind m f).
Proof.
  unfold never_stops. intros Hm Hf. rewrite result_bind.
  destruct (result m) as [a|e|]; [apply Hf | discriminate | congruence].
Qed.

Lemma never_stops_getitem {V} (d : dict V) k : never_stops (getitem d k).
Proof. unfold never_stops, getitem. destruct (dict_get d k); discriminate. Qed.

Lemma never_stops_pd_concat {A} (frames : list (list A)) : never_stops (pd_concat frames).
Proof. unfold never_stops. destruct frames; discriminate. Qed.

Lemma never_stops_emit e : never_stops (emit e).
Proof. discriminate. Qed.

Lemma never_stops_tab1 env_data growth_data : never_stops (tab1 env_data growth_data).
Proof.
  assert (Hloop : forall items rows total, never_stops (overview_loop items rows total)).
  { induction items as [|[school df] rest IH]; intros rows total; cbn [overview_loop].
    - discriminate.
    - apply never_stops_bind; [apply never_stops_getitem|]. intros t.
      apply never_stops_bind; [apply never_stops_getitem|]. intros c. apply IH. }
  unfold never_stops. rewrite tab1_run. cbv zeta.
  pose proof (Hloop growth_data [] 0%nat) as H. unfold never_stops in H.
  destruct (result (overview_loop growth_data [] 0%nat)); [|discriminate|congruence].
  destruct (values env_data); discriminate.
Qed.

Lemma never_stops_tab2 school_option env_data : never_stops (tab2 school_option env_data).
Proof.
  assert (Havg : forall items rows, never_stops (avg_loop items rows)).
  { induction items as [|[school df] rest IH]; intros rows; cbn [avg_loop].
    - discriminate.
    - apply never_stops_bind; [apply never_stops_getitem|]. intros t. apply IH. }
  assert (Hts : forall schools, never_stops (timeseries_loop env_data schools)).
  { induction schools as [|school rest IH]; cbn [timeseries_loop].
    - discriminate.
    - apply never_stops_bind; [apply never_stops_getitem|]. intros df.
      apply never_stops_bind; [apply never_stops_getitem|]. intros t.
      apply never_stops_bind; [apply never_stops_emit|]. intros _. exact IH. }
  unfold tab2.
  apply never_stops_bind; [apply never_stops_emit|]. intros _.
  apply never_stops_bind; [apply Havg|]. intros avg_df.
  apply never_stops_bind; [apply never_stops_emit|]. intros _.
  apply never_stops_bind; [apply never_stops_emit|]. intros _.
  apply never_stops_bind; [apply Hts|]. intros _.
  unfold env_export.
  apply never_stops_bind; [apply never_stops_pd_concat|]. intros all_env_df.
  apply never_stops_bind; [apply never_stops_emit|]. intros _.
  apply never_stops_emit.
Qed.

Lemma never_stops_tab3 growth_data : never_stops (tab3 growth_data).
Proof.
  unfold never_stops. rewrite tab3_run. cbv zeta.
  destruct (values growth_data); [discriminate|].
  destruct (max_ec _); discriminate.
Qed.

Lemma tab1_shows_data env_data growth_data :
  Forall shows_data (events (tab1 env_data growth_data)).
Proof.
  rewrite tab1_run. cbv zeta.
  destruct (result (overview_loop growth_data [] 0%nat)) as [ov|e|];
    [destruct (values env_data)|..]; repeat constructor.
Qed.

Lemma tab3_shows_data growth_data : Forall shows_data (events (tab3 growth_data)).
Proof.
  rewrite tab3_run. cbv zeta.
  destruct (values growth_data) as [|df frames]; [repeat constructor|].
  destruct (max_ec (concat (df :: frames))) as [best|]; [|repeat constructor].
  cbn [events fst]. constructor; [reflexivity|]. apply Forall_app. split.
  - apply ec_cards_Forall. reflexivity.
  - repeat constructor.
Qed.

Lemma tab2_shows_data school_option env_data :
  Forall shows_data (events (tab2 school_option env_data)).
Proof.
  unfold tab2. rewrite bind_emit. cbn [events fst].
  constructor; [reflexivity|].
  apply Forall_events_bind; [rewrite events_avg_loop; constructor|].
  intros avg_df _. rewrite !bind_emit. cbn [events fst].
  do 2 (constructor; [reflexivity|]).
  apply Forall_events_bind.
  - apply timeseries_loop_charts. reflexivity.
  - intros _ _. unfold env_export.
    apply Forall_events_bind; [rewrite events_pd_concat; constructor|].
    intros all_env_df _. rewrite !bind_emit. cbn [events fst emit].
    repeat constructor.
Qed.

(** X12. Missing-file messages and data never mix.  A run that shows a
    missing-file message shows nothing but such messages and does not
    complete.  A run that ends in [st.stop()] has shown at least one such
    message and nothing else.  A run that shows a heading, a table, a card,
    a chart or a download shows no message, begins with the title, and both
    loaders have returned a mapping. *)
Theorem X12_messages_and_data_never_mix (school_option : pystr) :
  ((exists msg, In (st_error msg) (events (main school_option))) ->
   Forall is_message (events (main school_option)) /\
   result (main school_option) <> Ret tt) /\
  (result (main school_option) = Stop ->
   events (main school_option) <> [] /\
   Forall is_message (events (main school_option))) /\
  ((exists e, In e (events (main school_option)) /\ shows_data e) ->
   Forall shows_data (events (main school_option)) /\
   hd_error (events (main school_option))
     = Some (st_title (py "🌱 극지식물 최적 EC 농도 연구")) /\
   exists env_data growth_data,
     result load_environment_data = Ret (Some env_data) /\
     result load_growth_data = Ret (Some growth_data)).
Proof.
  assert (Hcases :

  (result (main school_option) = Stop /\
   events (main school_option) <> [] /\
   Forall is_message (events (main school_option)) /\
   (result load_environment_data = Ret None \/ result load_growth_data = Ret None))
  \/
  (result (main school_option) <> Stop /\
   Forall shows_data (events (main school_option)) /\
   hd_error (events (main school_option))
     = Some (st_title (py "🌱 극지식물 최적 EC 농도 연구")) /\
   exists env_data growth_data,
     result load_environment_data = Ret (Some env_data) /\
     result load_growth_data = Ret (Some growth_data))).
  {
  assert (Hgrowth : (exists xlsx, load_growth_data
                       = ([], Ret (Some (load_growth_loop (sheets xlsx) [])))) \/
                    load_growth_data = ([st_error XLSX_MISSING], Ret None)).
  { unfold load_growth_data. destruct (find is_xlsx DATA_DIR) as [xlsx|].
    - left. exists xlsx. reflexivity.
    - right. reflexivity. }
  unfold main.
  destruct (load_environment_loop_cases (keys SCHOOL_EC_INFO) [])
    as [[env Hrun]|[school [Hin [Hnone Hrun]]]];
    fold load_environment_data in Hrun; rewrite Hrun;
    destruct Hgrowth as [[xlsx Hg]|Hg]; rewrite Hg.
  - right. rewrite !bind_nil_ret. cbv beta iota. rewrite bind_emit.
    cbn [events result fst snd hd_error].
    split; [|split; [|split; [reflexivity|]]].
    + apply never_stops_bind; [apply never_stops_tab1|]. intros _.
      apply never_stops_bind; [apply never_stops_tab2|]. intros _.
      apply never_stops_tab3.
    + constructor; [reflexivity|].
      apply Forall_events_bind; [apply tab1_shows_data|]. intros _ _.
      apply Forall_events_bind; [apply tab2_shows_data|]. intros _ _.
      apply tab3_shows_data.
    + eexists _, _. split; reflexivity.
  - left. cbn. repeat split; try discriminate.
    + repeat constructor. eexists. reflexivity.
    + right. reflexivity.
  - left. cbn. repeat split; try discriminate.
    + repeat constructor. eexists. reflexivity.
    + left. reflexivity.
  - left. cbn. repeat split; try discriminate.
    + repeat constructor; eexists; reflexivity.
    + left. reflexivity. }
  destruct Hcases as [[Hstop [Hne [Hmsg _]]]|[Hgo [Hdata [Hhd Hload]]]].
  - split; [|split].
    + intros _. split; [exact Hmsg|]. rewrite Hstop. discriminate.
    + intros _. split; assumption.
    + intros [e [He Hshown]]. exfalso. rewrite Forall_forall in Hmsg.
      destruct (Hmsg e He) as [msg ->]. discriminate Hshown.
  - split; [|split].
    + intros [msg Hin]. exfalso. rewrite Forall_forall in Hdata.
      pose proof (Hdata _ Hin) as Hshown. discriminate Hshown.
    + intros Hstop. contradiction.
    + intros _. repeat split; assumption.
Qed.

(* ================================================================== *)
(** ** Groups by EC and sites *)

(** No two sites of the reference table have the same target EC. *)
Lemma target_ec_injective s1 s2 e1 e2 :
  dict_get SCHOOL_EC_INFO s1 = Some e1 ->
  dict_get SCHOOL_EC_INFO s2 = Some e2 ->
  (e1 == e2)%Q -> s1 = s2.
Proof.
  clear nfc nfd DATA_DIR series_mean groupby_mean.
  intros H1 H2. apply dict_get_In in H1. apply dict_get_In in H2.
  unfold SCHOOL_EC_INFO in H1, H2. cbn [In] in H1, H2.
  destruct H1 as [H1|[H1|[H1|[H1|[]]]]]; injection H1 as <- <-;
    destruct H2 as [H2|[H2|[H2|[H2|[]]]]]; injection H2 as <- <-;
    intros Heq; try reflexivity; exfalso; revert Heq; unfold Qeq; cbn; discriminate.
Qed.

Lemma filter_tagged k sheet rows :
  filter (has_ec k) (map (tag_growth sheet) rows)
  = if match dict_get SCHOOL_EC_INFO sheet with
       | Some e => Qeq_bool e k
       | None => false
       end
    then map (tag_growth sheet) rows else [].
Proof.
  induction rows as [|r rows IH]; cbn [map filter].
  - destruct (match dict_get SCHOOL_EC_INFO sheet with Some e => Qeq_bool e k | None => false end);
      reflexivity.
  - unfold has_ec at 1. cbn [tag_growth growth_ec]. rewrite IH.
    destruct (match dict_get SCHOOL_EC_INFO sheet with Some e => Qeq_bool e k | None => false end);
      reflexivity.
Qed.

Lemma filter_site_frames k sheet wb :
  NoDup (map fst wb) ->
  dict_get SCHOOL_EC_INFO sheet = Some k ->
  filter (has_ec k)
         (concat (map (fun sh => map (tag_growth (fst sh)) (snd sh)) wb))
  = if existsb (fun sh => PyStr.eqb (fst sh) sheet) wb
    then concat (map (fun sh => if PyStr.eqb (fst sh) sheet
                                then map (tag_growth sheet) (snd sh) else []) wb)
    else [].
Proof.
  intros Hnd Hk. induction wb as [|[s rs] wb IH]; [reflexivity|].
  cbn [map fst] in Hnd. inversion Hnd as [|? ? Hnotin Hnd']; subst.
  cbn [map concat existsb fst snd]. rewrite filter_app, filter_tagged, (IH Hnd').
  destruct (pystr_eqb_spec s sheet) as [->|Hne]; cbn [orb].
  - rewrite Hk, Qeq_bool_refl.
    destruct (existsb (fun sh => PyStr.eqb (fst sh) sheet) wb) eqn:Hex.
    + exfalso. apply existsb_exists in Hex. destruct Hex as [sh [Hsh Heq]].
      apply pystr_eqb_eq in Heq. apply Hnotin. rewrite <- Heq.
      apply in_map. exact Hsh.
    + f_equal.
      clear - Hex. induction wb as [|sh wb IH]; [reflexivity|].
      cbn [existsb] in Hex. apply orb_false_iff in Hex. destruct Hex as [H1 H2].
      cbn [map concat]. rewrite H1. cbn [app]. apply IH, H2.
  - replace (match dict_get SCHOOL_EC_INFO s with
             | Some e => Qeq_bool e k
             | None => false
             end) with false; [reflexivity|].
    destruct (dict_get SCHOOL_EC_INFO s) as [e|] eqn:He; [|reflexivity].
    symmetry. destruct (Qeq_bool e k) eqn:Heq; [|reflexivity].
    apply Qeq_bool_eq in Heq. exfalso. apply Hne.
    exact (target_ec_injective s sheet e k He Hk Heq).
Qed.

Lemma concat_only_sheet sheet rows wb :
  NoDup (map fst wb) -> In (sheet, rows) wb ->
  existsb (fun sh => PyStr.eqb (fst sh) sheet) wb = true /\
  concat (map (fun sh => if PyStr.eqb (fst sh) sheet
                         then map (tag_growth sheet) (snd sh) else []) wb)
  = map (tag_growth sheet) rows.
Proof.
  intros Hnd Hin. induction wb as [|[s rs] wb IH]; [destruct Hin|].
  cbn [map fst] in Hnd. inversion Hnd as [|? ? Hnotin Hnd']; subst.
  cbn [map concat existsb fst snd]. destruct Hin as [[= -> ->]|Hin].
  - rewrite pystr_eqb_refl. split; [reflexivity|].
    replace (concat _) with (@nil GrowthRecord); [apply app_nil_r|].
    symmetry. clear - Hnotin. induction wb as [|[s rs] wb IH]; [reflexivity|].
    cbn [map concat fst snd].
    replace (PyStr.eqb s sheet) with false.
    + cbn [app]. apply IH. intros H. apply Hnotin. right. exact H.
    + symmetry. apply pystr_eqb_neq. intros ->. apply Hnotin. left. reflexivity.
  - destruct (IH Hnd' Hin) as [Hex Hc].
    replace (PyStr.eqb s sheet) with false.
    + cbn [orb app]. split; assumption.
    + symmetry. apply pystr_eqb_neq. intros ->. apply Hnotin.
      apply in_map_iff. exists (sheet, rows). split; [reflexivity | exact Hin].
Qed.

(** X13. For a workbook with unique sheet names, the EC group of a site's
    target EC is exactly the frame of that site's sheet, because no two
    sites share a target EC: the mean fresh weight shown for that EC is the
    mean over the rows of that sheet. *)
Theorem X13_ec_groups_are_site_frames
  (wb : list (pystr * list GrowthRow)) (sheet : pystr) (rows : list GrowthRow) (k : Q) :
  NoDup (map fst wb) ->
  In (sheet, rows) wb ->
  dict_get SCHOOL_EC_INFO sheet = Some k ->
  rows <> [] ->
  let growth_all := concat (values (load_growth_loop wb [])) in
  filter (has_ec k) growth_all = map (tag_growth sheet) rows /\
  In (k, map (tag_growth sheet) rows) (groupby_ec growth_all) /\
  In (k, mean_of_group (map fresh_weight rows)) (ec_group growth_all).
Proof.
  clear series_mean. intros Hnd Hin Hk Hrows. cbv zeta.
  rewrite (load_growth_loop_unique wb [] Hnd) by (intros s _ []).
  cbn [app]. unfold values. rewrite map_map. cbn [snd].
  set (growth_all := concat (map (fun sh => map (tag_growth (fst sh)) (snd sh)) wb)).
  assert (Hfilter : filter (has_ec k) growth_all = map (tag_growth sheet) rows).
  { unfold growth_all. rewrite (filter_site_frames k sheet wb Hnd Hk).
    destruct (concat_only_sheet sheet rows wb Hnd Hin) as [-> ->]. reflexivity. }
  assert (Hkey : In k (group_keys growth_all)).
  { destruct rows as [|r0 rows']; [congruence|].
    assert (Hr : In (tag_growth sheet r0) growth_all).
    { unfold growth_all. apply in_concat. exists (map (tag_growth sheet) (r0 :: rows')).
      split; [|left; reflexivity].
      apply in_map_iff. exists (sheet, r0 :: rows'). split; [reflexivity | exact Hin]. }
    destruct (group_keys_cover growth_all _ k Hr) as [k' [Hk' Heq]];
      [cbn [tag_growth growth_ec]; exact Hk|].
    destruct (group_keys_In _ _ Hk') as [r [Hrin Hrec]].
    unfold growth_all in Hrin. apply in_concat in Hrin.
    destruct Hrin as [frame [Hframe Hrf]]. apply in_map_iff in Hframe.
    destruct Hframe as [[s rs] [<- _]]. cbn [fst snd] in Hrf.
    apply in_map_iff in Hrf. destruct Hrf as [r1 [<- _]].
    cbn [tag_growth growth_ec] in Hrec.
    assert (s = sheet) by (apply (target_ec_injective s sheet k' k Hrec Hk);
                           symmetry; exact Heq).
    subst s. assert (k' = k) by congruence. subst k'. exact Hk'. }
  split; [exact Hfilter|]. split.
  - unfold groupby_ec. apply in_map_iff. exists k.
    split; [exact (f_equal (pair k) Hfilter) | exact Hkey].
  - unfold ec_group, group_mean. apply in_map_iff.
    exists (k, map (tag_growth sheet) rows). cbn [fst snd]. split.
    + rewrite map_map. cbn [tag_growth growth_row]. reflexivity.
    + unfold groupby_ec. apply in_map_iff. exists k.
      split; [exact (f_equal (pair k) Hfilter) | exact Hkey].
Qed.

End Script.

(* ================================================================== *)
(** ** Hangul normalization satisfies the normalization laws *)

Module HangulFacts.
Import Hangul.

Lemma decompose_char_plain c : is_syllable c = false -> decompose_char c = [c].
Proof. unfold decompose_char; intros ->; reflexivity. Qed.

Lemma decompose_char_jamo c x :
  In x (decompose_char c) -> is_syllable x = false.
Proof.
  unfold decompose_char.
  destruct (is_syllable c) eqn:Hc.
  - assert (Hi : c - SBase < SCount) by (unfold_consts; bools; lia).
    set (i := c - SBase) in *.
    assert (Hdiv : forall k d, d <> 0 -> k / d <= k).
    { intros k d Hd. apply N.Div0.div_le_upper_bound.
      rewrite <- (N.mul_1_l k) at 1. apply N.mul_le_mono_r. lia. }
    assert (H1 : i / NCount <= i) by (apply Hdiv; discriminate).
    assert (H2 : i mod NCount / TCount <= i mod NCount) by (apply Hdiv; discriminate).
    assert (H3 : i mod NCount < NCount) by (apply N.mod_lt; discriminate).
    assert (H4 : i mod TCount < TCount) by (apply N.mod_lt; discriminate).
    assert (Hlow : forall y, y < SBase -> is_syllable y = false).
    { intros y Hy. unfold is_syllable. apply andb_false_iff; left.
      apply N.leb_gt; exact Hy. }
    destruct (_ =? _); intros Hx; apply Hlow; cbn [In] in Hx;
      repeat (destruct Hx as [<-|Hx]; [unfold_consts; lia|]); destruct Hx.
  - intros [<-|[]]. exact Hc.
Qed.

Lemma nfd_plain s : (forall x, In x s -> is_syllable x = false) -> nfd s = s.
Proof.
  induction s as [|a s IH]; intros H; simpl; [reflexivity|].
  rewrite decompose_char_plain by (apply H; left; reflexivity).
  simpl. f_equal. apply IH. intros x Hx. apply H; right; exact Hx.
Qed.

Lemma nfd_jamo s x : In x (nfd s) -> is_syllable x = false.
Proof.
  unfold nfd. rewrite in_flat_map. intros [c [_ Hx]].
  eapply decompose_char_jamo; eassumption.
Qed.

Lemma hangul_nfd_idempotent s : nfd (nfd s) = nfd s.
Proof. apply nfd_plain, nfd_jamo. Qed.

Lemma decompose_syllable l v t :
  is_L l = true -> is_V v = true -> TBase <= t < TBase + TCount ->
  decompose_char (syllable l v t) =
  if t =? TBase then [l; v] else [l; v; t].
Proof.
  intros Hl Hv Ht. unfold decompose_char.
  assert (Hs : is_syllable (syllable l v t) = true).
  { unfold_consts. bools. apply andb_true_iff; split;
      [apply N.leb_le | apply N.ltb_lt]; nia. }
  rewrite Hs.
  unfold_consts. bools.
  set (a := l - 4352). set (b := v - 4449). set (c := t - 4519).
  assert (Ha : a < 19) by (unfold a; lia).
  assert (Hb : b < 21) by (unfold b; lia).
  assert (Hc : c < 28) by (unfold c; lia).
  replace (44032 + (a * 21 + b) * 28 + c - 44032) with ((a * 21 + b) * 28 + c) by lia.
  assert (E1 : ((a * 21 + b) * 28 + c) / 588 = a).
  { symmetry. apply N.div_unique with (b * 28 + c); lia. }
  assert (E2 : ((a * 21 + b) * 28 + c) mod 588 = b * 28 + c).
  { symmetry. apply N.mod_unique with a; lia. }
  assert (E3 : ((a * 21 + b) * 28 + c) mod 28 = c).
  { symmetry. apply N.mod_unique with (a * 21 + b); lia. }
  assert (E4 : (b * 28 + c) / 28 = b).
  { symmetry. apply N.div_unique with c; lia. }
  rewrite E1, E2, E3, E4.
  replace (4352 + a) with l by (unfold a; lia).
  replace (4449 + b) with v by (unfold b; lia).
  replace (4519 + c) with t by (unfold c; lia).
  reflexivity.
Qed.

Lemma nfd_compose_len n : forall s,
  (List.length s <= n)%nat ->
  (forall x, In x s -> is_syllable x = false) -> nfd (compose s) = s.
Proof.
  induction n as [|n IH]; intros s Hn Hs.
  - destruct s; [reflexivity | simpl in Hn; lia].
  - destruct s as [|a rest]; [reflexivity|].
    assert (Ha : is_syllable a = false) by (apply Hs; left; reflexivity).
    assert (Hrest : nfd (compose rest) = rest).
    { apply IH; [simpl in Hn; lia | intros x Hx; apply Hs; right; exact Hx]. }
    assert (Hplain : nfd (a :: compose rest) = a :: rest).
    { change (nfd (a :: compose rest)) with (decompose_char a ++ nfd (compose rest)).
      rewrite decompose_char_plain, Hrest by exact Ha. reflexivity. }
    cbn [compose]. fold (compose rest).
    destruct (is_L a) eqn:HL; [|exact Hplain].
    destruct rest as [|b rest1]; [rewrite (nfd_plain [a]); [reflexivity|]|].
    { intros x [<-|[]]; exact Ha. }
    destruct (is_V b) eqn:HV; [|exact Hplain].
    assert (Hrest1 : nfd (compose rest1) = rest1).
    { apply IH; [simpl in Hn; lia | intros x Hx; apply Hs; right; right; exact Hx]. }
    assert (HLV : decompose_char (syllable a b TBase) = [a; b]).
    { rewrite decompose_syllable; [rewrite N.eqb_refl; reflexivity | assumption..|].
      unfold TBase, TCount; lia. }
    destruct rest1 as [|c rest2].
    + change (nfd [syllable a b TBase]) with (decompose_char (syllable a b TBase) ++ []).
      rewrite HLV. reflexivity.
    + destruct (is_T c) eqn:HT.
      * change (nfd (syllable a b c :: compose rest2))
          with (decompose_char (syllable a b c) ++ nfd (compose rest2)).
        rewrite decompose_syllable; [|assumption..|unfold_consts; bools; lia].
        replace (c =? TBase) with false
          by (symmetry; apply N.eqb_neq; unfold_consts; bools; lia).
        rewrite IH; [reflexivity | simpl in Hn; simpl; lia |].
        intros x Hx; apply Hs; right; right; right; exact Hx.
      * change (nfd (syllable a b TBase :: compose (c :: rest2)))
          with (decompose_char (syllable a b TBase) ++ nfd (compose (c :: rest2))).
        rewrite HLV, Hrest1. reflexivity.
Qed.

Lemma nfd_compose s :
  (forall x, In x s -> is_syllable x = false) -> nfd (compose s) = s.
Proof. apply (nfd_compose_len (List.length s)); lia. Qed.

(** The two facts of Unicode normalization the script relies on. *)
Lemma hangul_nfc_of_nfd s : nfc (nfd s) = nfc s.
Proof. unfold nfc. rewrite hangul_nfd_idempotent. reflexivity. Qed.

Lemma hangul_nfd_of_nfc s : nfd (nfc s) = nfd s.
Proof. unfold nfc. apply nfd_compose, nfd_jamo. Qed.

End HangulFacts.
(* ================================================================== *)
(** ** Pooled means *)

(** C9 (amended). The average temperature and humidity of the overview are
    means over the rows of all sites pooled: pandas' mean is applied once to
    the column of the concatenated table, which has one cell per row of
    every site, site after site, and the cards of the overview show these
    two means.  This is not the mean of the per-site means, and the two can
    differ when sites have unequal row counts: for the sites with 2, 1, 1
    and 1 rows of the sample the pooled mean temperature is 16 and the mean
    of the site means is 16.25 (in binary64, where these values are
    exact). *)
Theorem C9_overview_means_pool_all_rows
  (series_mean : list Q -> Q) (env_data : dict env_frame) :
  let pooled (col : EnvRow -> cell) :=
    map (fun r => col (env_row r)) (concat (values env_data)) in
  (values env_data <> [] ->
   avg_temp series_mean env_data = ret (mean series_mean (pooled temperature)) /\
   avg_hum series_mean env_data = ret (mean series_mean (pooled humidity))) /\
  (forall col,
     pooled col = concat (map (map (fun r => col (env_row r))) (values env_data)) /\
     length (pooled col) = list_sum (map (@length EnvRecord) (values env_data))) /\
  (forall col xs, xs <> [] -> pooled col = map Some xs ->
     mean series_mean (pooled col) = Some (series_mean xs)) /\
  (forall growth_data,
     result (tab1 series_mean env_data growth_data) = Ret tt ->
     In (st_metric 1 [Lit (py "평균 온도")]
           [Float (mean series_mean (pooled temperature)) (Some 1%nat); Lit (py " ℃")]
           None)
        (events (tab1 series_mean env_data growth_data)) /\
     In (st_metric 2 [Lit (py "평균 습도")]
           [Float (mean series_mean (pooled humidity)) (Some 1%nat); Lit (py " %")]
           None)
        (events (tab1 series_mean env_data growth_data))) /\
  (unequal_row_counts Sample.uneven_env_data /\
   avg_temp Float64.mean Sample.uneven_env_data = ret (Some 16%Q) /\
   mean_of_site_means Float64.mean temperature Sample.uneven_env_data
   = Some (65 # 4)%Q).
Proof.
  cbv zeta. split; [|split; [|split; [|split]]].
  - intros Hne. unfold avg_temp, avg_hum.
    destruct (values env_data) as [|df frames]; [congruence|].
    split; reflexivity.
  - intros col. split; [apply concat_map|].
    rewrite length_map, length_concat. reflexivity.
  - intros col xs Hxs ->. unfold mean, mean_with.
    assert (Hdrop : dropna (map Some xs) = xs).
    { clear. induction xs as [|x xs IH]; [reflexivity|].
      cbn [map]. change (dropna (Some x :: map Some xs)) with (x :: dropna (map Some xs)).
      rewrite IH. reflexivity. }
    rewrite Hdrop. destruct xs; [congruence | reflexivity].
  - intros growth_data. rewrite tab1_run. cbv zeta.
    destruct (result (overview_loop growth_data [] 0%nat)) as [ov|e|];
      [|discriminate..].
    destruct (values env_data) as [|df frames]; [discriminate|].
    intros _. cbn [events fst app In]. tauto.
  - split; [|split; vm_compute; reflexivity].
    eexists _, _. split; [left; reflexivity|].
    split; [right; left; reflexivity|]. cbn. discriminate.
Qed.


(* ================================================================== *)
(** ** The statements at the sample directories *)

(** The decomposed spelling of a name resolves to the file stored under
    the composed spelling and conversely, with Hangul normalization. *)
Lemma C3_witness :
  (forall s, Hangul.nfc (Hangul.nfd s) = Hangul.nfc s) /\
  (forall s, Hangul.nfd (Hangul.nfc s) = Hangul.nfd s) /\
  find_file_by_name Hangul.nfc Hangul.nfd Sample.data_dir
    (Hangul.nfd (py "송도고_환경데이터.csv")) = Some Sample.songdo_csv /\
  find_file_by_name Hangul.nfc Hangul.nfd Sample.data_dir
    (py "하늘고_환경데이터.csv") = Some Sample.haneul_csv /\
  find_file_by_name Hangul.nfc Hangul.nfd
    (map (rename Hangul.nfc) Sample.data_dir) (py "하늘고_환경데이터.csv")
  = Some (rename Hangul.nfc Sample.haneul_csv) /\
  find_file_by_name Hangul.nfc Hangul.nfd Sample.data_dir (py "archive") = None.
Proof.
  pose proof (C3_resolution_invariant_under_normalization Hangul.nfc Hangul.nfd
                HangulFacts.hangul_nfc_of_nfd HangulFacts.hangul_nfd_of_nfc) as H.
  split; [exact HangulFacts.hangul_nfc_of_nfd|].
  split; [exact HangulFacts.hangul_nfd_of_nfc|].
  split; [|split; [|split]].
  - destruct (H Sample.data_dir (py "송도고_환경데이터.csv")) as [_ [_ [-> _]]].
    vm_compute. reflexivity.
  - vm_compute. reflexivity.
  - destruct (H Sample.data_dir (py "하늘고_환경데이터.csv")) as [_ [_ [_ [-> _]]]].
    vm_compute. reflexivity.
  - apply (H Sample.data_dir (py "archive")).
    intros f Hin Hfile Heq. unfold Sample.data_dir in Hin. cbn [In] in Hin.
    repeat (destruct Hin as [<-|Hin];
            [first [discriminate Hfile | vm_compute in Heq; discriminate Heq]|]).
    exact Hin.
Defined.

(** A successful load of the complete sample directory. *)
Lemma C2_witness :
  exists env growth,
    result (load_environment_data Hangul.nfc Hangul.nfd Sample.data_dir)
      = Ret (Some env) /\
    result (load_growth_data Sample.data_dir) = Ret (Some growth) /\
    keys env = keys SCHOOL_EC_INFO /\
    exists xlsx_path,
      find is_xlsx Sample.data_dir = Some xlsx_path /\
      keys growth = fold_left add_key (map fst (sheets xlsx_path)) [] /\
      forall k, In k (keys growth) <-> In k (map fst (sheets xlsx_path)).
Proof.
  exists (match result (load_environment_data Hangul.nfc Hangul.nfd Sample.data_dir)
          with Ret (Some e) => e | _ => [] end).
  exists (match result (load_growth_data Sample.data_dir)
          with Ret (Some g) => g | _ => [] end).
  assert (H1 : result (load_environment_data Hangul.nfc Hangul.nfd Sample.data_dir)
               = Ret (Some (match result (load_environment_data Hangul.nfc Hangul.nfd
                                            Sample.data_dir)
                            with Ret (Some e) => e | _ => [] end)))
    by (vm_compute; reflexivity).
  assert (H2 : result (load_growth_data Sample.data_dir)
               = Ret (Some (match result (load_growth_data Sample.data_dir)
                            with Ret (Some g) => g | _ => [] end)))
    by (vm_compute; reflexivity).
  split; [exact H1|]. split; [exact H2|].
  exact (C2_keys_after_successful_load Hangul.nfc Hangul.nfd Sample.data_dir _ _ H1 H2).
Defined.

(** C2 as stated fails: both loaders return a mapping for the directory
    whose workbook has the sheets "송도고" and "Sheet1", and the growth mapping
    has these two keys: three sites are missing and one key is no site. *)
Lemma C2_counterexample :
  exists env growth,
    result (load_environment_data Hangul.nfc Hangul.nfd Sample.dir_odd_sheet)
      = Ret (Some env) /\
    result (load_growth_data Sample.dir_odd_sheet) = Ret (Some growth) /\
    keys env = keys SCHOOL_EC_INFO /\
    keys growth = [py "송도고"; py "Sheet1"] /\
    In (py "하늘고") (keys SCHOOL_EC_INFO) /\ ~ In (py "하늘고") (keys growth) /\
    In (py "Sheet1") (keys growth) /\ ~ In (py "Sheet1") (keys SCHOOL_EC_INFO).
Proof.
  eexists. eexists.
  split; [reflexivity|]. split; [reflexivity|].
  split; [reflexivity|]. split; [reflexivity|].
  split; [in_list|]. split; [vm_compute; intros [H|[H|[]]]; discriminate H|].
  split; [in_list|].
  vm_compute. intros [H|[H|[H|[H|[]]]]]; discriminate H.
Qed.

(** The sample directory without the CSV of "아라고". *)
Lemma C4_witness :
  In (py "아라고") (keys SCHOOL_EC_INFO) /\
  find_file_by_name Hangul.nfc Hangul.nfd Sample.dir_missing_env
    (env_filename (py "아라고")) = None /\
  load_environment_data Hangul.nfc Hangul.nfd Sample.dir_missing_env
    = ([st_error (ENV_MISSING ++ env_filename (py "아라고"))], Ret None) /\
  result (main Hangul.nfc Hangul.nfd Sample.dir_missing_env
            Float64.mean Float64.mean (py "하늘고")) = Stop /\
  Forall (fun e => is_render e = false)
         (events (main Hangul.nfc Hangul.nfd Sample.dir_missing_env
                    Float64.mean Float64.mean (py "하늘고"))).
Proof.
  assert (H1 : In (py "아라고") (keys SCHOOL_EC_INFO)) by in_list.
  assert (H2 : find_file_by_name Hangul.nfc Hangul.nfd Sample.dir_missing_env
                 (env_filename (py "아라고")) = None) by (vm_compute; reflexivity).
  split; [exact H1|]. split; [exact H2|]. split; [vm_compute; reflexivity|].
  destruct (C4_missing_environment_file_stops Hangul.nfc Hangul.nfd Sample.dir_missing_env
              Float64.mean Float64.mean (py "아라고") (py "하늘고") H1 H2)
    as [before [first [after [_ [_ [_ [_ H]]]]]]].
  exact H.
Defined.

(** The sheet "Sheet1" of the odd workbook. *)
Lemma C5_witness :
  let xlsx_path := Sample.xlsx_file (py "growth.xlsx") Sample.odd_workbook in
  find is_xlsx Sample.dir_odd_sheet = Some xlsx_path /\
  In (py "Sheet1", [Sample.plant 7.0]) (sheets xlsx_path) /\
  dict_get SCHOOL_EC_INFO (py "Sheet1") = None /\
  exists growth df,
    load_growth_data Sample.dir_odd_sheet = ([], Ret (Some growth)) /\
    dict_get growth (py "Sheet1") = Some df /\
    (forall r, In r df -> growth_school r = py "Sheet1" /\ growth_ec r = None) /\
    (NoDup (map fst (sheets xlsx_path)) ->
     df = map (fun r => {| growth_row := r; growth_school := py "Sheet1";
                           growth_ec := None |}) [Sample.plant 7.0]).
Proof.
  cbv zeta.
  assert (H1 : find is_xlsx Sample.dir_odd_sheet
               = Some (Sample.xlsx_file (py "growth.xlsx") Sample.odd_workbook))
    by (vm_compute; reflexivity).
  assert (H2 : In (py "Sheet1", [Sample.plant 7.0])
                  (sheets (Sample.xlsx_file (py "growth.xlsx") Sample.odd_workbook)))
    by (right; left; reflexivity).
  assert (H3 : dict_get SCHOOL_EC_INFO (py "Sheet1") = None) by (vm_compute; reflexivity).
  split; [exact H1|]. split; [exact H2|]. split; [exact H3|].
  exact (C5_unknown_sheet_is_loaded Sample.dir_odd_sheet _ _ _ H1 H2 H3).
Defined.

(** The run on the directory with the odd workbook. *)
Lemma C6_witness :
  exists env_data growth_data k,
    result (load_environment_data Hangul.nfc Hangul.nfd Sample.dir_odd_sheet)
      = Ret (Some env_data) /\
    result (load_growth_data Sample.dir_odd_sheet) = Ret (Some growth_data) /\
    In (py "Sheet1") (keys growth_data) /\
    dict_get SCHOOL_EC_INFO (py "Sheet1") = None /\
    tab1 Float64.mean env_data growth_data
      = ([st_subheader (py "연구 배경 및 목적")], Raise (KeyError k)) /\
    main Hangul.nfc Hangul.nfd Sample.dir_odd_sheet Float64.mean Float64.mean ALL_SCHOOLS
      = ([st_title (py "🌱 극지식물 최적 EC 농도 연구");
          st_subheader (py "연구 배경 및 목적")], Raise (KeyError k)).
Proof.
  pose (env := match result (load_environment_data Hangul.nfc Hangul.nfd
                               Sample.dir_odd_sheet)
               with Ret (Some e) => e | _ => [] end).
  pose (growth := match result (load_growth_data Sample.dir_odd_sheet)
                  with Ret (Some g) => g | _ => [] end).
  assert (H1 : result (load_environment_data Hangul.nfc Hangul.nfd Sample.dir_odd_sheet)
               = Ret (Some env)) by (vm_compute; reflexivity).
  assert (H2 : result (load_growth_data Sample.dir_odd_sheet) = Ret (Some growth))
    by (vm_compute; reflexivity).
  assert (H3 : In (py "Sheet1") (keys growth)) by in_list.
  assert (H4 : dict_get SCHOOL_EC_INFO (py "Sheet1") = None) by (vm_compute; reflexivity).
  destruct (C6_unknown_sheet_breaks_overview Hangul.nfc Hangul.nfd Sample.dir_odd_sheet
              Float64.mean Float64.mean
              env growth (py "Sheet1") ALL_SCHOOLS H3 H4)
    as [before [k [after [_ [_ [_ [_ [Htab Hmain]]]]]]]].
  exists env, growth, k. repeat (split; [assumption|]). exact (Hmain H1 H2).
Defined.

(** Two selections on the complete sample directory. *)
Lemma C10_witness :
  In ALL_SCHOOLS school_options /\
  In (py "하늘고") school_options /\
  exports (events (main Hangul.nfc Hangul.nfd Sample.data_dir
                     Float64.mean Float64.mean ALL_SCHOOLS))
  = exports (events (main Hangul.nfc Hangul.nfd Sample.data_dir
                       Float64.mean Float64.mean (py "하늘고"))) /\
  result (main Hangul.nfc Hangul.nfd Sample.data_dir
            Float64.mean Float64.mean ALL_SCHOOLS) = Ret tt /\
  length (events (main Hangul.nfc Hangul.nfd Sample.data_dir
                    Float64.mean Float64.mean ALL_SCHOOLS)) = 29%nat /\
  length (events (main Hangul.nfc Hangul.nfd Sample.data_dir
                    Float64.mean Float64.mean (py "하늘고"))) = 26%nat.
Proof.
  assert (H1 : In ALL_SCHOOLS school_options) by in_list.
  assert (H2 : In (py "하늘고") school_options) by in_list.
  split; [exact H1|]. split; [exact H2|].
  split; [|split; [|split]; vm_compute; reflexivity].
  apply (C10_exports_ignore_site_filter Hangul.nfc Hangul.nfd Sample.data_dir
           Float64.mean Float64.mean
           ALL_SCHOOLS (py "하늘고") H1 H2).
Defined.

(** C9 as stated fails: the sites of this mapping have 2, 1, 1 and 1 rows,
    and the pooled means of the overview are the means of the site means
    (every temperature is 20 and every humidity 50, so that each sum and
    each mean is exact in binary64, in whatever order it is taken). *)
Lemma C9_counterexample :
  unequal_row_counts Sample.flat_env_data /\
  result (avg_temp Float64.mean Sample.flat_env_data)
    = Ret (mean_of_site_means Float64.mean temperature Sample.flat_env_data) /\
  result (avg_hum Float64.mean Sample.flat_env_data)
    = Ret (mean_of_site_means Float64.mean humidity Sample.flat_env_data).
Proof.
  split; [|split; reflexivity].
  eexists _, _. split; [left; reflexivity|].
  split; [right; left; reflexivity|]. cbn. discriminate.
Qed.


(** C7 as stated fails: the growth table loaded from the directory with the
    odd workbook has a row without a target EC, which is in no group, but
    the run on that directory, whatever is selected, raises in the overview
    and neither shows nor hands out a growth table. *)
Lemma C7_counterexample :
  exists growth_data,
    result (load_growth_data Sample.dir_odd_sheet) = Ret (Some growth_data) /\
    In (Sample.record (py "Sheet1") None 7.0) (concat (values growth_data)) /\
    group_size (concat (values growth_data)) = [(1.0%Q, 2%nat)] /\
    forall school_option,
      let run := main Hangul.nfc Hangul.nfd Sample.dir_odd_sheet
                   Float64.mean Float64.mean school_option in
      run = ([st_title (py "🌱 극지식물 최적 EC 농도 연구");
              st_subheader (py "연구 배경 및 목적")], Raise (KeyError (py "Sheet1"))) /\
      growth_tables (events run) = [] /\
      exports (events run) = [].
Proof.
  eexists. split; [vm_compute; reflexivity|].
  split; [do 2 right; left; reflexivity|].
  split; [vm_compute; reflexivity|].
  intros school_option. cbv zeta.
  assert (Hrun : main Hangul.nfc Hangul.nfd Sample.dir_odd_sheet
                   Float64.mean Float64.mean school_option
                 = ([st_title (py "🌱 극지식물 최적 EC 농도 연구");
                     st_subheader (py "연구 배경 및 목적")],
                    Raise (KeyError (py "Sheet1"))))
    by (vm_compute; reflexivity).
  rewrite Hrun. repeat split.
Qed.

(** The run on the complete sample directory: it completes, the growth
    table is shown and handed out, and every row of it has a target EC. *)
Lemma C7_witness :
  let run := main Hangul.nfc Hangul.nfd Sample.data_dir
               Float64.mean Float64.mean ALL_SCHOOLS in
  exists env_data growth_data,
    result (load_environment_data Hangul.nfc Hangul.nfd Sample.data_dir)
      = Ret (Some env_data) /\
    result (load_growth_data Sample.data_dir) = Ret (Some growth_data) /\
    result run = Ret tt /\
    concat (values growth_data) = Sample.growth_all /\
    In (st_dataframe (GrowthTable (concat (values growth_data)))) (events run) /\
    In (ToExcel (concat (values growth_data))) (exports (events run)) /\
    with_ec (concat (values growth_data)) = concat (values growth_data).
Proof.
  cbv zeta.
  pose (env := match result (load_environment_data Hangul.nfc Hangul.nfd Sample.data_dir)
               with Ret (Some e) => e | _ => [] end).
  pose (growth := match result (load_growth_data Sample.data_dir)
                  with Ret (Some g) => g | _ => [] end).
  assert (H1 : result (load_environment_data Hangul.nfc Hangul.nfd Sample.data_dir)
               = Ret (Some env)) by (vm_compute; reflexivity).
  assert (H2 : result (load_growth_data Sample.data_dir) = Ret (Some growth))
    by (vm_compute; reflexivity).
  assert (H3 : result (main Hangul.nfc Hangul.nfd Sample.data_dir
                         Float64.mean Float64.mean ALL_SCHOOLS) = Ret tt)
    by (vm_compute; reflexivity).
  exists env, growth.
  split; [exact H1|]. split; [exact H2|]. split; [exact H3|].
  split; [vm_compute; reflexivity|].
  destruct (C7_null_ec_rows_are_grouped_nowhere_and_never_shown
              Hangul.nfc Hangul.nfd Sample.data_dir Float64.mean Float64.mean growth)
    as [_ [_ [_ [_ [_ [_ [_ Hrun]]]]]]].
  destruct (Hrun env ALL_SCHOOLS H1 H2) as [_ [_ Hshown]].
  exact (Hshown H3).
Defined.

(* ================================================================== *)
(** ** The environment loader and the spelling of names on disk *)

Section Spelling.

Variables nfc nfd : pystr -> pystr.
Hypothesis nfc_after_nfd : forall s, nfc (nfd s) = nfc s.
Hypothesis nfd_after_nfc : forall s, nfd (nfc s) = nfd s.

Lemma load_environment_loop_renamed (g : pystr -> pystr) (DATA_DIR : list Path) :
  (forall s, nfc (g s) = nfc s) ->
  forall schools env_data,
    load_environment_loop nfc nfd (map (rename g) DATA_DIR) schools env_data
    = load_environment_loop nfc nfd DATA_DIR schools env_data.
Proof.
  intros Hg. induction schools as [|school rest IH]; intros env_data;
    cbn [load_environment_loop]; [reflexivity|].
  rewrite (find_rename nfc nfd nfc_after_nfd nfd_after_nfc g DATA_DIR _ Hg).
  destruct (find_file_by_name nfc nfd DATA_DIR (school ++ ENV_SUFFIX)) as [file_path|];
    cbn [option_map rename read_csv]; [apply IH | reflexivity].
Qed.

(** X14. The environment loader does not depend on the normalization form
    of the names on disk: for the directory with every name composed, or
    every name decomposed, it shows and returns the same as for the
    directory as it is. *)
Theorem X14_environment_load_ignores_name_form (DATA_DIR : list Path) :
  load_environment_data nfc nfd (map (rename nfc) DATA_DIR)
    = load_environment_data nfc nfd DATA_DIR /\
  load_environment_data nfc nfd (map (rename nfd) DATA_DIR)
    = load_environment_data nfc nfd DATA_DIR.
Proof.
  split; unfold load_environment_data; apply load_environment_loop_renamed.
  - apply (nfc_idempotent nfc nfd nfc_after_nfd nfd_after_nfc).
  - exact nfc_after_nfd.
Qed.

End Spelling.

(* ================================================================== *)
(** ** The further properties at the sample directories *)

(** The environment mapping of the complete sample directory. *)
Lemma X2_witness :
  exists env,
    result (load_environment_data Hangul.nfc Hangul.nfd Sample.data_dir)
      = Ret (Some env) /\
    env = map (fun s => (s, env_frame_of Hangul.nfc Hangul.nfd Sample.data_dir s))
              (keys SCHOOL_EC_INFO) /\
    dict_get env (py "하늘고")
      = Some [tag_env (py "하늘고") (Sample.env 30 50)].
Proof.
  pose (env := match result (load_environment_data Hangul.nfc Hangul.nfd Sample.data_dir)
               with Ret (Some e) => e | _ => [] end).
  assert (H : result (load_environment_data Hangul.nfc Hangul.nfd Sample.data_dir)
              = Ret (Some env)) by (vm_compute; reflexivity).
  exists env. split; [exact H|].
  destruct (X2_environment_mapping_content Hangul.nfc Hangul.nfd Sample.data_dir env H)
    as [_ [Henv _]].
  split; [exact Henv|]. vm_compute. reflexivity.
Defined.

(** The growth mapping of the complete sample directory. *)
Lemma X3_witness :
  let xlsx_path := Sample.xlsx_file (py "4개교_생육결과데이터.XLSX") Sample.workbook in
  find is_xlsx Sample.data_dir = Some xlsx_path /\
  NoDup (map fst (sheets xlsx_path)) /\
  load_growth_data Sample.data_dir
  = ([], Ret (Some (map (fun sh => (fst sh, map (tag_growth (fst sh)) (snd sh)))
                        (sheets xlsx_path)))).
Proof.
  cbv zeta.
  assert (H1 : find is_xlsx Sample.data_dir
               = Some (Sample.xlsx_file (py "4개교_생육결과데이터.XLSX") Sample.workbook))
    by (vm_compute; reflexivity).
  assert (H2 : NoDup (map fst (sheets (Sample.xlsx_file (py "4개교_생육결과데이터.XLSX")
                                         Sample.workbook)))).
  { vm_compute. repeat (constructor; [cbn [In]; intuition discriminate|]). constructor. }
  split; [exact H1|]. split; [exact H2|].
  exact (proj1 (X3_growth_mapping_content Sample.data_dir _ H1 H2)).
Defined.

(** The directory without workbook: two messages, then the stop. *)
Lemma X4_witness :
  find is_xlsx Sample.dir_no_workbook = None /\
  main Hangul.nfc Hangul.nfd Sample.dir_no_workbook Float64.mean Float64.mean ALL_SCHOOLS
  = ([ st_error (ENV_MISSING ++ env_filename (py "하늘고"));
       st_error XLSX_MISSING ], Stop).
Proof.
  assert (H : find is_xlsx Sample.dir_no_workbook = None) by (vm_compute; reflexivity).
  split; [exact H|].
  destruct (X4_missing_workbook_stops Hangul.nfc Hangul.nfd Sample.dir_no_workbook
              Float64.mean Float64.mean
              ALL_SCHOOLS H) as [_ [-> _]].
  vm_compute. reflexivity.
Defined.

(** The overview of the sample workbook. *)
Lemma X5_witness :
  let growth_data := load_growth_loop Sample.workbook [] in
  (forall s, In s (keys growth_data) -> dict_get SCHOOL_EC_INFO s <> None) /\
  values Sample.uneven_env_data <> [] /\
  exists overview_rows,
    result (tab1 Float64.mean Sample.uneven_env_data growth_data) = Ret tt /\
    map ov_school overview_rows = keys growth_data /\
    map ov_count overview_rows = [2; 1; 1; 1]%nat.
Proof.
  cbv zeta.
  assert (H1 : forall s, In s (keys (load_growth_loop Sample.workbook [])) ->
                         dict_get SCHOOL_EC_INFO s <> None).
  { intros s Hs. vm_compute in Hs.
    destruct Hs as [<-|[<-|[<-|[<-|[]]]]]; vm_compute; discriminate. }
  assert (H2 : values Sample.uneven_env_data <> []) by discriminate.
  split; [exact H1|]. split; [exact H2|].
  destruct (X5_overview_table_and_total Float64.mean Sample.uneven_env_data
              (load_growth_loop Sample.workbook []) H1 H2)
    as [rows [Hret [_ [Hs [Hc _]]]]].
  exists rows. split; [exact Hret|]. split; [exact Hs|]. rewrite Hc. reflexivity.
Defined.

(** One site selected: one time-series chart, with the line at 2.0. *)
Lemma X7_witness :
  keys Sample.uneven_env_data = keys SCHOOL_EC_INFO /\
  exists df,
    dict_get Sample.uneven_env_data (py "하늘고") = Some df /\
    time_series_charts (events (tab2 Float64.mean (py "하늘고") Sample.uneven_env_data))
    = [fig_ts (py "하늘고") df 2.0%Q] /\
    length (time_series_charts (events (tab2 Float64.mean ALL_SCHOOLS Sample.uneven_env_data)))
    = 4%nat.
Proof.
  assert (H : keys Sample.uneven_env_data = keys SCHOOL_EC_INFO) by reflexivity.
  split; [exact H|].
  destruct (X7_site_filter_selects_time_series Float64.mean Sample.uneven_env_data H)
    as [Hone Hall].
  destruct (Hone (py "하늘고")) as [df [t [Hdf [Ht Hcharts]]]]; [in_list|].
  exists df. split; [exact Hdf|]. split.
  - rewrite Hcharts. vm_compute in Ht. injection Ht as <-. reflexivity.
  - apply Forall2_length in Hall. rewrite <- Hall. reflexivity.
Defined.

(** The complete sample directory: the run completes. *)
Lemma X11_witness :
  In ALL_SCHOOLS school_options /\
  result (main Hangul.nfc Hangul.nfd Sample.data_dir
            Float64.mean Float64.mean ALL_SCHOOLS) = Ret tt /\
  (forall s, In s (keys SCHOOL_EC_INFO) ->
     find_file_by_name Hangul.nfc Hangul.nfd Sample.data_dir (env_filename s) <> None) /\
  result (main Hangul.nfc Hangul.nfd Sample.dir_odd_sheet
            Float64.mean Float64.mean ALL_SCHOOLS) <> Ret tt.
Proof.
  assert (H : In ALL_SCHOOLS school_options) by in_list.
  split; [exact H|].
  assert (Hret : result (main Hangul.nfc Hangul.nfd Sample.data_dir
                           Float64.mean Float64.mean ALL_SCHOOLS) = Ret tt)
    by (vm_compute; reflexivity).
  split; [exact Hret|]. split.
  - apply (proj1 (X11_run_completes_iff Hangul.nfc Hangul.nfd Sample.data_dir
                    Float64.mean Float64.mean
                    ALL_SCHOOLS H) Hret).
  - intros Hodd.
    apply (proj1 (X11_run_completes_iff Hangul.nfc Hangul.nfd Sample.dir_odd_sheet
                    Float64.mean Float64.mean
                    ALL_SCHOOLS H)) in Hodd.
    destruct Hodd as [_ [xlsx [Hfind [Hknown _]]]].
    vm_compute in Hfind. injection Hfind as <-.
    apply (Hknown (py "Sheet1")); [in_list | vm_compute; reflexivity].
Defined.

(** The EC 1.0 group of the sample workbook is the sheet "송도고". *)
Lemma X13_witness :
  let rows := [Sample.plant 4.0; Sample.plant 6.0] in
  NoDup (map fst Sample.workbook) /\
  In (py "송도고", rows) Sample.workbook /\
  dict_get SCHOOL_EC_INFO (py "송도고") = Some 1.0%Q /\
  rows <> [] /\
  filter (has_ec 1.0) (concat (values (load_growth_loop Sample.workbook [])))
  = map (tag_growth (py "송도고")) rows /\
  In (1.0%Q, mean_of_group Float64.mean (map fresh_weight rows))
     (ec_group Float64.mean (concat (values (load_growth_loop Sample.workbook [])))).
Proof.
  cbv zeta.
  assert (H1 : NoDup (map fst Sample.workbook)).
  { vm_compute. repeat (constructor; [cbn [In]; intuition discriminate|]). constructor. }
  assert (H2 : In (py "송도고", [Sample.plant 4.0; Sample.plant 6.0]) Sample.workbook)
    by (left; reflexivity).
  assert (H3 : dict_get SCHOOL_EC_INFO (py "송도고") = Some 1.0%Q)
    by (vm_compute; reflexivity).
  assert (H4 : [Sample.plant 4.0; Sample.plant 6.0] <> []) by discriminate.
  repeat (split; [assumption|]).
  destruct (X13_ec_groups_are_site_frames Float64.mean Sample.workbook (py "송도고")
              [Sample.plant 4.0; Sample.plant 6.0] 1.0%Q H1 H2 H3 H4) as [Hf [_ Hm]].
  split; [exact Hf | exact Hm].
Defined.

(** The sample directory with every name decomposed loads the same. *)
Lemma X14_witness :
  load_environment_data Hangul.nfc Hangul.nfd
    (map (rename Hangul.nfd) Sample.data_dir)
  = load_environment_data Hangul.nfc Hangul.nfd Sample.data_dir /\
  map name (map (rename Hangul.nfd) Sample.data_dir) <> map name Sample.data_dir.
Proof.
  split.
  - apply (X14_environment_load_ignores_name_form Hangul.nfc Hangul.nfd
             HangulFacts.hangul_nfc_of_nfd HangulFacts.hangul_nfd_of_nfc
             Sample.data_dir).
  - vm_compute. discriminate.
Defined.
